(** * tospdif: encapsulation of A/52, E-AC-3, DTS and TrueHD frames into
      IEC 61937 (S/PDIF) packets

    A shallow embedding of [modules/audio_filter/converter/tospdif.c] and the
    properties of its output packets.

    - a byte is a [Z] in [0, 256); a buffer is a [list Z];
    - [size_t] is 64 bits wide, [unsigned] is 32 bits, [int] is 32 bits
      two's complement: every C operation that can wrap is followed by the
      corresponding reduction ([to_size_t], [to_unsigned], [to_int], ...);
    - the filter's private data [filter_sys_t] is threaded through a state
      monad [M]; a failed [assert] and an access outside a buffer end the
      run ([AssertFailed], [OutOfBounds]);
    - the blocks handed to [block_Release] are returned next to the result
      of the function that releases them. *)

From Stdlib Require Import ZArith Lia Bool.
From stdpp Require Import base list.

Local Open Scope Z_scope.

(** ** Machine integers *)

Definition to_size_t (z : Z) : Z := z mod 2 ^ 64.
Definition to_unsigned (z : Z) : Z := z mod 2 ^ 32.
Definition to_uint16 (z : Z) : Z := z mod 2 ^ 16.
Definition to_uint8 (z : Z) : Z := z mod 2 ^ 8.
Definition to_int (z : Z) : Z := (z + 2 ^ 31) mod 2 ^ 32 - 2 ^ 31.

(** ** Blocks *)

(** [block_t]: the fields of a VLC block the filter reads or writes.
    [i_buffer] is the number of valid bytes at [p_buffer]; the filter lowers
    it when a header parser reports a shorter frame, so it is kept apart
    from the length of the list. *)
Record block_t : Type := Block
  { p_buffer : list Z;
    i_buffer : Z;
    i_nb_samples : Z;
    i_pts : Z;
    i_dts : Z;
    i_length : Z }.

Definition set_p_buffer (b : block_t) (buf : list Z) : block_t :=
  Block buf (i_buffer b) (i_nb_samples b) (i_pts b) (i_dts b) (i_length b).
Definition set_i_buffer (b : block_t) (n : Z) : block_t :=
  Block (p_buffer b) n (i_nb_samples b) (i_pts b) (i_dts b) (i_length b).
Definition set_i_nb_samples (b : block_t) (n : Z) : block_t :=
  Block (p_buffer b) (i_buffer b) n (i_pts b) (i_dts b) (i_length b).
Definition set_i_pts (b : block_t) (t : Z) : block_t :=
  Block (p_buffer b) (i_buffer b) (i_nb_samples b) t (i_dts b) (i_length b).
Definition set_i_dts (b : block_t) (t : Z) : block_t :=
  Block (p_buffer b) (i_buffer b) (i_nb_samples b) (i_pts b) t (i_length b).
Definition set_i_length (b : block_t) (t : Z) : block_t :=
  Block (p_buffer b) (i_buffer b) (i_nb_samples b) (i_pts b) (i_dts b) t.

(** The allocator as one call sees it: whether the next [block_Alloc]
    fails, and the bytes the fresh memory happens to hold. *)
Record heap_t : Type := Heap
  { alloc_fails : bool;
    fresh : nat -> Z }.

(** Modelled from the spec: [block_Alloc] of the VLC core, which is not part
    of the filter's file. "Allocates the Output Packet (fails with
    out-of-memory if allocation fails)": a block of exactly the requested
    size, contents unspecified, metadata cleared. *)
Definition block_Alloc (h : heap_t) (i_size : Z) : option block_t :=
  if alloc_fails h then None
  else Some (Block (map (fun i => to_uint8 (fresh h i)) (seq 0 (Z.to_nat i_size)))
                   i_size 0 0 0 0).

(** ** Formats and filter *)

(** Input codecs accepted by [Open]; any other input format makes [Open]
    fail, so no filter instance exists for it. *)
Inductive vlc_codec_in : Type :=
  | VLC_CODEC_A52 | VLC_CODEC_EAC3 | VLC_CODEC_MLP | VLC_CODEC_TRUEHD
  | VLC_CODEC_DTS.

(** Output formats accepted by [Open]: 16-bit words little or big endian. *)
Inductive vlc_codec_out : Type := VLC_CODEC_SPDIFL | VLC_CODEC_SPDIFB.

Record filter_t : Type := Filter
  { fmt_in : vlc_codec_in;
    fmt_out : vlc_codec_out }.

(** [filter_sys_t]. The union [spec] is one 32-bit cell, read as
    [eac3.i_nb_blocks_substream0] by the E-AC-3 strategy and as
    [truehd.i_frame_count] by the TrueHD strategy. *)
Record filter_sys_t : Type := Sys
  { p_out_buf : option block_t;
    i_out_offset : Z;
    spec : Z }.

Definition SPDIF_HEADER_SIZE : Z := 8.

Definition IEC61937_AC3 : Z := 0x01.
Definition IEC61937_EAC3 : Z := 0x15.
Definition IEC61937_TRUEHD : Z := 0x16.
Definition IEC61937_DTS1 : Z := 0x0B.
Definition IEC61937_DTS2 : Z := 0x0C.
Definition IEC61937_DTS3 : Z := 0x0D.

(** What [write_init] returns. *)
Inductive vlc_status : Type := VLC_SUCCESS | VLC_ENOMEM.

(** What a strategy returns. *)
Inductive spdif_ret : Type := SPDIF_SUCCESS | SPDIF_MORE_DATA | SPDIF_ERROR.

(** Modelled from the spec: the constant [A52_FRAME_NB] of the A/52
    packetizer header, "max-samples-per-frame(1536)". *)
Definition A52_FRAME_NB : Z := 1536.

(** ** Header parsers (external to the filter) *)

(** Modelled from the spec: the result types of the two header parsers,
    declared in the packetizers' headers. For A/52: "size, sample count,
    stream-type, sub-stream id, per-sync-frame block count" and whether the
    stream is E-AC-3; for DTS: "frame size, frame length in samples". The
    names are the ones the filter uses. *)
Module a52.
Inductive eac3_strmtyp : Type :=
  | EAC3_STRMTYP_INDEPENDENT
  | EAC3_STRMTYP_DEPENDENT
  | EAC3_STRMTYP_AC3_CONVERT
  | EAC3_STRMTYP_RESERVED.

(** The fields of [vlc_a52_header_t] the filter reads. *)
Record vlc_a52_header_t : Type := Header
  { b_eac3 : bool;
    i_size : Z;
    i_samples : Z;
    i_blocks_per_sync_frame : Z;
    strmtyp : eac3_strmtyp;
    i_substreamid : Z }.

Definition strmtyp_eqb (a b : eac3_strmtyp) : bool :=
  match a, b with
  | EAC3_STRMTYP_INDEPENDENT, EAC3_STRMTYP_INDEPENDENT
  | EAC3_STRMTYP_DEPENDENT, EAC3_STRMTYP_DEPENDENT
  | EAC3_STRMTYP_AC3_CONVERT, EAC3_STRMTYP_AC3_CONVERT
  | EAC3_STRMTYP_RESERVED, EAC3_STRMTYP_RESERVED => true
  | _, _ => false
  end.
End a52.

Module dts_header.
(** The fields of [vlc_dts_header_t] the filter reads. *)
Record vlc_dts_header_t : Type := Header
  { i_frame_size : Z;
    i_frame_length : Z }.
End dts_header.

(** What the filter takes from its environment: the two header parsers
    ([None] is a parse failure) and the S/PDIF frame size [AOUT_SPDIF_SIZE]
    of the audio output header. *)
Class Externals : Type :=
  { vlc_a52_header_Parse : list Z -> Z -> option a52.vlc_a52_header_t;
    vlc_dts_header_Parse : list Z -> Z -> option dts_header.vlc_dts_header_t;
    AOUT_SPDIF_SIZE : Z }.

(** ** The monad of the filter *)

Inductive outcome (A : Type) : Type :=
  | Done (a : A) (p_sys : filter_sys_t)
  | AssertFailed
  | OutOfBounds.
Arguments Done {A} a p_sys.
Arguments AssertFailed {A}.
Arguments OutOfBounds {A}.

Definition M (A : Type) : Type := filter_sys_t -> outcome A.

Definition ret {A} (a : A) : M A := fun s => Done a s.

Definition bind {A B} (m : M A) (k : A -> M B) : M B :=
  fun s => match m s with
           | Done a s' => k a s'
           | AssertFailed => AssertFailed
           | OutOfBounds => OutOfBounds
           end.

Declare Scope spdif_scope.
Delimit Scope spdif_scope with spdif.
Notation "x <- m ; k" := (bind m (fun x => k))
  (at level 20, m at level 100, k at level 200, only parsing) : spdif_scope.
Notation "m ;; k" := (bind m (fun _ => k))
  (at level 100, k at level 200, only parsing, right associativity)
  : spdif_scope.
Local Open Scope spdif_scope.

Definition get : M filter_sys_t := fun s => Done s s.
Definition put (s : filter_sys_t) : M unit := fun _ => Done tt s.
Definition assert (b : bool) : M unit :=
  fun s => if b then Done tt s else AssertFailed.
Definition access {A} (o : option A) : M A :=
  fun s => match o with Some a => Done a s | None => OutOfBounds end.

(** [assert( p_sys->p_out_buf != NULL )], yielding the block. *)
Definition assert_out_buf : M block_t :=
  fun s => match p_out_buf s with Some b => Done b s | None => AssertFailed end.

Definition set_out_buf (o : option block_t) : M unit :=
  fun s => Done tt (Sys o (i_out_offset s) (spec s)).
Definition set_out_offset (off : Z) : M unit :=
  fun s => Done tt (Sys (p_out_buf s) off (spec s)).
Definition set_spec (c : Z) : M unit :=
  fun s => Done tt (Sys (p_out_buf s) (i_out_offset s) c).

(** ** Memory primitives *)

(** Reading [n] bytes at the start of a buffer. *)
Definition load (buf : list Z) (n : Z) : option (list Z) :=
  if (0 <=? n) && (n <=? Z.of_nat (length buf))
  then Some (take (Z.to_nat n) buf) else None.

(** Reading the byte at index [i]. *)
Definition load_byte (buf : list Z) (i : Z) : option Z :=
  if 0 <=? i then buf !! Z.to_nat i else None.

(** Overwriting [length data] bytes of [buf] from offset [off] on. *)
Definition splice (buf : list Z) (off : Z) (data : list Z) : list Z :=
  take (Z.to_nat off) buf ++ data
    ++ drop (Z.to_nat off + length data)%nat buf.

Definition store (buf : list Z) (off : Z) (data : list Z) : option (list Z) :=
  if (0 <=? off) && (off + Z.of_nat (length data) <=? Z.of_nat (length buf))
  then Some (splice buf off data) else None.

(** The [len] bytes of [buf] from offset [off] on. *)
Definition sub_bytes (off len : Z) (buf : list Z) : list Z :=
  take (Z.to_nat len) (drop (Z.to_nat off) buf).

(** [swab] of the C library: copy exchanging adjacent even and odd bytes
    (the filter only calls it with an even count). *)
Fixpoint swab (l : list Z) : list Z :=
  match l with
  | a :: b :: r => b :: a :: swab r
  | _ => []
  end.

(** Modelled from the spec: [SetWBE] and [SetWLE] of the VLC core headers,
    which are not part of the filter's file. "All 16-bit fields are written
    in the byte order of the output format": the two bytes of a 16-bit
    value, most significant first or least significant first. *)
Definition SetWBE (i_val : Z) : list Z :=
  [Z.land (Z.shiftr i_val 8) 255; Z.land i_val 255].
Definition SetWLE (i_val : Z) : list Z :=
  [Z.land i_val 255; Z.land (Z.shiftr i_val 8) 255].

(** ** The filter *)

Section Filter.
Context {ext : Externals}.

Definition is_big_endian (p_filter : filter_t) (p_in_buf : block_t) : M bool :=
  match fmt_in p_filter with
  | VLC_CODEC_A52 | VLC_CODEC_EAC3 | VLC_CODEC_MLP | VLC_CODEC_TRUEHD =>
      ret true
  | VLC_CODEC_DTS =>
      b0 <- access (load_byte (p_buffer p_in_buf) 0) ;
      ret ((b0 =? 0x1F) || (b0 =? 0x7F))
  end.

Definition b_output_big_endian (p_filter : filter_t) : bool :=
  match fmt_out p_filter with
  | VLC_CODEC_SPDIFB => true
  | VLC_CODEC_SPDIFL => false
  end.

Definition write_16 (p_filter : filter_t) (i_val : Z) : list Z :=
  match fmt_out p_filter with
  | VLC_CODEC_SPDIFB => SetWBE i_val
  | VLC_CODEC_SPDIFL => SetWLE i_val
  end.

Definition write_padding (i_size : Z) : M unit :=
  out <- assert_out_buf ;
  p_sys <- get ;
  assert (i_size <=? to_size_t (i_buffer out - i_out_offset p_sys)) ;;
  buf <- access (store (p_buffer out) (i_out_offset p_sys)
                       (replicate (Z.to_nat i_size) 0)) ;
  set_out_buf (Some (set_p_buffer out buf)) ;;
  set_out_offset (to_size_t (i_out_offset p_sys + i_size)).

(** [i_size & ~1] is [Z.land i_size (-2)] and [i_size & 1] is
    [Z.land i_size 1]. *)
Definition write_data (p_filter : filter_t) (p_buf : list Z) (i_size : Z)
    (b_input_big_endian : bool) : M unit :=
  out <- assert_out_buf ;
  p_sys <- get ;
  let p_out := i_out_offset p_sys in
  assert (i_size <=? to_size_t (i_buffer out - i_out_offset p_sys)) ;;
  src <- access (load p_buf (Z.land i_size (-2))) ;
  buf <- access (store (p_buffer out) p_out
                   (if xorb b_input_big_endian (b_output_big_endian p_filter)
                    then swab src else src)) ;
  set_out_buf (Some (set_p_buffer out buf)) ;;
  set_out_offset (to_size_t (i_out_offset p_sys + Z.land i_size (-2))) ;;
  if Z.land i_size 1 =? 0 then ret tt
  else
    p_sys <- get ;
    assert (2 <=? to_size_t (i_buffer out - i_out_offset p_sys)) ;;
    last <- access (load_byte p_buf (i_size - 1)) ;
    buf' <- access (store buf (p_out + Z.land i_size (-2))
                      (write_16 p_filter (to_uint16 (Z.shiftl last 8)))) ;
    set_out_buf (Some (set_p_buffer out buf')) ;;
    set_out_offset (to_size_t (i_out_offset p_sys + 2)).

Definition write_buffer (p_filter : filter_t) (p_in_buf : block_t) : M unit :=
  be <- is_big_endian p_filter p_in_buf ;
  write_data p_filter (p_buffer p_in_buf) (i_buffer p_in_buf) be ;;
  out <- assert_out_buf ;
  set_out_buf (Some (set_i_length out (i_length out + i_length p_in_buf))).

Definition write_init (h : heap_t) (p_in_buf : block_t)
    (i_out_size i_nb_samples : Z) : M vlc_status :=
  p_sys <- get ;
  assert (match p_out_buf p_sys with None => true | Some _ => false end) ;;
  assert ((SPDIF_HEADER_SIZE <? i_out_size) && (Z.land i_out_size 3 =? 0)) ;;
  match block_Alloc h i_out_size with
  | None => set_out_buf None ;; ret VLC_ENOMEM
  | Some b =>
      set_out_buf
        (Some (set_i_nb_samples
                 (set_i_pts (set_i_dts b (i_dts p_in_buf)) (i_pts p_in_buf))
                 i_nb_samples)) ;;
      set_out_offset SPDIF_HEADER_SIZE ;;
      ret VLC_SUCCESS
  end.

Definition write_finalize (p_filter : filter_t) (i_data_type i_length_mul : Z)
    : M unit :=
  let i_data_type := to_uint16 i_data_type in
  let i_length_mul := to_uint8 i_length_mul in
  out <- assert_out_buf ;
  (if i_data_type =? 0 then ret tt
   else
     p_sys <- get ;
     assert (SPDIF_HEADER_SIZE <? i_out_offset p_sys) ;;
     assert ((i_length_mul =? 1) || (i_length_mul =? 8)) ;;
     b0 <- access (store (p_buffer out) 0 (write_16 p_filter 0xf872)) ;
     b2 <- access (store b0 2 (write_16 p_filter 0x4e1f)) ;
     b4 <- access (store b2 4 (write_16 p_filter i_data_type)) ;
     b6 <- access (store b4 6
             (write_16 p_filter
                (to_uint16 (to_size_t ((i_out_offset p_sys - SPDIF_HEADER_SIZE)
                                       * i_length_mul))))) ;
     set_out_buf (Some (set_p_buffer out b6))) ;;
  p_sys <- get ;
  out <- assert_out_buf ;
  if i_out_offset p_sys <? i_buffer out
  then write_padding (to_size_t (i_buffer out - i_out_offset p_sys))
  else ret tt.

Definition a52_size : Z := to_size_t (A52_FRAME_NB * 4).

Definition write_buffer_ac3 (p_filter : filter_t) (h : heap_t)
    (p_in_buf : block_t) : M (spdif_ret * block_t) :=
  let reparsed :=
    if (i_buffer p_in_buf <? 6) || (a52_size <? i_buffer p_in_buf)
       || negb (i_nb_samples p_in_buf =? A52_FRAME_NB)
    then
      match vlc_a52_header_Parse (p_buffer p_in_buf) (i_buffer p_in_buf) with
      | None => None
      | Some a52 =>
          if a52.b_eac3 a52 || (i_buffer p_in_buf <? a52.i_size a52) then None
          else Some (set_i_nb_samples (set_i_buffer p_in_buf (a52.i_size a52))
                                      (a52.i_samples a52))
      end
    else Some p_in_buf in
  match reparsed with
  | None => ret (SPDIF_ERROR, p_in_buf)
  | Some p_in_buf =>
      if a52_size <? to_size_t (i_buffer p_in_buf + SPDIF_HEADER_SIZE)
      then ret (SPDIF_ERROR, p_in_buf)
      else
        st <- write_init h p_in_buf a52_size A52_FRAME_NB ;
        match st with
        | VLC_ENOMEM => ret (SPDIF_ERROR, p_in_buf)
        | VLC_SUCCESS =>
            write_buffer p_filter p_in_buf ;;
            b5 <- access (load_byte (p_buffer p_in_buf) 5) ;
            write_finalize p_filter
              (Z.lor IEC61937_AC3 (Z.shiftl (Z.land b5 0x7) 8)) 8 ;;
            ret (SPDIF_SUCCESS, p_in_buf)
        end
  end.

(** The test of the accumulation rule on a parsed header. *)
Definition eac3_accumulates (a52 : a52.vlc_a52_header_t) : bool :=
  (a52.strmtyp_eqb (a52.strmtyp a52) a52.EAC3_STRMTYP_INDEPENDENT
   || a52.strmtyp_eqb (a52.strmtyp a52) a52.EAC3_STRMTYP_AC3_CONVERT)
  && negb (a52.i_blocks_per_sync_frame a52 =? 6).

Definition write_buffer_eac3 (p_filter : filter_t) (h : heap_t)
    (p_in_buf : block_t) : M (spdif_ret * block_t) :=
  match vlc_a52_header_Parse (p_buffer p_in_buf) (i_buffer p_in_buf) with
  | None => ret (SPDIF_ERROR, p_in_buf)
  | Some a52 =>
      if i_buffer p_in_buf <? a52.i_size a52 then ret (SPDIF_ERROR, p_in_buf)
      else
        let p_in_buf :=
          set_i_nb_samples (set_i_buffer p_in_buf (a52.i_size a52))
                           (a52.i_samples a52) in
        p_sys <- get ;
        st <- match p_out_buf p_sys with
              | None => write_init h p_in_buf (to_size_t (AOUT_SPDIF_SIZE * 4))
                                   AOUT_SPDIF_SIZE
              | Some _ => ret VLC_SUCCESS
              end ;
        match st with
        | VLC_ENOMEM => ret (SPDIF_ERROR, p_in_buf)
        | VLC_SUCCESS =>
            p_sys <- get ;
            out <- assert_out_buf ;
            if to_size_t (i_buffer out - i_out_offset p_sys) <? i_buffer p_in_buf
            then ret (SPDIF_ERROR, p_in_buf)
            else
              write_buffer p_filter p_in_buf ;;
              if a52.b_eac3 a52 then
                more <-
                  (if eac3_accumulates a52 then
                     p_sys <- get ;
                     (if a52.i_substreamid a52 =? 0
                      then set_spec (to_unsigned
                                       (spec p_sys
                                        + a52.i_blocks_per_sync_frame a52))
                      else ret tt) ;;
                     p_sys <- get ;
                     if negb (spec p_sys =? 6) then ret true
                     else set_spec 0 ;; ret false
                   else ret false) ;
                if more : bool then ret (SPDIF_MORE_DATA, p_in_buf)
                else
                  write_finalize p_filter IEC61937_EAC3 1 ;;
                  ret (SPDIF_SUCCESS, p_in_buf)
              else ret (SPDIF_MORE_DATA, p_in_buf)
        end
  end.

Definition TRUEHD_FRAME_OFFSET : Z := 2560.

Definition p_mat_start_code : list Z :=
  [ 0x07; 0x9E; 0x00; 0x03; 0x84; 0x01; 0x01; 0x01; 0x80; 0x00;
    0x56; 0xA5; 0x3B; 0xF4; 0x81; 0x83; 0x49; 0x80; 0x77; 0xE0 ].

Definition p_mat_middle_code : list Z :=
  [ 0xC3; 0xC1; 0x42; 0x49; 0x3B; 0xFA;
    0x82; 0x83; 0x49; 0x80; 0x77; 0xE0 ].

Definition p_mat_end_code : list Z :=
  [ 0xC3; 0xC2; 0xC0; 0xC4; 0x00; 0x00; 0x00; 0x00;
    0x00; 0x00; 0x00; 0x00; 0x00; 0x00; 0x97; 0x11 ].

(** [int i_padding = TRUEHD_FRAME_OFFSET - p_in_buf->i_buffer - k]: the
    subtraction is done on [size_t] and the result converted to [int]. *)
Definition truehd_padding (p_in_buf : block_t) (k : Z) : Z :=
  to_int (to_size_t (TRUEHD_FRAME_OFFSET - i_buffer p_in_buf - k)).

(** [i_padding < 0 || p_in_buf->i_buffer + i_padding > room left]. *)
Definition truehd_no_room (p_in_buf : block_t) (i_padding : Z)
    (p_sys : filter_sys_t) (out : block_t) : bool :=
  (i_padding <? 0)
  || (to_size_t (i_buffer out - i_out_offset p_sys)
      <? to_size_t (i_buffer p_in_buf + to_size_t i_padding)).

(** The end of [write_buffer_truehd], after the chain of tests on the frame
    count: check the room, store the frame and its padding, count the
    frame. *)
Definition truehd_store_slot (p_filter : filter_t) (p_in_buf : block_t)
    (i_padding : Z) : M (spdif_ret * block_t) :=
  p_sys <- get ;
  out <- assert_out_buf ;
  if truehd_no_room p_in_buf i_padding p_sys out
  then ret (SPDIF_ERROR, p_in_buf)
  else
    write_buffer p_filter p_in_buf ;;
    write_padding (to_size_t i_padding) ;;
    p_sys <- get ;
    set_spec (to_unsigned (spec p_sys + 1)) ;;
    ret (SPDIF_MORE_DATA, p_in_buf).

(** The branch of [write_buffer_truehd] for the last frame of a MAT
    frame. *)
Definition truehd_store_last (p_filter : filter_t) (p_in_buf : block_t)
    : M spdif_ret :=
  let i_padding := truehd_padding p_in_buf 24 in
  p_sys <- get ;
  out <- assert_out_buf ;
  if truehd_no_room p_in_buf i_padding p_sys out
  then ret SPDIF_ERROR
  else
    write_buffer p_filter p_in_buf ;;
    write_padding (to_size_t i_padding) ;;
    write_data p_filter p_mat_end_code 16 true ;;
    write_finalize p_filter IEC61937_TRUEHD 1 ;;
    set_spec 0 ;;
    ret SPDIF_SUCCESS.

Definition write_buffer_truehd (p_filter : filter_t) (h : heap_t)
    (p_in_buf : block_t) : M (spdif_ret * block_t) :=
  p_sys <- get ;
  st <- match p_out_buf p_sys with
        | None => write_init h p_in_buf 61440 (61440 / 16)
        | Some _ => ret VLC_SUCCESS
        end ;
  match st with
  | VLC_ENOMEM => ret (SPDIF_ERROR, p_in_buf)
  | VLC_SUCCESS =>
      p_sys <- get ;
      branch <-
        (if spec p_sys =? 0 then
           write_data p_filter p_mat_start_code 20 true ;;
           ret (inl (truehd_padding p_in_buf (20 + SPDIF_HEADER_SIZE)))
         else if spec p_sys =? 11 then
           ret (inl (truehd_padding p_in_buf 4))
         else if spec p_sys =? 12 then
           write_data p_filter p_mat_middle_code 12 true ;;
           ret (inl (truehd_padding p_in_buf (12 - 4)))
         else if spec p_sys =? 23 then
           r <- truehd_store_last p_filter p_in_buf ;
           ret (inr r)
         else ret (inl (truehd_padding p_in_buf 0))) ;
      match branch with
      | inr r => ret (r, p_in_buf)
      | inl i_padding => truehd_store_slot p_filter p_in_buf i_padding
      end
  end.

Definition write_buffer_dts (p_filter : filter_t) (h : heap_t)
    (p_in_buf : block_t) : M (spdif_ret * block_t) :=
  let parsed :=
    if i_nb_samples p_in_buf =? 0 then
      match vlc_dts_header_Parse (p_buffer p_in_buf) (i_buffer p_in_buf) with
      | None => None
      | Some header =>
          Some (set_i_buffer
                  (set_i_nb_samples p_in_buf (dts_header.i_frame_length header))
                  (dts_header.i_frame_size header))
      end
    else Some p_in_buf in
  match parsed with
  | None => ret (SPDIF_ERROR, p_in_buf)
  | Some p_in_buf =>
      let i_data_type :=
        if i_nb_samples p_in_buf =? 512 then Some IEC61937_DTS1
        else if i_nb_samples p_in_buf =? 1024 then Some IEC61937_DTS2
        else if i_nb_samples p_in_buf =? 2048 then Some IEC61937_DTS3
        else None in
      match i_data_type with
      | None => ret (SPDIF_ERROR, p_in_buf)
      | Some i_data_type =>
          let i_out_size := to_unsigned (i_nb_samples p_in_buf * 4) in
          let i_data_type :=
            if i_buffer p_in_buf =? i_out_size then Some 0
            else if i_out_size <? to_size_t (i_buffer p_in_buf + SPDIF_HEADER_SIZE)
                 then None
                 else Some i_data_type in
          match i_data_type with
          | None => ret (SPDIF_ERROR, p_in_buf)
          | Some i_data_type =>
              st <- write_init h p_in_buf i_out_size (i_nb_samples p_in_buf) ;
              match st with
              | VLC_ENOMEM => ret (SPDIF_ERROR, p_in_buf)
              | VLC_SUCCESS =>
                  (if i_data_type =? 0 then set_out_offset 0 else ret tt) ;;
                  write_buffer p_filter p_in_buf ;;
                  write_finalize p_filter i_data_type 8 ;;
                  ret (SPDIF_SUCCESS, p_in_buf)
              end
          end
      end
  end.

(** [Flush]; the result lists the blocks given to [block_Release]. *)
Definition Flush : M (list block_t) :=
  p_sys <- get ;
  set_out_buf None ;;
  set_spec 0 ;;
  ret (match p_out_buf p_sys with Some out => [out] | None => [] end).

(** What one call of [DoWork] does: the status [i_ret] of the strategy, the
    block it returns, and the blocks it released, in order. *)
Record work_t : Type := Work
  { i_ret : spdif_ret;
    p_out : option block_t;
    released : list block_t }.

Definition DoWork (p_filter : filter_t) (h : heap_t) (p_in_buf : block_t)
    : M work_t :=
  r <- match fmt_in p_filter with
       | VLC_CODEC_A52 => write_buffer_ac3 p_filter h p_in_buf
       | VLC_CODEC_EAC3 => write_buffer_eac3 p_filter h p_in_buf
       | VLC_CODEC_MLP | VLC_CODEC_TRUEHD =>
           write_buffer_truehd p_filter h p_in_buf
       | VLC_CODEC_DTS => write_buffer_dts p_filter h p_in_buf
       end ;
  let i_ret := fst r in
  let p_in_buf := snd r in
  o <- match i_ret with
       | SPDIF_SUCCESS =>
           p_sys <- get ;
           out <- assert_out_buf ;
           assert (i_buffer out =? i_out_offset p_sys) ;;
           set_out_buf None ;;
           ret (Some out, [])
       | SPDIF_MORE_DATA => ret (None, [])
       | SPDIF_ERROR =>
           rel <- Flush ;
           ret (None, rel)
       end ;
  ret (Work i_ret (fst o) (snd o ++ [p_in_buf])).

(** The state [Open] leaves: no packet in progress, counters cleared
    ([i_out_offset] is not initialised by [Open]). *)
Definition Open (i_out_offset0 : Z) : filter_sys_t := Sys None i_out_offset0 0.

(** Feeding a sequence of frames, one call of [DoWork] each. *)
Fixpoint feed (p_filter : filter_t) (calls : list (heap_t * block_t))
    : M (list work_t) :=
  match calls with
  | [] => ret []
  | (h, p_in_buf) :: calls =>
      w <- DoWork p_filter h p_in_buf ;
      ws <- feed p_filter calls ;
      ret (w :: ws)
  end.

End Filter.

(** * Specification

    Definitions the properties are stated with: what the writer leaves in
    a packet, the invariants of the strategies that keep a packet in
    progress, and the shape of a finished packet. *)

Section Specification.
Context {ext : Externals}.

(** [room out off n]: the packet [out] is as allocated and has [n] bytes
    left at offset [off]. *)
Definition room (out : block_t) (off n : Z) : Prop :=
  Z.of_nat (length (p_buffer out)) = i_buffer out
  /\ 0 <= off /\ 0 <= n /\ off + n <= i_buffer out /\ i_buffer out < 2 ^ 64.

(** The bytes [write_data] leaves in the packet for [i_size] bytes of
    [p_buf]: the even part, swapped when the byte orders differ, then the
    odd last byte as the high byte of one more 16-bit word. *)
Definition encode (p_filter : filter_t) (p_buf : list Z) (i_size : Z)
    (b_input_big_endian : bool) : list Z :=
  let src := take (Z.to_nat (i_size - i_size mod 2)) p_buf in
  (if xorb b_input_big_endian (b_output_big_endian p_filter)
   then swab src else src)
  ++ (if i_size mod 2 =? 0 then []
      else write_16 p_filter
             (to_uint16
                (Z.shiftl (default 0 (p_buf !! Z.to_nat (i_size - 1))) 8))).

(** The block [write_init] installs. *)
Definition init_block (h : heap_t) (p_in_buf : block_t)
    (i_out_size i_nb_samples : Z) : block_t :=
  Block (map (fun i => to_uint8 (fresh h i)) (seq 0 (Z.to_nat i_out_size)))
        i_out_size i_nb_samples (i_pts p_in_buf) (i_dts p_in_buf) 0.

(** The byte order [is_big_endian] finds. *)
Definition input_big_endian (p_filter : filter_t) (p_in_buf : block_t) : bool :=
  match fmt_in p_filter with
  | VLC_CODEC_DTS =>
      match p_buffer p_in_buf with
      | b0 :: _ => (b0 =? 0x1F) || (b0 =? 0x7F)
      | [] => false
      end
  | _ => true
  end.

(** The 8-byte burst preamble. *)
Definition burst_header (p_filter : filter_t) (i_data_type i_len : Z) : list Z :=
  write_16 p_filter 0xf872 ++ write_16 p_filter 0x4e1f
  ++ write_16 p_filter i_data_type ++ write_16 p_filter i_len.

(** The buffer [write_finalize] leaves. *)
Definition finalize_image (p_filter : filter_t) (i_data_type i_length_mul : Z)
    (off : Z) (out : block_t) : list Z :=
  splice
    (if to_uint16 i_data_type =? 0 then p_buffer out
     else splice (p_buffer out) 0
            (burst_header p_filter (to_uint16 i_data_type)
               (to_uint16 (to_size_t ((off - SPDIF_HEADER_SIZE)
                                      * to_uint8 i_length_mul)))))
    off (replicate (Z.to_nat (i_buffer out - off)) 0).

(** The strategy [DoWork] selects for the input format. *)
Definition strategy (p_filter : filter_t) (h : heap_t) (p_in_buf : block_t)
    : M (spdif_ret * block_t) :=
  match fmt_in p_filter with
  | VLC_CODEC_A52 => write_buffer_ac3 p_filter h p_in_buf
  | VLC_CODEC_EAC3 => write_buffer_eac3 p_filter h p_in_buf
  | VLC_CODEC_MLP | VLC_CODEC_TRUEHD => write_buffer_truehd p_filter h p_in_buf
  | VLC_CODEC_DTS => write_buffer_dts p_filter h p_in_buf
  end.

(** The packet in progress, as the list of blocks [Flush] releases. *)
Definition in_progress (s : filter_sys_t) : list block_t :=
  match p_out_buf s with Some out => [out] | None => [] end.

(** [post Q m]: every result of [m] satisfies [Q]. *)
Definition post {A} (Q : A -> Prop) (m : M A) : Prop :=
  forall s a s', m s = Done a s' -> Q a.

(** The preamble in the two output byte orders. *)
Definition sync_words (p_filter : filter_t) : list Z :=
  match fmt_out p_filter with
  | VLC_CODEC_SPDIFB => [0xF8; 0x72; 0x4E; 0x1F]
  | VLC_CODEC_SPDIFL => [0x72; 0xF8; 0x1F; 0x4E]
  end.

(** The frame the DTS strategy works on: the input as tagged, or with the
    size and sample count of its parsed header when the sample count is
    absent. *)
Definition dts_frame (p_in_buf : block_t) : option block_t :=
  if i_nb_samples p_in_buf =? 0 then
    match vlc_dts_header_Parse (p_buffer p_in_buf) (i_buffer p_in_buf) with
    | None => None
    | Some header =>
        Some (set_i_buffer
                (set_i_nb_samples p_in_buf (dts_header.i_frame_length header))
                (dts_header.i_frame_size header))
    end
  else Some p_in_buf.

(** The [switch] on the sample count. *)
Definition dts_data_type (i_nb_samples : Z) : option Z :=
  if i_nb_samples =? 512 then Some IEC61937_DTS1
  else if i_nb_samples =? 1024 then Some IEC61937_DTS2
  else if i_nb_samples =? 2048 then Some IEC61937_DTS3
  else None.

(** The size of an E-AC-3 packet. *)
Definition eac3_size : Z := to_size_t (AOUT_SPDIF_SIZE * 4).

(** [AOUT_SPDIF_SIZE] is a frame size: its packet has room for more than
    the preamble. *)
Definition aout_spdif_size_ok : Prop :=
  SPDIF_HEADER_SIZE < AOUT_SPDIF_SIZE * 4 < 2 ^ 64.

(** The frame the E-AC-3 strategy works on once the header [a52] is
    parsed. *)
Definition eac3_frame (p_in_buf : block_t) (a52 : a52.vlc_a52_header_t)
    : block_t :=
  set_i_nb_samples (set_i_buffer p_in_buf (a52.i_size a52)) (a52.i_samples a52).

(** The packet a frame is appended to, and the offset it is appended at:
    the one in progress, or a fresh one. *)
Definition eac3_out (h : heap_t) (p : block_t) (s : filter_sys_t) : block_t :=
  match p_out_buf s with
  | Some out => out
  | None => init_block h p eac3_size AOUT_SPDIF_SIZE
  end.

(** The offset the next frame is appended at. *)
Definition eac3_off (s : filter_sys_t) : Z :=
  match p_out_buf s with
  | Some _ => i_out_offset s
  | None => SPDIF_HEADER_SIZE
  end.

(** What the E-AC-3 strategy keeps true of a packet in progress. *)
Definition eac3_inv (s : filter_sys_t) : Prop :=
  match p_out_buf s with
  | Some out =>
      Z.of_nat (length (p_buffer out)) = i_buffer out
      /\ i_buffer out = eac3_size
      /\ SPDIF_HEADER_SIZE <= i_out_offset s <= eac3_size
      /\ i_out_offset s mod 2 = 0
  | None => True
  end.

(** The state once the frame is appended, with counter [c]. *)
Definition eac3_appended (p_filter : filter_t) (h : heap_t) (p : block_t)
    (s : filter_sys_t) (c : Z) : filter_sys_t :=
  let out := eac3_out h p s in
  Sys (Some (set_i_length
               (set_p_buffer out
                  (splice (p_buffer out) (eac3_off s)
                     (encode p_filter (p_buffer p) (i_buffer p)
                             (input_big_endian p_filter p))))
               (i_length out + i_length p)))
      (eac3_off s + (i_buffer p + i_buffer p mod 2)) c.

(** The sub-stream-0 block counter after a frame under the accumulation
    rule. *)
Definition eac3_count (c : Z) (a52 : a52.vlc_a52_header_t) : Z :=
  if a52.i_substreamid a52 =? 0
  then to_unsigned (c + a52.i_blocks_per_sync_frame a52)
  else c.

(** A frame the strategy can append: it parses, is within its buffer, and
    fits the room left. *)
Definition eac3_fits (h : heap_t) (p_in_buf : block_t)
    (a52 : a52.vlc_a52_header_t) (s : filter_sys_t) : Prop :=
  vlc_a52_header_Parse (p_buffer p_in_buf) (i_buffer p_in_buf) = Some a52
  /\ 0 <= a52.i_size a52 <= i_buffer p_in_buf
  /\ i_buffer p_in_buf <= Z.of_nat (length (p_buffer p_in_buf))
  /\ (p_out_buf s = None -> alloc_fails h = false)
  /\ a52.i_size a52 <= eac3_size - eac3_off s.

(** A call that returns need-more-input and no packet. *)
Definition quiet (w : work_t) : Prop :=
  i_ret w = SPDIF_MORE_DATA /\ p_out w = None.

(** The bytes a run of frames takes in the packet. *)
Definition eac3_total (hs : list a52.vlc_a52_header_t) : Z :=
  foldr (fun a acc => a52.i_size a + a52.i_size a mod 2 + acc) 0 hs.

(** The blocks a run of frames adds for sub-stream 0. *)
Definition eac3_blocks0 (hs : list a52.vlc_a52_header_t) : Z :=
  foldr (fun a acc =>
           (if a52.i_substreamid a =? 0
            then a52.i_blocks_per_sync_frame a else 0) + acc) 0 hs.

(** A call with an E-AC-3 frame under the accumulation rule: the frame
    parses to [a52], lies within its buffer, is of stream type independent
    or AC-3-convert and does not carry 6 blocks. *)
Definition eac3_acc_frame (call : heap_t * block_t)
    (a52 : a52.vlc_a52_header_t) : Prop :=
  vlc_a52_header_Parse (p_buffer (snd call)) (i_buffer (snd call)) = Some a52
  /\ 0 < a52.i_size a52 <= i_buffer (snd call)
  /\ i_buffer (snd call) <= Z.of_nat (length (p_buffer (snd call)))
  /\ alloc_fails (fst call) = false
  /\ a52.b_eac3 a52 = true
  /\ eac3_accumulates a52 = true.

(** A MAT code as it lies in the packet: the codes are given big endian. *)
Definition mat_code (p_filter : filter_t) (code : list Z) : list Z :=
  if b_output_big_endian p_filter then code else swab code.

(** The bytes of slot [k] that are not the frame's: the start code and the
    preamble in slot 0, the shift of the middle code around slot 12, the
    end code and the tail after slot 23. *)
Definition truehd_reserve (k : Z) : Z :=
  if k =? 0 then 20 + SPDIF_HEADER_SIZE
  else if k =? 11 then 4
  else if k =? 12 then 12 - 4
  else if k =? 23 then 24
  else 0.

(** A frame of nominal size for slot [k]: an even number of bytes, within
    its buffer, that leaves the reserve of the slot. *)
Definition truehd_nominal (k : Z) (p_in_buf : block_t) : Prop :=
  0 <= i_buffer p_in_buf <= Z.of_nat (length (p_buffer p_in_buf))
  /\ i_buffer p_in_buf mod 2 = 0
  /\ i_buffer p_in_buf <= TRUEHD_FRAME_OFFSET - truehd_reserve k.

(** Calls whose frames are of nominal size for the slots [k], [k + 1],
    ... *)
Fixpoint truehd_frames (k : Z) (calls : list (heap_t * block_t)) : Prop :=
  match calls with
  | [] => True
  | call :: calls => truehd_nominal k (snd call) /\ truehd_frames (k + 1) calls
  end.

(** The write offset once [k] frames are stored. *)
Definition truehd_offset (k : Z) : Z :=
  TRUEHD_FRAME_OFFSET * k - (if k =? 12 then 4 else 0).

(** The packet in progress once [k] frames are stored. *)
Definition truehd_inv (p_filter : filter_t) (k : Z) (s : filter_sys_t) : Prop :=
  exists out,
    p_out_buf s = Some out
    /\ Z.of_nat (length (p_buffer out)) = 61440
    /\ i_buffer out = 61440
    /\ i_out_offset s = truehd_offset k
    /\ spec s = k
    /\ sub_bytes 8 20 (p_buffer out) = mat_code p_filter p_mat_start_code
    /\ (12 < k -> sub_bytes (TRUEHD_FRAME_OFFSET * 12 - 4) 12 (p_buffer out)
                  = mat_code p_filter p_mat_middle_code).

(** The two input formats that select the TrueHD strategy. *)
Definition is_truehd (p_filter : filter_t) : Prop :=
  fmt_in p_filter = VLC_CODEC_TRUEHD \/ fmt_in p_filter = VLC_CODEC_MLP.

(** What a completed MAT frame holds: the preamble, the start code right
    after it, the middle code from four bytes before the end of slot 11, the
    end code from 24 bytes before the end of the packet, and zeros after
    it. *)
Definition mat_frame (p_filter : filter_t) (pkt : block_t) : Prop :=
  i_buffer pkt = 61440
  /\ Z.of_nat (length (p_buffer pkt)) = 61440
  /\ sub_bytes 0 SPDIF_HEADER_SIZE (p_buffer pkt)
     = burst_header p_filter IEC61937_TRUEHD (61440 - 2 * SPDIF_HEADER_SIZE)
  /\ sub_bytes SPDIF_HEADER_SIZE 20 (p_buffer pkt)
     = mat_code p_filter p_mat_start_code
  /\ sub_bytes (TRUEHD_FRAME_OFFSET * 12 - 4) 12 (p_buffer pkt)
     = mat_code p_filter p_mat_middle_code
  /\ sub_bytes (TRUEHD_FRAME_OFFSET * 24 - 24) 16 (p_buffer pkt)
     = mat_code p_filter p_mat_end_code
  /\ sub_bytes (TRUEHD_FRAME_OFFSET * 24 - SPDIF_HEADER_SIZE)
               SPDIF_HEADER_SIZE (p_buffer pkt)
     = replicate 8 0.

(** The size of the packets of each input format. *)
Definition packet_size_ok (p_filter : filter_t) (n : Z) : Prop :=
  match fmt_in p_filter with
  | VLC_CODEC_A52 => n = a52_size
  | VLC_CODEC_EAC3 => n = eac3_size
  | VLC_CODEC_MLP | VLC_CODEC_TRUEHD => n = 61440
  | VLC_CODEC_DTS => n = 2048 \/ n = 4096 \/ n = 8192
  end.

(** A packet as [write_init] makes it and the writer keeps it: as many
    bytes as its size says, a size of the input format, above 8 and a
    multiple of 4. *)
Definition packet_ok (p_filter : filter_t) (out : block_t) : Prop :=
  Z.of_nat (length (p_buffer out)) = i_buffer out
  /\ SPDIF_HEADER_SIZE < i_buffer out < 2 ^ 64
  /\ Z.land (i_buffer out) 3 = 0
  /\ packet_size_ok p_filter (i_buffer out).

(** A session whose packet in progress, if any, is such a packet, with the
    write offset inside it. *)
Definition session_ok (p_filter : filter_t) (s : filter_sys_t) : Prop :=
  match p_out_buf s with
  | Some out => packet_ok p_filter out /\ 0 <= i_out_offset s <= i_buffer out
  | None => True
  end.

(** An input block the strategies can read. [i_buffer] bytes lie behind
    [p_buffer]. The two reads the code does not guard are in bounds: an
    AC-3 block has [p_buffer[5]] (read for bsmod) and a DTS block has
    [p_buffer[0]] (read by [is_big_endian]). The A/52 parser reports no
    negative size (the field is unsigned). The frame size the DTS parser
    reports for an untagged block lies within the buffer (the strategy does
    not compare them). *)
Definition input_ok (p_filter : filter_t) (p_in_buf : block_t) : Prop :=
  0 <= i_buffer p_in_buf <= Z.of_nat (length (p_buffer p_in_buf))
  /\ match fmt_in p_filter with
     | VLC_CODEC_A52 =>
         (6 <= length (p_buffer p_in_buf))%nat
         /\ match vlc_a52_header_Parse (p_buffer p_in_buf) (i_buffer p_in_buf)
            with Some a52 => 0 <= a52.i_size a52 | None => True end
     | VLC_CODEC_EAC3 =>
         match vlc_a52_header_Parse (p_buffer p_in_buf) (i_buffer p_in_buf)
         with Some a52 => 0 <= a52.i_size a52 | None => True end
     | VLC_CODEC_DTS =>
         p_buffer p_in_buf <> []
         /\ (i_nb_samples p_in_buf = 0 ->
             match vlc_dts_header_Parse (p_buffer p_in_buf) (i_buffer p_in_buf)
             with
             | Some header =>
                 0 <= dts_header.i_frame_size header
                   <= Z.of_nat (length (p_buffer p_in_buf))
             | None => True
             end)
     | _ => True
     end.

(** [keeps Inv m]: from a state in [Inv], [m] ends in a state in [Inv] or in a
    failed assertion, and never outside a buffer. *)
Definition keeps {A} (Inv : filter_sys_t -> Prop) (m : M A) : Prop :=
  forall s, Inv s ->
    match m s with
    | Done _ s' => Inv s'
    | AssertFailed => True
    | OutOfBounds => False
    end.

End Specification.

(** * Concrete runs

    A small header parser and the inputs of the runs evaluated at the end. *)

(** A header parser for the runs below. It reads the fields of an E-AC-3
    sync frame the strategy uses (stream type, sub-stream id, frame size,
    number of blocks) and takes a frame with bsid up to 10 for a plain AC-3
    frame that fills its buffer. *)
Definition demo_a52_header_Parse (p_buf : list Z) (i_buffer : Z)
    : option a52.vlc_a52_header_t :=
  match p_buf with
  | b0 :: b1 :: b2 :: b3 :: b4 :: b5 :: _ =>
      if (8 <=? i_buffer) && (b0 =? 0x0B) && (b1 =? 0x77) then
        let bsid := Z.shiftr b5 3 in
        if 16 <? bsid then None
        else if 10 <? bsid then
          let blocks :=
            match Z.land (Z.shiftr b4 4) 3 with
            | 0 => 1 | 1 => 2 | 2 => 3 | _ => 6
            end in
          Some (a52.Header true
                  (2 * (Z.lor (Z.shiftl (Z.land b2 7) 8) b3 + 1))
                  (256 * blocks) blocks
                  (match Z.shiftr b2 6 with
                   | 0 => a52.EAC3_STRMTYP_INDEPENDENT
                   | 1 => a52.EAC3_STRMTYP_DEPENDENT
                   | 2 => a52.EAC3_STRMTYP_AC3_CONVERT
                   | _ => a52.EAC3_STRMTYP_RESERVED
                   end)
                  (Z.land (Z.shiftr b2 3) 7))
        else Some (a52.Header false i_buffer A52_FRAME_NB 6
                              a52.EAC3_STRMTYP_INDEPENDENT 0)
      else None
  | _ => None
  end.

(** The environment of the runs: the parser above, no DTS parser, and the
    S/PDIF frame size of the audio output, 6144 samples. *)
Definition demo_externals : Externals :=
  {| vlc_a52_header_Parse := demo_a52_header_Parse;
     vlc_dts_header_Parse := fun _ _ => None;
     AOUT_SPDIF_SIZE := 6144 |}.

(** An allocator that succeeds and hands out memory filled with 0xAA. *)
Definition demo_heap : heap_t := Heap false (fun _ => 0xAA).

(** A block of [n] bytes that starts with [hd] and is zero after it. *)
Definition demo_block (hd : list Z) (n smp : Z) : block_t :=
  Block (hd ++ replicate (Z.to_nat n - length hd) 0) n smp 0 0 0.

(** What is seen of a run: per call the status and the size of the packet
    returned, then the counter and the size of the packet in progress. *)
Definition summary {A} (f : A -> list work_t) (o : outcome A)
    : option (list (spdif_ret * option Z) * Z * option Z) :=
  match o with
  | Done a s =>
      Some (map (fun w => (i_ret w, option_map i_buffer (p_out w))) (f a),
            spec s, option_map i_buffer (p_out_buf s))
  | _ => None
  end.

(** The bytes of the packet the last call of a run returned. *)
Definition last_packet_bytes (o : outcome (list work_t)) : list Z :=
  match o with
  | Done ws _ =>
      match last ws with
      | Some w => match p_out w with Some pkt => p_buffer pkt | None => [] end
      | None => []
      end
  | _ => []
  end.

Definition demo_truehd : filter_t := Filter VLC_CODEC_TRUEHD VLC_CODEC_SPDIFB.
Definition demo_eac3 : filter_t := Filter VLC_CODEC_EAC3 VLC_CODEC_SPDIFL.
Definition demo_ac3 : filter_t := Filter VLC_CODEC_A52 VLC_CODEC_SPDIFB.
Definition demo_dts : filter_t := Filter VLC_CODEC_DTS VLC_CODEC_SPDIFL.

(** Twenty-four TrueHD frames of 6 bytes. *)
Definition truehd_first_frame : block_t := demo_block [0xF8; 0x72] 6 40.
Definition truehd_next_frames : list (heap_t * block_t) :=
  map (fun k => (demo_heap, demo_block [Z.of_nat k; 0x33] 6 40)) (seq 1 23).

(** The bytes of the packet those frames make, for big-endian output. *)
Definition truehd_demo_packet : list Z :=
  last_packet_bytes
    (feed (ext := demo_externals) demo_truehd
          ((demo_heap, truehd_first_frame) :: truehd_next_frames) (Open 0)).

(** E-AC-3 sync frames of stream type independent, sub-stream 0: [b4]
    carries the number of blocks (0x10: two blocks, 0x20: three). *)
Definition eac3_frame_4096 (b4 : Z) : block_t :=
  demo_block [0x0B; 0x77; 0x07; 0xFF; b4; 0x80] 4096 0.
Definition eac3_frame_8 (b4 : Z) : block_t :=
  demo_block [0x0B; 0x77; 0x00; 0x03; b4; 0x80] 8 0.
Definition eac3_header_8 (blocks : Z) : a52.vlc_a52_header_t :=
  a52.Header true 8 (256 * blocks) blocks a52.EAC3_STRMTYP_INDEPENDENT 0.

(** An E-AC-3 frame of six blocks, 8 bytes long. *)
Definition eac3_frame_6_blocks : block_t :=
  demo_block [0x0B; 0x77; 0x00; 0x03; 0x30; 0x80] 8 0.

(** A plain AC-3 frame header (bsid 8) on 1536 bytes. *)
Definition ac3_frame (n : Z) : block_t :=
  demo_block [0x0B; 0x77; 0x00; 0x00; 0x1C; 0x40] n 1536.

(** An E-AC-3 session whose counter went past 6, with 8192 bytes
    appended. *)
Definition eac3_past_six_state : filter_sys_t :=
  Sys (Some (Block (replicate (Z.to_nat 24576) 0) 24576 6144 0 0 0)) 8200 7.

(** A big-endian DTS frame of 512 samples that fills its packet, and one
    with a sample count no packet size exists for. *)
Definition dts_full_frame : block_t :=
  demo_block [0x7F; 0xFE; 0x80; 0x01] 2048 512.
Definition dts_bad_frame : block_t :=
  demo_block [0x7F; 0xFE; 0x80; 0x01] 16 100.

(** A 16-byte packet with 4 bytes of payload, finalized twice. *)
Definition finalize_twice : outcome unit :=
  bind (write_init demo_heap (demo_block [] 4 4) 16 4)
       (fun _ => bind (write_data demo_ac3 [1; 2; 3; 4] 4 true)
       (fun _ => bind (write_finalize demo_ac3 IEC61937_AC3 8)
       (fun _ => write_finalize demo_ac3 IEC61937_AC3 8))) (Open 0).

(** A 16-byte packet holding the bytes 1 to 16. *)
Definition demo_packet : block_t :=
  Block (map Z.of_nat (seq 1 16)) 16 0 0 0 0.

(** An allocator that has no memory left. *)
Definition demo_heap_full : heap_t := Heap true (fun _ => 0).

(** The AC-3 frame header above on 16 bytes, with no sample count. *)
Definition ac3_untagged : block_t :=
  demo_block [0x0B; 0x77; 0x00; 0x00; 0x1C; 0x40] 16 0.

(** An environment whose DTS parser finds a frame of 1024 bytes and 512
    samples in whatever it is given. *)
Definition demo_dts_externals : Externals :=
  {| vlc_a52_header_Parse := demo_a52_header_Parse;
     vlc_dts_header_Parse := fun _ _ => Some (dts_header.Header 1024 512);
     AOUT_SPDIF_SIZE := 6144 |}.

(** A DTS block of 16 bytes with no sample count, and a tagged one with no
    payload. *)
Definition dts_untagged : block_t :=
  demo_block [0x7F; 0xFE; 0x80; 0x01] 16 0.
Definition dts_empty : block_t := Block [0x7F; 0xFE] 0 512 0 0 0.

(** TrueHD frames of 2600 bytes and of 7 bytes. *)
Definition truehd_long_frame : block_t := demo_block [0xF8; 0x72] 2600 40.
Definition truehd_odd_frame : block_t := demo_block [0xF8; 0x72] 7 40.

(** A TrueHD session with one frame stored, for big-endian output. *)
Definition truehd_one_frame_packet : block_t :=
  Block (replicate 8 0 ++ p_mat_start_code
         ++ replicate (Z.to_nat (61440 - 28)) 0)
        61440 3840 0 0 0.
Definition truehd_one_frame_state : filter_sys_t :=
  Sys (Some truehd_one_frame_packet) 2560 1.

(** Eight bytes that do not start with the sync word. *)
Definition eac3_no_sync_frame : block_t := demo_block [0; 0] 8 0.

(** * Properties *)

(** ** Machine integers *)

Lemma to_size_t_small z : 0 <= z < 2 ^ 64 -> to_size_t z = z.
Proof. intros H. unfold to_size_t. now apply Z.mod_small. Qed.

Lemma to_unsigned_small z : 0 <= z < 2 ^ 32 -> to_unsigned z = z.
Proof. intros H. unfold to_unsigned. now apply Z.mod_small. Qed.

Lemma to_uint16_small z : 0 <= z < 2 ^ 16 -> to_uint16 z = z.
Proof. intros H. unfold to_uint16. now apply Z.mod_small. Qed.

Lemma to_int_small z : - 2 ^ 31 <= z < 2 ^ 31 -> to_int z = z.
Proof. intros H. unfold to_int. rewrite Z.mod_small; lia. Qed.

Lemma to_size_t_neg z : - 2 ^ 64 <= z < 0 -> to_size_t z = z + 2 ^ 64.
Proof.
  intros H. unfold to_size_t.
  rewrite <- (Z.mod_add z 1 (2 ^ 64)) by lia.
  rewrite Z.mod_small; lia.
Qed.

(** [to_int (to_size_t z)] is [z] for every [z] an [int] can hold. *)
Lemma to_int_to_size_t z : - 2 ^ 31 <= z < 2 ^ 31 -> to_int (to_size_t z) = z.
Proof.
  intros H. destruct (Z_lt_le_dec z 0) as [Hn|Hp].
  - rewrite to_size_t_neg by lia. unfold to_int.
    replace (z + 2 ^ 64 + 2 ^ 31) with (z + 2 ^ 31 + 2 ^ 32 * 2 ^ 32) by lia.
    rewrite (Z.mod_add (z + 2 ^ 31) (2 ^ 32) (2 ^ 32)) by lia.
    rewrite Z.mod_small; lia.
  - rewrite to_size_t_small by lia. now apply to_int_small.
Qed.

Lemma land_clear_bit0 n : Z.land n (-2) = n - n mod 2.
Proof.
  change (-2) with (Z.lnot (Z.ones 1)).
  rewrite <- Z.ldiff_land, Z.ldiff_ones_r by lia.
  rewrite Z.shiftr_div_pow2, Z.shiftl_mul_pow2 by lia.
  change (2 ^ 1) with 2. pose proof (Z.div_mod n 2). lia.
Qed.

Lemma land_bit0 n : Z.land n 1 = n mod 2.
Proof. change 1 with (Z.ones 1) at 1. now rewrite Z.land_ones by lia. Qed.

(** ** Buffers *)

Lemma length_splice (buf : list Z) off data :
  0 <= off -> off + Z.of_nat (length data) <= Z.of_nat (length buf) ->
  length (splice buf off data) = length buf.
Proof.
  intros H0 H1. unfold splice.
  rewrite !length_app, length_take, length_drop. lia.
Qed.

Lemma lookup_splice (buf : list Z) off data (i : nat) :
  0 <= off -> off + Z.of_nat (length data) <= Z.of_nat (length buf) ->
  splice buf off data !! i =
    if decide (i < Z.to_nat off)%nat then buf !! i
    else if decide (i < Z.to_nat off + length data)%nat
         then data !! (i - Z.to_nat off)%nat
         else buf !! i.
Proof.
  intros H0 H1. unfold splice.
  destruct (decide (i < Z.to_nat off)%nat) as [Hlt|Hge].
  - rewrite lookup_app_l by (rewrite length_take; lia).
    now rewrite lookup_take_lt.
  - rewrite lookup_app_r by (rewrite length_take; lia).
    rewrite length_take, Nat.min_l by lia.
    destruct (decide (i < Z.to_nat off + length data)%nat) as [Hin|Hout].
    + now rewrite lookup_app_l by lia.
    + rewrite lookup_app_r by lia. rewrite lookup_drop. f_equal. lia.
Qed.

Lemma lookup_sub_bytes (buf : list Z) off len (i : nat) :
  sub_bytes off len buf !! i =
    if decide (i < Z.to_nat len)%nat then buf !! (Z.to_nat off + i)%nat
    else None.
Proof.
  unfold sub_bytes. destruct (decide (i < Z.to_nat len)%nat).
  - now rewrite lookup_take_lt, lookup_drop.
  - now rewrite lookup_take_ge by lia.
Qed.

(** The bytes just written are read back. *)
Lemma sub_bytes_splice_same (buf : list Z) off data :
  0 <= off -> off + Z.of_nat (length data) <= Z.of_nat (length buf) ->
  sub_bytes off (Z.of_nat (length data)) (splice buf off data) = data.
Proof.
  intros H0 H1. apply list_eq; intros i.
  rewrite lookup_sub_bytes, lookup_splice by assumption.
  rewrite Nat2Z.id.
  destruct (decide (i < length data)%nat).
  - repeat destruct (decide _); try lia. f_equal. lia.
  - symmetry. apply lookup_ge_None. lia.
Qed.

(** A write leaves every range it does not overlap as it was. *)
Lemma sub_bytes_splice_disjoint (buf : list Z) off data o len :
  0 <= off -> off + Z.of_nat (length data) <= Z.of_nat (length buf) ->
  0 <= o -> 0 <= len ->
  o + len <= off \/ off + Z.of_nat (length data) <= o ->
  sub_bytes o len (splice buf off data) = sub_bytes o len buf.
Proof.
  intros H0 H1 H2 H3 H4. apply list_eq; intros i.
  rewrite !lookup_sub_bytes, lookup_splice by assumption.
  repeat destruct (decide _); try reflexivity; lia.
Qed.

Lemma splice_splice_app (buf : list Z) off d1 d2 :
  0 <= off ->
  off + Z.of_nat (length d1) + Z.of_nat (length d2) <= Z.of_nat (length buf) ->
  splice (splice buf off d1) (off + Z.of_nat (length d1)) d2
  = splice buf off (d1 ++ d2).
Proof.
  intros H0 H1. apply list_eq; intros i.
  rewrite !lookup_splice; rewrite ?length_splice, ?length_app; try lia.
  repeat destruct (decide _); try lia; try reflexivity.
  - now rewrite lookup_app_l by lia.
  - rewrite lookup_app_r by lia. f_equal. lia.
Qed.

Lemma length_swab (l : list Z) :
  Nat.even (length l) = true -> length (swab l) = length l.
Proof.
  revert l. fix IH 1. intros [|a [|b r]]; simpl; try easy.
  intros H. now rewrite IH.
Qed.

Lemma length_SetWBE v : length (SetWBE v) = 2%nat.
Proof. reflexivity. Qed.

Lemma length_SetWLE v : length (SetWLE v) = 2%nat.
Proof. reflexivity. Qed.

(** ** The writer primitives *)

Section Properties.
Context {ext : Externals}.

Lemma length_write_16 p_filter v : length (write_16 p_filter v) = 2%nat.
Proof. unfold write_16. now destruct (fmt_out p_filter). Qed.

Lemma length_encode p_filter p_buf i_size be :
  0 <= i_size <= Z.of_nat (length p_buf) ->
  Z.of_nat (length (encode p_filter p_buf i_size be)) = i_size + i_size mod 2.
Proof.
  intros H. unfold encode.
  pose proof (Z.mod_pos_bound i_size 2 ltac:(lia)) as Hm.
  assert (Hlen : length (take (Z.to_nat (i_size - i_size mod 2)) p_buf)
                 = Z.to_nat (i_size - i_size mod 2)).
  { rewrite length_take. lia. }
  assert (Hev : Nat.even (Z.to_nat (i_size - i_size mod 2)) = true).
  { apply Nat.even_spec. exists (Z.to_nat (i_size / 2)).
    pose proof (Z.div_mod i_size 2 ltac:(lia)).
    pose proof (Z.div_pos i_size 2 ltac:(lia) ltac:(lia)). lia. }
  rewrite length_app.
  assert (Hsrc : forall b : bool,
            length (if b then swab (take (Z.to_nat (i_size - i_size mod 2)) p_buf)
                    else take (Z.to_nat (i_size - i_size mod 2)) p_buf)
            = Z.to_nat (i_size - i_size mod 2)).
  { intros [|]; [rewrite length_swab|]; rewrite ?Hlen; auto. }
  rewrite Hsrc.
  destruct (Z.eqb_spec (i_size mod 2) 0) as [E|E].
  - cbn [length]. lia.
  - rewrite length_write_16.
    pose proof (Z.mod_le i_size 2 ltac:(lia) ltac:(lia)). lia.
Qed.

Lemma write_padding_spec out off c n :
  room out off n ->
  write_padding n (Sys (Some out) off c)
  = Done tt (Sys (Some (set_p_buffer out
                          (splice (p_buffer out) off
                                  (replicate (Z.to_nat n) 0))))
                 (off + n) c).
Proof.
  intros (Hlen & Hoff & Hn & Hfit & Hmax).
  unfold write_padding, bind, assert_out_buf, get, assert, access, store,
    set_out_buf, set_out_offset. simpl.
  rewrite (to_size_t_small (i_buffer out - off)) by lia.
  rewrite (proj2 (Z.leb_le n _)) by lia.
  rewrite length_replicate, Z2Nat.id by lia.
  rewrite (proj2 (Z.leb_le 0 off)), (proj2 (Z.leb_le (off + n) _)) by lia.
  simpl. now rewrite to_size_t_small by lia.
Qed.

Lemma write_data_spec p_filter p_buf i_size be out off c :
  room out off (i_size + i_size mod 2) ->
  0 <= i_size <= Z.of_nat (length p_buf) ->
  write_data p_filter p_buf i_size be (Sys (Some out) off c)
  = Done tt (Sys (Some (set_p_buffer out
                          (splice (p_buffer out) off
                                  (encode p_filter p_buf i_size be))))
                 (off + (i_size + i_size mod 2)) c).
Proof.
  intros (Hlen & Hoff & Hn & Hfit & Hmax) Hsz.
  pose proof (Z.mod_pos_bound i_size 2 ltac:(lia)) as Hm.
  pose proof (Z.mod_le i_size 2 ltac:(lia) ltac:(lia)) as Hle.
  pose proof (length_encode p_filter p_buf i_size be Hsz) as Henc.
  unfold encode in *.
  set (src := take (Z.to_nat (i_size - i_size mod 2)) p_buf) in *.
  set (body := if xorb be (b_output_big_endian p_filter)
               then swab src else src) in *.
  unfold write_data, bind, assert_out_buf, get, assert, access, load, store,
    set_out_buf, set_out_offset, ret. simpl.
  rewrite land_clear_bit0, land_bit0.
  rewrite (to_size_t_small (i_buffer out - off)) by lia.
  rewrite (proj2 (Z.leb_le i_size _)) by lia.
  rewrite (proj2 (Z.leb_le 0 (i_size - i_size mod 2))) by lia.
  rewrite (proj2 (Z.leb_le (i_size - i_size mod 2) _)) by lia.
  simpl. fold src. fold body.
  rewrite (proj2 (Z.leb_le 0 off)) by lia. simpl.
  destruct (Z.eqb_spec (i_size mod 2) 0) as [E|E].
  - rewrite app_nil_r in *.
    rewrite (proj2 (Z.leb_le (off + Z.of_nat (length body)) _)) by lia.
    rewrite to_size_t_small by lia.
    do 3 f_equal. lia.
  - rewrite length_app, length_write_16 in Henc.
    rewrite (proj2 (Z.leb_le (off + Z.of_nat (length body)) _)) by lia.
    rewrite (to_size_t_small (off + _)) by lia.
    cbn [i_out_offset spec p_out_buf].
    rewrite (to_size_t_small (i_buffer out - _)) by lia.
    rewrite (proj2 (Z.leb_le 2 _)) by lia.
    unfold load_byte. rewrite (proj2 (Z.leb_le 0 (i_size - 1))) by lia.
    destruct (lookup_lt_is_Some_2 p_buf (Z.to_nat (i_size - 1)) ltac:(lia))
      as [last Hlast].
    rewrite Hlast. simpl.
    rewrite length_splice, length_write_16 by lia.
    assert (Hz : (0 <=? off + (i_size - i_size mod 2)) = true)
      by (apply Z.leb_le; lia).
    rewrite Hz.
    rewrite (proj2 (Z.leb_le (off + (i_size - i_size mod 2) + _) _)) by lia.
    simpl. rewrite to_size_t_small by lia.
    replace (off + (i_size - i_size mod 2))
      with (off + Z.of_nat (length body)) by lia.
    rewrite splice_splice_app by (rewrite ?length_write_16; lia).
    do 2 f_equal. lia.
Qed.

Lemma length_init_block h p_in_buf n ns :
  0 <= n -> Z.of_nat (length (p_buffer (init_block h p_in_buf n ns))) = n.
Proof. intros H. simpl. rewrite length_map, length_seq. lia. Qed.

Lemma write_init_spec h p_in_buf n ns off c :
  alloc_fails h = false -> SPDIF_HEADER_SIZE < n -> Z.land n 3 = 0 ->
  write_init h p_in_buf n ns (Sys None off c)
  = Done VLC_SUCCESS (Sys (Some (init_block h p_in_buf n ns)) SPDIF_HEADER_SIZE c).
Proof.
  intros Ha Hn H4.
  unfold write_init, bind, get, assert, block_Alloc, set_out_buf,
    set_out_offset, ret. cbn [p_out_buf i_out_offset spec].
  rewrite (proj2 (Z.ltb_lt _ _) Hn), H4, Ha. reflexivity.
Qed.

Lemma write_init_enomem h p_in_buf n ns off c :
  alloc_fails h = true -> SPDIF_HEADER_SIZE < n -> Z.land n 3 = 0 ->
  write_init h p_in_buf n ns (Sys None off c)
  = Done VLC_ENOMEM (Sys None off c).
Proof.
  intros Ha Hn H4.
  unfold write_init, bind, get, assert, block_Alloc, set_out_buf,
    set_out_offset, ret. cbn [p_out_buf i_out_offset spec].
  rewrite (proj2 (Z.ltb_lt _ _) Hn), H4, Ha. reflexivity.
Qed.

Lemma is_big_endian_spec p_filter p_in_buf s :
  (fmt_in p_filter = VLC_CODEC_DTS -> p_buffer p_in_buf <> []) ->
  is_big_endian p_filter p_in_buf s
  = Done (input_big_endian p_filter p_in_buf) s.
Proof.
  intros H. unfold is_big_endian, input_big_endian.
  destruct (fmt_in p_filter); try reflexivity.
  destruct (p_buffer p_in_buf) as [|b0 r]; [now elim H|reflexivity].
Qed.

Lemma write_buffer_spec p_filter p_in_buf out off c :
  room out off (i_buffer p_in_buf + i_buffer p_in_buf mod 2) ->
  0 <= i_buffer p_in_buf <= Z.of_nat (length (p_buffer p_in_buf)) ->
  (fmt_in p_filter = VLC_CODEC_DTS -> p_buffer p_in_buf <> []) ->
  write_buffer p_filter p_in_buf (Sys (Some out) off c)
  = Done tt
      (Sys (Some (set_i_length
                    (set_p_buffer out
                       (splice (p_buffer out) off
                          (encode p_filter (p_buffer p_in_buf)
                                  (i_buffer p_in_buf)
                                  (input_big_endian p_filter p_in_buf))))
                    (i_length out + i_length p_in_buf)))
           (off + (i_buffer p_in_buf + i_buffer p_in_buf mod 2)) c).
Proof.
  intros Hroom Hsz Hdts. unfold write_buffer, bind.
  rewrite is_big_endian_spec by assumption.
  rewrite write_data_spec by assumption.
  reflexivity.
Qed.

Lemma length_burst_header p_filter dt len :
  length (burst_header p_filter dt len) = 8%nat.
Proof. unfold burst_header. now rewrite !length_app, !length_write_16. Qed.

Lemma store_ok (buf : list Z) off data :
  0 <= off -> off + Z.of_nat (length data) <= Z.of_nat (length buf) ->
  store buf off data = Some (splice buf off data).
Proof.
  intros H0 H1. unfold store.
  now rewrite (proj2 (Z.leb_le 0 off)), (proj2 (Z.leb_le _ _) H1).
Qed.

Ltac splice_len :=
  repeat match goal with
         | |- context [length (splice ?b ?o ?d)] =>
             rewrite (length_splice b o d) by splice_len
         end;
  rewrite ?length_app, ?length_write_16, ?length_burst_header,
    ?length_replicate;
  cbn [length]; lia.

Lemma splice_burst_header (buf : list Z) p_filter dt len :
  8 <= Z.of_nat (length buf) ->
  splice (splice (splice (splice buf 0 (write_16 p_filter 0xf872))
                         2 (write_16 p_filter 0x4e1f))
                 4 (write_16 p_filter dt))
         6 (write_16 p_filter len)
  = splice buf 0 (burst_header p_filter dt len).
Proof.
  intros H. unfold burst_header.
  rewrite <- !splice_splice_app by splice_len.
  now rewrite !length_write_16.
Qed.

Lemma splice_nil (buf : list Z) off : splice buf off [] = buf.
Proof.
  unfold splice. cbn [length app]. rewrite Nat.add_0_r. apply take_drop.
Qed.

Lemma write_finalize_spec p_filter dt mul out off c :
  room out off 0 -> SPDIF_HEADER_SIZE <= i_buffer out ->
  (to_uint16 dt <> 0 ->
   SPDIF_HEADER_SIZE < off /\ (to_uint8 mul = 1 \/ to_uint8 mul = 8)) ->
  write_finalize p_filter dt mul (Sys (Some out) off c)
  = Done tt (Sys (Some (set_p_buffer out
                          (finalize_image p_filter dt mul off out)))
                 (Z.max off (i_buffer out)) c).
Proof.
  intros (Hlen & Hoff & _ & Hfit & Hmax) H8 Hdt.
  unfold SPDIF_HEADER_SIZE in *.
  assert (Hpad : forall out' : block_t,
    i_buffer out' = i_buffer out ->
    Z.of_nat (length (p_buffer out')) = i_buffer out ->
    (p_sys <- get ;
     out <- assert_out_buf ;
     if i_out_offset p_sys <? i_buffer out
     then write_padding (to_size_t (i_buffer out - i_out_offset p_sys))
     else ret tt) (Sys (Some out') off c)
    = Done tt (Sys (Some (set_p_buffer out'
                    (splice (p_buffer out') off
                       (replicate (Z.to_nat (i_buffer out - off)) 0))))
               (Z.max off (i_buffer out)) c)).
  { intros out' Hi Hl. unfold bind, get, assert_out_buf.
    cbn [p_out_buf i_out_offset]. rewrite Hi.
    destruct (Z.ltb_spec off (i_buffer out)) as [Hlt|Hge].
    - rewrite to_size_t_small by lia.
      rewrite write_padding_spec by (unfold room; lia).
      do 2 f_equal. lia.
    - replace (i_buffer out - off) with 0 by lia.
      cbn [Z.to_nat replicate]. rewrite splice_nil.
      unfold ret. destruct out'. cbn. do 2 f_equal. lia. }
  unfold write_finalize, finalize_image. unfold SPDIF_HEADER_SIZE.
  destruct (Z.eqb_spec (to_uint16 dt) 0) as [E|E].
  - unfold bind at 1. unfold assert_out_buf at 1. cbn [p_out_buf].
    unfold bind at 1. unfold ret at 1.
    now rewrite Hpad.
  - destruct (Hdt E) as [Ho Hm].
    unfold bind at 1. unfold assert_out_buf at 1. cbn [p_out_buf].
    unfold bind at 1.
    assert (Hhdr :
      (p_sys <- get ;
       assert (8 <? i_out_offset p_sys) ;;
       assert ((to_uint8 mul =? 1) || (to_uint8 mul =? 8)) ;;
       b0 <- access (store (p_buffer out) 0 (write_16 p_filter 0xf872)) ;
       b2 <- access (store b0 2 (write_16 p_filter 0x4e1f)) ;
       b4 <- access (store b2 4 (write_16 p_filter (to_uint16 dt))) ;
       b6 <- access (store b4 6
               (write_16 p_filter
                  (to_uint16 (to_size_t ((i_out_offset p_sys - 8)
                                         * to_uint8 mul))))) ;
       set_out_buf (Some (set_p_buffer out b6)))
        (Sys (Some out) off c)
      = Done tt
          (Sys (Some (set_p_buffer out
             (splice (p_buffer out) 0
                (burst_header p_filter (to_uint16 dt)
                   (to_uint16 (to_size_t ((off - 8) * to_uint8 mul)))))))
             off c)).
    { unfold bind, get, assert, access, set_out_buf.
      cbn [p_out_buf i_out_offset spec].
      rewrite (proj2 (Z.ltb_lt 8 off)) by lia.
      replace ((to_uint8 mul =? 1) || (to_uint8 mul =? 8)) with true
        by (destruct Hm as [-> | ->]; reflexivity).
      unfold burst_header.
      rewrite !store_ok by splice_len.
      cbn [p_out_buf i_out_offset spec].
      now rewrite splice_burst_header by lia. }
    rewrite Hhdr.
    rewrite Hpad; [reflexivity|reflexivity|].
    cbn [p_buffer set_p_buffer].
    rewrite length_splice; rewrite ?length_burst_header; lia.
Qed.


(** ** Reading a finalized packet *)

Lemma sub_bytes_sub_bytes (buf : list Z) o len a b :
  0 <= o -> 0 <= a -> 0 <= b -> a + b <= len ->
  sub_bytes a b (sub_bytes o len buf) = sub_bytes (o + a) b buf.
Proof.
  intros Ho Ha Hb Hab. apply list_eq; intros i.
  rewrite !lookup_sub_bytes.
  repeat destruct (decide _); try reflexivity; try lia.
  f_equal. lia.
Qed.

Lemma sub_bytes_all (buf : list Z) :
  sub_bytes 0 (Z.of_nat (length buf)) buf = buf.
Proof.
  unfold sub_bytes. rewrite Nat2Z.id. cbn [Z.to_nat drop].
  now rewrite take_ge.
Qed.

Lemma length_sub_bytes (buf : list Z) o len :
  0 <= o -> 0 <= len -> o + len <= Z.of_nat (length buf) ->
  Z.of_nat (length (sub_bytes o len buf)) = len.
Proof.
  intros Ho Hl H. unfold sub_bytes. rewrite length_take, length_drop. lia.
Qed.

Lemma length_finalize_image p_filter dt mul off out :
  room out off 0 -> SPDIF_HEADER_SIZE <= i_buffer out ->
  length (finalize_image p_filter dt mul off out) = length (p_buffer out).
Proof.
  intros (Hlen & Hoff & _ & Hfit & Hmax) H8. unfold SPDIF_HEADER_SIZE in *.
  unfold finalize_image.
  destruct (to_uint16 dt =? 0); splice_len.
Qed.

(** With a data type, the packet starts with the burst preamble. *)
Lemma finalize_image_header p_filter dt mul off out :
  room out off 0 -> SPDIF_HEADER_SIZE <= off -> to_uint16 dt <> 0 ->
  sub_bytes 0 8 (finalize_image p_filter dt mul off out)
  = burst_header p_filter (to_uint16 dt)
      (to_uint16 (to_size_t ((off - SPDIF_HEADER_SIZE) * to_uint8 mul))).
Proof.
  intros (Hlen & Hoff & _ & Hfit & Hmax) H8 Hdt. unfold SPDIF_HEADER_SIZE in *.
  unfold finalize_image.
  destruct (Z.eqb_spec (to_uint16 dt) 0) as [E|_]; [easy|].
  rewrite sub_bytes_splice_disjoint by (try splice_len; left; lia).
  set (hdr := burst_header _ _ _).
  assert (Hh : Z.of_nat (length hdr) = 8)
    by (subst hdr; now rewrite length_burst_header).
  rewrite <- Hh. apply sub_bytes_splice_same; lia.
Qed.

(** What was written between the preamble and the final offset stays. *)
Lemma finalize_image_payload p_filter dt mul off out o len :
  room out off 0 -> SPDIF_HEADER_SIZE <= i_buffer out ->
  (if to_uint16 dt =? 0 then 0 else SPDIF_HEADER_SIZE) <= o ->
  0 <= len -> o + len <= off ->
  sub_bytes o len (finalize_image p_filter dt mul off out)
  = sub_bytes o len (p_buffer out).
Proof.
  intros (Hlen & Hoff & _ & Hfit & Hmax) H8 Ho Hl Hend.
  unfold SPDIF_HEADER_SIZE in *. unfold finalize_image.
  destruct (Z.eqb_spec (to_uint16 dt) 0) as [E|E].
  - rewrite sub_bytes_splice_disjoint by (try splice_len; left; lia).
    reflexivity.
  - rewrite sub_bytes_splice_disjoint by (try splice_len; left; lia).
    rewrite sub_bytes_splice_disjoint
      by (try splice_len; right; rewrite length_burst_header; lia).
    reflexivity.
Qed.

(** The rest of the packet is zero. *)
Lemma finalize_image_padding p_filter dt mul off out :
  room out off 0 -> SPDIF_HEADER_SIZE <= off ->
  sub_bytes off (i_buffer out - off) (finalize_image p_filter dt mul off out)
  = replicate (Z.to_nat (i_buffer out - off)) 0.
Proof.
  intros (Hlen & Hoff & _ & Hfit & Hmax) H8. unfold SPDIF_HEADER_SIZE in *.
  unfold finalize_image.
  set (pad := replicate _ 0).
  replace (i_buffer out - off) with (Z.of_nat (length pad))
    by (subst pad; rewrite length_replicate; lia).
  apply sub_bytes_splice_same; [lia|].
  subst pad. destruct (to_uint16 dt =? 0); splice_len.
Qed.

Lemma sub_bytes_splice_app_l (buf : list Z) off d1 d2 :
  0 <= off ->
  off + Z.of_nat (length d1) + Z.of_nat (length d2) <= Z.of_nat (length buf) ->
  sub_bytes off (Z.of_nat (length d1)) (splice buf off (d1 ++ d2)) = d1.
Proof.
  intros H0 H1. rewrite <- splice_splice_app by lia.
  rewrite sub_bytes_splice_disjoint by (try splice_len; left; lia).
  apply sub_bytes_splice_same; lia.
Qed.

Lemma sub_bytes_splice_app_r (buf : list Z) off d1 d2 :
  0 <= off ->
  off + Z.of_nat (length d1) + Z.of_nat (length d2) <= Z.of_nat (length buf) ->
  sub_bytes (off + Z.of_nat (length d1)) (Z.of_nat (length d2))
            (splice buf off (d1 ++ d2)) = d2.
Proof.
  intros H0 H1. rewrite <- splice_splice_app by lia.
  apply sub_bytes_splice_same; splice_len.
Qed.

(** ** Byte order *)

Lemma high_byte_of_shifted last :
  0 <= last < 256 ->
  Z.land (Z.shiftr (to_uint16 (Z.shiftl last 8)) 8) 255 = last
  /\ Z.land (to_uint16 (Z.shiftl last 8)) 255 = 0.
Proof.
  intros H. rewrite Z.shiftl_mul_pow2 by lia.
  rewrite to_uint16_small by lia.
  rewrite Z.shiftr_div_pow2 by lia.
  rewrite Z.div_mul by lia.
  change 255 with (Z.ones 8). rewrite !Z.land_ones by lia.
  rewrite Z.mod_small by lia. now rewrite Z.mod_mul by lia.
Qed.

Lemma write_16_high_byte p_filter last :
  0 <= last < 256 ->
  write_16 p_filter (to_uint16 (Z.shiftl last 8))
  = match fmt_out p_filter with
    | VLC_CODEC_SPDIFB => [last; 0]
    | VLC_CODEC_SPDIFL => [0; last]
    end.
Proof.
  intros H. destruct (high_byte_of_shifted last H) as [Hh Hl].
  unfold write_16, SetWBE, SetWLE. rewrite Hh, Hl.
  now destruct (fmt_out p_filter).
Qed.

(** [swab] exchanges the bytes of every pair. *)
Lemma lookup_swab (l : list Z) (i : nat) :
  Nat.even (length l) = true ->
  swab l !! i = l !! (if Nat.even i then S i else pred i).
Proof.
  revert l i. fix IH 1. intros [|a [|b r]] i; try easy.
  cbn [length Nat.even]. intros H.
  destruct i as [|[|i]]; try reflexivity.
  cbn [swab lookup list_lookup Nat.even].
  change (swab r !! i = (a :: b :: r) !! (if Nat.even i then S (S (S i))
                                          else pred (S (S i)))).
  rewrite IH by assumption.
  destruct (Nat.even i) eqn:E; [reflexivity|].
  destruct i as [|i]; [discriminate|reflexivity].
Qed.

(** C8. Append-bytes with an odd count [i_size] and room for [i_size + 1]
    bytes: the first [i_size - 1] source bytes are copied, exchanged in
    pairs when source and destination byte orders differ; one more 16-bit
    word follows in the destination byte order, its high byte the last
    source byte and its low byte 0; the offset advances by [i_size + 1] and
    the rest of the packet is untouched. *)
Theorem write_data_odd_count p_filter p_buf i_size be out off c last :
  room out off (i_size + 1) ->
  0 <= i_size <= Z.of_nat (length p_buf) ->
  i_size mod 2 = 1 ->
  p_buf !! Z.to_nat (i_size - 1) = Some last -> 0 <= last < 256 ->
  exists buf,
    write_data p_filter p_buf i_size be (Sys (Some out) off c)
    = Done tt (Sys (Some (set_p_buffer out buf)) (off + (i_size + 1)) c)
    /\ length buf = length (p_buffer out)
    /\ sub_bytes off (i_size - 1) buf
       = (if xorb be (b_output_big_endian p_filter)
          then swab (take (Z.to_nat (i_size - 1)) p_buf)
          else take (Z.to_nat (i_size - 1)) p_buf)
    /\ sub_bytes (off + (i_size - 1)) 2 buf
       = match fmt_out p_filter with
         | VLC_CODEC_SPDIFB => [last; 0]
         | VLC_CODEC_SPDIFL => [0; last]
         end
    /\ sub_bytes 0 off buf = sub_bytes 0 off (p_buffer out)
    /\ sub_bytes (off + (i_size + 1)) (i_buffer out - (off + (i_size + 1))) buf
       = sub_bytes (off + (i_size + 1)) (i_buffer out - (off + (i_size + 1)))
                   (p_buffer out).
Proof.
  intros Hroom Hsz Hodd Hlast Hbyte.
  pose proof (length_encode p_filter p_buf i_size be Hsz) as Hlen.
  rewrite Hodd in Hlen.
  destruct Hroom as (Hl & Hoff & Hn & Hfit & Hmax).
  eexists. split.
  { rewrite write_data_spec; rewrite ?Hodd; [reflexivity| |assumption].
    unfold room. lia. }
  unfold encode in *. rewrite Hodd in *. cbn [Z.eqb] in *.
  rewrite Hlast in *. change (default 0 (Some last)) with last in *.
  rewrite write_16_high_byte in * by assumption.
  set (body := if xorb be (b_output_big_endian p_filter)
               then swab (take (Z.to_nat (i_size - 1)) p_buf)
               else take (Z.to_nat (i_size - 1)) p_buf) in *.
  set (word := match fmt_out p_filter with
               | VLC_CODEC_SPDIFB => [last; 0]
               | VLC_CODEC_SPDIFL => [0; last]
               end) in *.
  assert (Hw : length word = 2%nat)
    by (subst word; now destruct (fmt_out p_filter)).
  rewrite length_app, Hw in Hlen.
  assert (Hb : Z.of_nat (length body) = i_size - 1) by lia.
  split; [apply length_splice; rewrite ?length_app; lia|].
  split; [rewrite <- Hb; apply sub_bytes_splice_app_l; lia|].
  split.
  { rewrite <- Hb. change 2 with (Z.of_nat 2). rewrite <- Hw.
    apply sub_bytes_splice_app_r; lia. }
  split; apply sub_bytes_splice_disjoint; rewrite ?length_app; lia.
Qed.

(** C9, as the code has it. Finalize keeps no record of having run. On a
    packet as allocated it is refused, by an assertion, in exactly these
    cases: no packet is in progress; or the data type is not 0 and the write
    offset is not past the 8-byte preamble or the length multiplier is
    neither 1 nor 8. In every other case it is accepted, and then a second
    call on the same packet is accepted too: it rewrites the preamble with
    the length of the whole packet and leaves every later byte as the first
    call left it. *)
Theorem write_finalize_twice p_filter dt mul out off c :
  room out off 0 -> SPDIF_HEADER_SIZE <= i_buffer out ->
  write_finalize p_filter dt mul (Sys None off c) = AssertFailed
  /\ (to_uint16 dt <> 0 ->
      off <= SPDIF_HEADER_SIZE
      \/ (to_uint8 mul <> 1 /\ to_uint8 mul <> 8) ->
      write_finalize p_filter dt mul (Sys (Some out) off c) = AssertFailed)
  /\ ((to_uint16 dt <> 0 ->
       SPDIF_HEADER_SIZE < off /\ (to_uint8 mul = 1 \/ to_uint8 mul = 8)) ->
      exists out1 out2,
        write_finalize p_filter dt mul (Sys (Some out) off c)
        = Done tt (Sys (Some out1) (i_buffer out) c)
        /\ write_finalize p_filter dt mul (Sys (Some out1) (i_buffer out) c)
           = Done tt (Sys (Some out2) (i_buffer out) c)
        /\ sub_bytes SPDIF_HEADER_SIZE (i_buffer out - SPDIF_HEADER_SIZE)
                     (p_buffer out2)
           = sub_bytes SPDIF_HEADER_SIZE (i_buffer out - SPDIF_HEADER_SIZE)
                       (p_buffer out1)
        /\ (to_uint16 dt <> 0 ->
            sub_bytes 0 SPDIF_HEADER_SIZE (p_buffer out2)
            = burst_header p_filter (to_uint16 dt)
                (to_uint16 (to_size_t ((i_buffer out - SPDIF_HEADER_SIZE)
                                       * to_uint8 mul))))).
Proof.
  intros Hroom H8.
  split; [reflexivity|]. split.
  { intros Hnz Hbad.
    unfold write_finalize. cbv zeta.
    unfold bind at 1. unfold assert_out_buf at 1. cbn [p_out_buf].
    unfold bind at 1.
    rewrite (proj2 (Z.eqb_neq _ 0) Hnz).
    unfold bind at 1. unfold get at 1.
    unfold bind at 1. unfold assert at 1. cbn [i_out_offset].
    destruct (Z.ltb_spec SPDIF_HEADER_SIZE off) as [Hpast|Hnot];
      [|reflexivity].
    destruct Hbad as [Hoff|[H1 H2]]; [lia|].
    unfold bind at 1. unfold assert at 1.
    rewrite (proj2 (Z.eqb_neq _ 1) H1), (proj2 (Z.eqb_neq _ 8) H2).
    reflexivity. }
  intros Hdt.
  pose proof Hroom as (Hl & Hoff & _ & Hfit & Hmax).
  unfold SPDIF_HEADER_SIZE in *.
  pose proof (length_finalize_image p_filter dt mul off out Hroom H8) as Hlf.
  set (out1 := set_p_buffer out (finalize_image p_filter dt mul off out)).
  assert (Hroom1 : room out1 (i_buffer out) 0).
  { unfold room, out1. cbn [p_buffer i_buffer set_p_buffer]. lia. }
  exists out1, (set_p_buffer out1
                  (finalize_image p_filter dt mul (i_buffer out) out1)).
  split.
  { rewrite write_finalize_spec by assumption.
    now rewrite Z.max_r by lia. }
  split.
  { rewrite write_finalize_spec; [|assumption|assumption|].
    - now rewrite Z.max_l by (cbn; lia).
    - intros Hnz. destruct (Hdt Hnz). unfold SPDIF_HEADER_SIZE. lia. }
  split.
  - cbn [p_buffer set_p_buffer].
    unfold finalize_image at 1. cbn [i_buffer out1 set_p_buffer].
    fold out1.
    replace (i_buffer out - i_buffer out) with 0 by lia.
    cbn [Z.to_nat replicate]. rewrite splice_nil.
    destruct (to_uint16 dt =? 0); [reflexivity|].
    apply sub_bytes_splice_disjoint; rewrite ?length_burst_header;
      cbn [p_buffer out1 set_p_buffer]; lia.
  - intros Hnz. cbn [p_buffer set_p_buffer].
    change 8 with SPDIF_HEADER_SIZE at 1.
    rewrite finalize_image_header
      by (try assumption; unfold SPDIF_HEADER_SIZE; lia).
    reflexivity.
Qed.

(** ** One call of [DoWork] *)

Lemma DoWork_success p_filter h p_in_buf s p_in' out off c :
  strategy p_filter h p_in_buf s
  = Done (SPDIF_SUCCESS, p_in') (Sys (Some out) off c) ->
  i_buffer out = off ->
  DoWork p_filter h p_in_buf s
  = Done (Work SPDIF_SUCCESS (Some out) [p_in']) (Sys None off c).
Proof.
  intros H Hoff. unfold DoWork. fold (strategy p_filter h p_in_buf).
  unfold bind at 1. rewrite H. cbn [fst snd].
  unfold bind, get, assert_out_buf, assert, set_out_buf, ret.
  cbn [p_out_buf i_out_offset spec fst snd].
  now rewrite (proj2 (Z.eqb_eq _ _) Hoff).
Qed.

Lemma DoWork_more_data p_filter h p_in_buf s p_in' s1 :
  strategy p_filter h p_in_buf s = Done (SPDIF_MORE_DATA, p_in') s1 ->
  DoWork p_filter h p_in_buf s = Done (Work SPDIF_MORE_DATA None [p_in']) s1.
Proof.
  intros H. unfold DoWork. fold (strategy p_filter h p_in_buf).
  unfold bind at 1. now rewrite H.
Qed.

Lemma DoWork_error p_filter h p_in_buf s p_in' s1 :
  strategy p_filter h p_in_buf s = Done (SPDIF_ERROR, p_in') s1 ->
  DoWork p_filter h p_in_buf s
  = Done (Work SPDIF_ERROR None (in_progress s1 ++ [p_in']))
         (Sys None (i_out_offset s1) 0).
Proof.
  intros H. unfold DoWork. fold (strategy p_filter h p_in_buf).
  unfold bind at 1. now rewrite H.
Qed.

Lemma post_ret {A} (Q : A -> Prop) a : Q a -> post Q (ret a).
Proof. intros H s a' s' E. now inversion E; subst. Qed.

Lemma post_bind {A B} (Q : B -> Prop) (m : M A) (k : A -> M B) :
  (forall a, post Q (k a)) -> post Q (bind m k).
Proof.
  intros H s b s' E. unfold bind in E.
  destruct (m s) as [a s1| |]; try discriminate. eapply H, E.
Qed.

Ltac post_step :=
  first
    [ apply post_ret; reflexivity
    | apply post_bind; intros ?
    | match goal with
      | |- context [if ?c then _ else _] =>
          lazymatch c with
          | context [if _ then _ else _] => fail
          | context [match _ with _ => _ end] => fail
          | _ => destruct c
          end
      | |- context [match ?x with _ => _ end] =>
          lazymatch x with
          | context [if _ then _ else _] => fail
          | context [match _ with _ => _ end] => fail
          | _ => destruct x
          end
      end ].

(** Every strategy hands back the block it was given: the same bytes, at
    most with [i_buffer] and [i_nb_samples] replaced by parsed values. *)
Lemma strategy_keeps_input p_filter h p_in_buf :
  post (fun r => p_buffer (snd r) = p_buffer p_in_buf)
       (strategy p_filter h p_in_buf).
Proof.
  unfold strategy.
  destruct (fmt_in p_filter).
  - unfold write_buffer_ac3. cbv zeta. repeat post_step.
  - unfold write_buffer_eac3. cbv zeta. repeat post_step.
  - unfold write_buffer_truehd, truehd_store_slot. repeat post_step.
  - unfold write_buffer_truehd, truehd_store_slot. repeat post_step.
  - unfold write_buffer_dts. cbv zeta. repeat post_step.
Qed.

Lemma Flush_spec s :
  Flush s = Done (in_progress s) (Sys None (i_out_offset s) 0).
Proof. reflexivity. Qed.

(** C7. [Flush] returns in every state: it releases the packet in
    progress, if any, and leaves no packet and a zero counter, so that a
    second [Flush] releases nothing and changes nothing. [DoWork] returns
    whenever its strategy does and the packet of a success is full: when
    the strategy ends in error the call goes through [Flush], releases the
    packet in progress and then the input block, returns no packet and
    leaves no packet and a zero counter; when it asks for more input or
    succeeds the input block is released as well. And every call that
    returns has released its input block last. *)
Theorem flush_and_error_reset :
  (forall s,
     exists s',
       Flush s = Done (in_progress s) s'
       /\ p_out_buf s' = None /\ spec s' = 0 /\ Flush s' = Done [] s')
  /\ (forall p_filter h p_in_buf s p_in' s1,
        strategy p_filter h p_in_buf s = Done (SPDIF_ERROR, p_in') s1 ->
        exists s',
          DoWork p_filter h p_in_buf s
          = Done (Work SPDIF_ERROR None (in_progress s1 ++ [p_in'])) s'
          /\ p_buffer p_in' = p_buffer p_in_buf
          /\ p_out_buf s' = None /\ spec s' = 0 /\ Flush s' = Done [] s')
  /\ (forall p_filter h p_in_buf s p_in' s1,
        strategy p_filter h p_in_buf s = Done (SPDIF_MORE_DATA, p_in') s1 ->
        DoWork p_filter h p_in_buf s
        = Done (Work SPDIF_MORE_DATA None [p_in']) s1
        /\ p_buffer p_in' = p_buffer p_in_buf)
  /\ (forall p_filter h p_in_buf s p_in' out off c,
        strategy p_filter h p_in_buf s
        = Done (SPDIF_SUCCESS, p_in') (Sys (Some out) off c) ->
        i_buffer out = off ->
        DoWork p_filter h p_in_buf s
        = Done (Work SPDIF_SUCCESS (Some out) [p_in']) (Sys None off c)
        /\ p_buffer p_in' = p_buffer p_in_buf)
  /\ (forall p_filter h p_in_buf s w s',
        DoWork p_filter h p_in_buf s = Done w s' ->
        (exists p_in', last (released w) = Some p_in'
                       /\ p_buffer p_in' = p_buffer p_in_buf)
        /\ (i_ret w = SPDIF_ERROR ->
            p_out w = None /\ p_out_buf s' = None /\ spec s' = 0
            /\ Flush s' = Done [] s')).
Proof.
  split.
  { intros s. exists (Sys None (i_out_offset s) 0).
    rewrite Flush_spec. repeat split; reflexivity. }
  split.
  { intros p_filter h p_in_buf s p_in' s1 Es.
    exists (Sys None (i_out_offset s1) 0).
    split; [exact (DoWork_error _ _ _ _ _ _ Es)|].
    split; [exact (strategy_keeps_input p_filter h p_in_buf s _ _ Es)|].
    repeat split; reflexivity. }
  split.
  { intros p_filter h p_in_buf s p_in' s1 Es.
    split; [exact (DoWork_more_data _ _ _ _ _ _ Es)|].
    exact (strategy_keeps_input p_filter h p_in_buf s _ _ Es). }
  split.
  { intros p_filter h p_in_buf s p_in' out off c Es Hoff.
    split; [exact (DoWork_success _ _ _ _ _ _ _ _ Es Hoff)|].
    exact (strategy_keeps_input p_filter h p_in_buf s _ _ Es). }
  intros p_filter h p_in_buf s w s' E.
  destruct (strategy p_filter h p_in_buf s) as [[r p_in'] s1| |] eqn:Es.
  - pose proof (strategy_keeps_input p_filter h p_in_buf s _ _ Es) as Hk.
    cbn [snd] in Hk.
    destruct r.
    + unfold DoWork in E. fold (strategy p_filter h p_in_buf) in E.
      unfold bind at 1 in E. rewrite Es in E. cbn [fst snd] in E.
      unfold bind, get, assert_out_buf, assert, set_out_buf, ret in E.
      destruct (p_out_buf s1); [|discriminate].
      destruct (_ =? _); [|discriminate].
      inversion E; subst. cbn. split; [eauto|discriminate].
    + rewrite (DoWork_more_data _ _ _ _ _ _ Es) in E.
      inversion E; subst. cbn. split; [eauto|discriminate].
    + rewrite (DoWork_error _ _ _ _ _ _ Es) in E.
      inversion E; subst. cbn [released i_ret p_out p_out_buf spec].
      split; [|now intros _].
      exists p_in'. split; [apply last_snoc|assumption].
  - unfold DoWork in E. fold (strategy p_filter h p_in_buf) in E.
    unfold bind at 1 in E. now rewrite Es in E.
  - unfold DoWork in E. fold (strategy p_filter h p_in_buf) in E.
    unfold bind at 1 in E. now rewrite Es in E.
Qed.

(** ** AC-3 *)

Lemma a52_size_value : a52_size = 6144.
Proof. reflexivity. Qed.

Lemma ac3_data_type_nonzero b5 :
  to_uint16 (Z.lor IEC61937_AC3 (Z.shiftl (Z.land b5 0x7) 8)) <> 0.
Proof.
  intros E.
  assert (H : Z.testbit (to_uint16 (Z.lor IEC61937_AC3
                                      (Z.shiftl (Z.land b5 0x7) 8))) 0 = true).
  { unfold to_uint16. rewrite Z.mod_pow2_bits_low by lia.
    rewrite Z.lor_spec. reflexivity. }
  rewrite E in H. discriminate.
Qed.

Lemma burst_header_sync_words p_filter dt len :
  sub_bytes 0 4 (burst_header p_filter dt len) = sync_words p_filter.
Proof.
  unfold burst_header, sync_words, write_16. now destruct (fmt_out p_filter).
Qed.

(** C6, as the code has it. A pre-tagged AC-3 frame (1536 samples) of 6 to
    6144 - 8 bytes gives one packet per call: 6144 bytes long, starting with
    the sync words 0xF872 0x4E1F in the output byte order, and nothing is
    left in progress. The frame has to leave room for the 8-byte
    preamble. *)
Theorem ac3_one_packet_per_frame p_filter h p_in_buf s :
  fmt_in p_filter = VLC_CODEC_A52 ->
  p_out_buf s = None ->
  alloc_fails h = false ->
  6 <= i_buffer p_in_buf <= A52_FRAME_NB * 4 - SPDIF_HEADER_SIZE ->
  i_buffer p_in_buf <= Z.of_nat (length (p_buffer p_in_buf)) ->
  i_nb_samples p_in_buf = A52_FRAME_NB ->
  exists pkt s',
    DoWork p_filter h p_in_buf s
    = Done (Work SPDIF_SUCCESS (Some pkt) [p_in_buf]) s'
    /\ p_out_buf s' = None
    /\ i_buffer pkt = A52_FRAME_NB * 4
    /\ Z.of_nat (length (p_buffer pkt)) = A52_FRAME_NB * 4
    /\ sub_bytes 0 4 (p_buffer pkt) = sync_words p_filter.
Proof.
  intros Hfmt Hnone Halloc Hsz Hlen Hsmp.
  unfold A52_FRAME_NB, SPDIF_HEADER_SIZE in *.
  destruct s as [o off c]. cbn [p_out_buf] in Hnone. subst o.
  assert (Hb5 : exists b5, load_byte (p_buffer p_in_buf) 5 = Some b5).
  { unfold load_byte. cbn [Z.leb Z.compare].
    apply lookup_lt_is_Some_2. lia. }
  destruct Hb5 as [b5 Hb5].
  set (out0 := init_block h p_in_buf 6144 1536).
  set (n := i_buffer p_in_buf) in *.
  pose proof (Z.mod_pos_bound n 2 ltac:(lia)) as Hm.
  assert (Heven : n + n mod 2 <= 6136).
  { pose proof (Z.div_mod n 2 ltac:(lia)). lia. }
  set (out1 := set_i_length
                 (set_p_buffer out0
                    (splice (p_buffer out0) 8
                       (encode p_filter (p_buffer p_in_buf) n
                          (input_big_endian p_filter p_in_buf))))
                 (i_length out0 + i_length p_in_buf)).
  set (dt := Z.lor IEC61937_AC3 (Z.shiftl (Z.land b5 0x7) 8)).
  assert (Hroom0 : room out0 8 (n + n mod 2)).
  { unfold room. subst out0. rewrite length_init_block by lia.
    cbn [i_buffer init_block]. lia. }
  assert (Hroom1 : room out1 (8 + (n + n mod 2)) 0).
  { unfold room, out1. cbn [p_buffer i_buffer set_p_buffer set_i_length].
    rewrite length_splice
      by (rewrite ?length_encode; subst out0;
          rewrite ?length_init_block; lia).
    subst out0. rewrite length_init_block by lia.
    cbn [i_buffer init_block]. lia. }
  assert (Hstrat :
    strategy p_filter h p_in_buf (Sys None off c)
    = Done (SPDIF_SUCCESS, p_in_buf)
        (Sys (Some (set_p_buffer out1
                      (finalize_image p_filter dt 8 (8 + (n + n mod 2)) out1)))
             6144 c)).
  { unfold strategy. rewrite Hfmt. unfold write_buffer_ac3.
    rewrite a52_size_value. fold n. rewrite Hsmp.
    unfold A52_FRAME_NB, SPDIF_HEADER_SIZE.
    rewrite (proj2 (Z.ltb_ge n 6)) by lia.
    rewrite (proj2 (Z.ltb_ge 6144 n)) by lia.
    cbn [Z.eqb Pos.eqb negb orb]. fold n.
    rewrite to_size_t_small by lia.
    rewrite (proj2 (Z.ltb_ge 6144 (n + 8))) by lia.
    unfold bind at 1.
    rewrite write_init_spec by (try assumption; reflexivity).
    fold out0. unfold SPDIF_HEADER_SIZE.
    unfold bind at 1.
    rewrite write_buffer_spec;
      [|assumption|lia|intros _ E; rewrite E in Hlen; cbn in Hlen; lia].
    fold n. fold out1.
    unfold bind at 1. unfold access at 1. rewrite Hb5.
    unfold bind at 1. fold dt.
    rewrite write_finalize_spec;
      [|assumption|subst out1 out0; unfold SPDIF_HEADER_SIZE;
                   cbn [i_buffer set_i_length set_p_buffer init_block]; lia|].
    - unfold ret. do 2 f_equal.
      subst out1 out0. cbn [i_buffer set_i_length set_p_buffer init_block].
      lia.
    - intros _. unfold SPDIF_HEADER_SIZE. split; [lia|now right]. }
  eexists. eexists. split.
  { apply DoWork_success; [exact Hstrat|].
    subst out1 out0. reflexivity. }
  split; [reflexivity|].
  split; [subst out1 out0; reflexivity|].
  cbn [p_buffer set_p_buffer].
  split.
  - rewrite length_finalize_image
      by (try assumption; subst out1 out0; unfold SPDIF_HEADER_SIZE;
          cbn [i_buffer set_i_length set_p_buffer init_block]; lia).
    destruct Hroom1 as [-> _]. subst out1 out0. reflexivity.
  - rewrite <- (burst_header_sync_words p_filter (to_uint16 dt)
        (to_uint16 (to_size_t ((8 + (n + n mod 2) - SPDIF_HEADER_SIZE)
                                * to_uint8 8)))).
    rewrite <- (finalize_image_header p_filter dt 8 (8 + (n + n mod 2)) out1)
      by (try assumption; try apply ac3_data_type_nonzero;
          unfold SPDIF_HEADER_SIZE; lia).
    rewrite sub_bytes_sub_bytes by lia. reflexivity.
Qed.

(** ** DTS *)

Lemma dts_data_type_Some smp dt :
  dts_data_type smp = Some dt ->
  (smp = 512 /\ dt = 0x0B) \/ (smp = 1024 /\ dt = 0x0C)
  \/ (smp = 2048 /\ dt = 0x0D).
Proof.
  unfold dts_data_type.
  destruct (Z.eqb_spec smp 512);
    [intros E; inversion E; subst; now left|].
  destruct (Z.eqb_spec smp 1024);
    [intros E; inversion E; subst; right; now left|].
  destruct (Z.eqb_spec smp 2048);
    [intros E; inversion E; subst; right; now right|].
  discriminate.
Qed.

Lemma dts_data_type_facts smp dt :
  dts_data_type smp = Some dt ->
  to_unsigned (smp * 4) = smp * 4 /\ 512 <= smp <= 2048
  /\ Z.land (smp * 4) 3 = 0 /\ (smp * 4) mod 2 = 0
  /\ to_uint16 dt = dt /\ dt <> 0.
Proof.
  intros H.
  destruct (dts_data_type_Some _ _ H) as [[-> ->]|[[-> ->]|[-> ->]]];
    repeat split; try reflexivity; try lia.
Qed.

Lemma splice_whole (buf data : list Z) :
  length data = length buf -> splice buf 0 data = data.
Proof.
  intros H. unfold splice. cbn [Z.to_nat take Nat.add app].
  rewrite drop_ge by lia. apply app_nil_r.
Qed.

Lemma encode_even p_filter p_buf i_size be :
  i_size mod 2 = 0 ->
  encode p_filter p_buf i_size be
  = if xorb be (b_output_big_endian p_filter)
    then swab (take (Z.to_nat i_size) p_buf)
    else take (Z.to_nat i_size) p_buf.
Proof.
  intros H. unfold encode. rewrite H, Z.sub_0_r. cbn [Z.eqb].
  apply app_nil_r.
Qed.

Lemma dts_unfold p_filter h p_in_buf :
  write_buffer_dts p_filter h p_in_buf
  = match dts_frame p_in_buf with
    | None => ret (SPDIF_ERROR, p_in_buf)
    | Some p_in_buf =>
        match dts_data_type (i_nb_samples p_in_buf) with
        | None => ret (SPDIF_ERROR, p_in_buf)
        | Some i_data_type =>
            let i_out_size := to_unsigned (i_nb_samples p_in_buf * 4) in
            let i_data_type :=
              if i_buffer p_in_buf =? i_out_size then Some 0
              else if i_out_size
                      <? to_size_t (i_buffer p_in_buf + SPDIF_HEADER_SIZE)
                   then None
                   else Some i_data_type in
            match i_data_type with
            | None => ret (SPDIF_ERROR, p_in_buf)
            | Some i_data_type =>
                st <- write_init h p_in_buf i_out_size
                        (i_nb_samples p_in_buf) ;
                match st with
                | VLC_ENOMEM => ret (SPDIF_ERROR, p_in_buf)
                | VLC_SUCCESS =>
                    (if i_data_type =? 0 then set_out_offset 0 else ret tt) ;;
                    write_buffer p_filter p_in_buf ;;
                    write_finalize p_filter i_data_type 8 ;;
                    ret (SPDIF_SUCCESS, p_in_buf)
                end
            end
        end
    end.
Proof. reflexivity. Qed.

(** C5. In the DTS strategy, for the frame [p] the strategy works on:
    - a sample count other than 512, 1024, 2048 ends the call in error, with
      no packet;
    - for 512, 1024, 2048 samples the data type is 0x0B, 0x0C, 0x0D:
      - a payload of exactly samples x 4 bytes is stored from offset 0 with
        no preamble: the packet is the payload (in the output byte order);
      - any other payload that does not leave 8 bytes ends the call in
        error;
      - any other non-empty payload gives a packet of samples x 4 bytes that
        starts with the preamble carrying the data type, followed by the
        payload. *)
Theorem dts_strategy p_filter h p_in_buf p s :
  fmt_in p_filter = VLC_CODEC_DTS ->
  dts_frame p_in_buf = Some p ->
  p_out_buf s = None ->
  0 <= i_buffer p <= Z.of_nat (length (p_buffer p)) ->
  i_buffer p + SPDIF_HEADER_SIZE < 2 ^ 64 ->
  (i_nb_samples p <> 512 -> i_nb_samples p <> 1024 ->
   i_nb_samples p <> 2048 ->
   DoWork p_filter h p_in_buf s
   = Done (Work SPDIF_ERROR None [p]) (Sys None (i_out_offset s) 0))
  /\ (forall dt,
        (i_nb_samples p = 512 /\ dt = 0x0B)
        \/ (i_nb_samples p = 1024 /\ dt = 0x0C)
        \/ (i_nb_samples p = 2048 /\ dt = 0x0D) ->
        (i_buffer p = i_nb_samples p * 4 -> alloc_fails h = false ->
         exists pkt s',
           DoWork p_filter h p_in_buf s
           = Done (Work SPDIF_SUCCESS (Some pkt) [p]) s'
           /\ p_out_buf s' = None
           /\ i_buffer pkt = i_nb_samples p * 4
           /\ p_buffer pkt
              = if xorb (input_big_endian p_filter p)
                        (b_output_big_endian p_filter)
                then swab (take (Z.to_nat (i_buffer p)) (p_buffer p))
                else take (Z.to_nat (i_buffer p)) (p_buffer p))
        /\ (i_buffer p <> i_nb_samples p * 4 ->
            i_nb_samples p * 4 < i_buffer p + SPDIF_HEADER_SIZE ->
            DoWork p_filter h p_in_buf s
            = Done (Work SPDIF_ERROR None [p]) (Sys None (i_out_offset s) 0))
        /\ (0 < i_buffer p ->
            i_buffer p + SPDIF_HEADER_SIZE <= i_nb_samples p * 4 ->
            alloc_fails h = false ->
            exists pkt s',
              DoWork p_filter h p_in_buf s
              = Done (Work SPDIF_SUCCESS (Some pkt) [p]) s'
              /\ p_out_buf s' = None
              /\ i_buffer pkt = i_nb_samples p * 4
              /\ Z.of_nat (length (p_buffer pkt)) = i_nb_samples p * 4
              /\ sub_bytes 0 SPDIF_HEADER_SIZE (p_buffer pkt)
                 = burst_header p_filter dt
                     (to_uint16 ((i_buffer p + i_buffer p mod 2) * 8))
              /\ sub_bytes SPDIF_HEADER_SIZE
                           (i_buffer p + i_buffer p mod 2) (p_buffer pkt)
                 = encode p_filter (p_buffer p) (i_buffer p)
                          (input_big_endian p_filter p))).
Proof.
  intros Hfmt Hframe Hnone Hsz Hmax. unfold SPDIF_HEADER_SIZE in *.
  destruct s as [o off c]. cbn [p_out_buf] in Hnone. subst o.
  cbn [i_out_offset].
  assert (Hstrat : strategy p_filter h p_in_buf
                   = write_buffer_dts p_filter h p_in_buf)
    by (unfold strategy; now rewrite Hfmt).
  set (n := i_buffer p) in *. set (smp := i_nb_samples p) in *.
  pose proof (Z.mod_pos_bound n 2 ltac:(lia)) as Hm.
  split.
  { intros N1 N2 N3. apply DoWork_error with (s1 := Sys None off c).
    rewrite Hstrat, dts_unfold, Hframe. fold smp.
    unfold dts_data_type.
    now rewrite (proj2 (Z.eqb_neq smp 512)), (proj2 (Z.eqb_neq smp 1024)),
      (proj2 (Z.eqb_neq smp 2048)) by assumption. }
  intros dt Hcases.
  assert (Hdt : dts_data_type smp = Some dt)
    by (destruct Hcases as [[-> ->]|[[-> ->]|[-> ->]]]; reflexivity).
  clear Hcases.
  destruct (dts_data_type_facts _ _ Hdt) as (Hu & Hs & H4 & Hev & Hdt16 & Hnz).
  set (out0 := init_block h p (smp * 4) smp).
  assert (Hlen0 : Z.of_nat (length (p_buffer out0)) = smp * 4)
    by (subst out0; apply length_init_block; lia).
  assert (Hne : fmt_in p_filter = VLC_CODEC_DTS -> 0 < n -> p_buffer p <> [])
    by (intros _ Hpos E; rewrite E in Hsz; cbn in Hsz; lia).
  split; [|split].
  - (* the payload fills the packet *)
    intros Hfull Halloc.
    set (out1 := set_i_length
                   (set_p_buffer out0
                      (splice (p_buffer out0) 0
                         (encode p_filter (p_buffer p) n
                            (input_big_endian p_filter p))))
                   (i_length out0 + i_length p)).
    assert (Hn2 : n mod 2 = 0) by (rewrite Hfull; exact Hev).
    assert (Hroom0 : room out0 0 (n + n mod 2)).
    { unfold room. rewrite Hlen0. subst out0. cbn [i_buffer init_block]. lia. }
    assert (Henc : Z.of_nat (length (encode p_filter (p_buffer p) n
                                       (input_big_endian p_filter p))) = n).
    { rewrite length_encode by lia. lia. }
    assert (Hroom1 : room out1 (0 + (n + n mod 2)) 0).
    { unfold room, out1. cbn [p_buffer i_buffer set_p_buffer set_i_length].
      rewrite length_splice by lia. rewrite Hlen0.
      subst out0. cbn [i_buffer init_block]. lia. }
    exists (set_p_buffer out1
              (finalize_image p_filter 0 8 (0 + (n + n mod 2)) out1)),
           (Sys None (smp * 4) c).
    split.
    { apply DoWork_success; [|subst out1 out0; reflexivity].
      rewrite Hstrat, dts_unfold, Hframe. fold smp n. rewrite Hdt.
      cbv zeta. rewrite Hu, (proj2 (Z.eqb_eq n (smp * 4)) Hfull).
      unfold bind at 1.
      rewrite write_init_spec by (try assumption; unfold SPDIF_HEADER_SIZE; lia).
      fold out0. cbn [Z.eqb].
      unfold bind at 1. unfold set_out_offset at 1.
      cbn [p_out_buf i_out_offset spec].
      unfold bind at 1.
      rewrite write_buffer_spec; [|assumption|lia|].
      2:{ intros Hd. apply Hne; [assumption|lia]. }
      fold n. fold out1.
      unfold bind at 1.
      rewrite write_finalize_spec;
        [|assumption|subst out1 out0; unfold SPDIF_HEADER_SIZE;
                     cbn [i_buffer set_i_length set_p_buffer init_block]; lia
         |intros Hc; now elim Hc].
      unfold ret. do 2 f_equal.
      subst out1 out0. cbn [i_buffer set_i_length set_p_buffer init_block].
      lia. }
    split; [reflexivity|]. split; [subst out1 out0; reflexivity|].
    cbn [p_buffer set_p_buffer]. unfold finalize_image.
    change (to_uint16 0 =? 0) with true. cbv iota.
    replace (i_buffer out1 - (0 + (n + n mod 2))) with 0
      by (subst out1 out0;
          cbn [i_buffer set_i_length set_p_buffer init_block]; lia).
    cbn [Z.to_nat replicate]. rewrite splice_nil.
    subst out1. cbn [p_buffer set_p_buffer set_i_length].
    rewrite splice_whole by lia.
    now apply encode_even.
  - (* no room for the preamble *)
    intros Hneq Hover. apply DoWork_error with (s1 := Sys None off c).
    rewrite Hstrat, dts_unfold, Hframe. fold smp n. rewrite Hdt.
    cbv zeta. rewrite Hu, (proj2 (Z.eqb_neq n (smp * 4)) Hneq).
    unfold SPDIF_HEADER_SIZE. rewrite to_size_t_small by lia.
    now rewrite (proj2 (Z.ltb_lt (smp * 4) (n + 8))) by lia.
  - (* preamble and payload *)
    intros Hpos Hfit Halloc.
    set (out1 := set_i_length
                   (set_p_buffer out0
                      (splice (p_buffer out0) 8
                         (encode p_filter (p_buffer p) n
                            (input_big_endian p_filter p))))
                   (i_length out0 + i_length p)).
    assert (Hev2 : n + n mod 2 + 8 <= smp * 4).
    { pose proof (Z.div_mod n 2 ltac:(lia)).
      pose proof (Z.div_mod (smp * 4) 2 ltac:(lia)). lia. }
    assert (Hroom0 : room out0 8 (n + n mod 2)).
    { unfold room. rewrite Hlen0. subst out0. cbn [i_buffer init_block]. lia. }
    assert (Henc : Z.of_nat (length (encode p_filter (p_buffer p) n
                                       (input_big_endian p_filter p)))
                   = n + n mod 2).
    { rewrite length_encode by lia. lia. }
    assert (Hroom1 : room out1 (8 + (n + n mod 2)) 0).
    { unfold room, out1. cbn [p_buffer i_buffer set_p_buffer set_i_length].
      rewrite length_splice by lia. rewrite Hlen0.
      subst out0. cbn [i_buffer init_block]. lia. }
    assert (Hi1 : i_buffer out1 = smp * 4) by (subst out1 out0; reflexivity).
    assert (Hp1 : Z.of_nat (length (p_buffer out1)) = smp * 4)
      by (destruct Hroom1 as [-> _]; exact Hi1).
    exists (set_p_buffer out1
              (finalize_image p_filter dt 8 (8 + (n + n mod 2)) out1)),
           (Sys None (smp * 4) c).
    split.
    { apply DoWork_success; [|exact Hi1].
      rewrite Hstrat, dts_unfold, Hframe. fold smp n. rewrite Hdt.
      cbv zeta. rewrite Hu.
      rewrite (proj2 (Z.eqb_neq n (smp * 4))) by lia.
      unfold SPDIF_HEADER_SIZE. rewrite to_size_t_small by lia.
      rewrite (proj2 (Z.ltb_ge (smp * 4) (n + 8))) by lia.
      unfold bind at 1.
      rewrite write_init_spec by (try assumption; unfold SPDIF_HEADER_SIZE; lia).
      fold out0. rewrite (proj2 (Z.eqb_neq dt 0) Hnz).
      unfold bind at 1. unfold ret at 1. unfold SPDIF_HEADER_SIZE.
      unfold bind at 1.
      rewrite write_buffer_spec; [|assumption|lia|].
      2:{ intros Hd. apply Hne; [assumption|lia]. }
      fold n. fold out1.
      unfold bind at 1.
      rewrite write_finalize_spec;
        [|assumption|unfold SPDIF_HEADER_SIZE; lia
         |intros _; unfold SPDIF_HEADER_SIZE; split; [lia|now right]].
      unfold ret. do 2 f_equal. lia. }
    split; [reflexivity|]. split; [exact Hi1|].
    cbn [p_buffer set_p_buffer].
    split.
    { rewrite length_finalize_image
        by (try assumption; unfold SPDIF_HEADER_SIZE; lia).
      exact Hp1. }
    split.
    { rewrite finalize_image_header
        by (try assumption; unfold SPDIF_HEADER_SIZE; try lia;
            rewrite Hdt16; exact Hnz).
      rewrite Hdt16. unfold SPDIF_HEADER_SIZE.
      change (to_uint8 8) with 8.
      rewrite to_size_t_small by lia.
      do 2 f_equal. lia. }
    rewrite finalize_image_payload
      by (try assumption; unfold SPDIF_HEADER_SIZE; try lia;
          rewrite Hdt16, (proj2 (Z.eqb_neq dt 0) Hnz); lia).
    subst out1. cbn [p_buffer set_p_buffer set_i_length].
    rewrite <- Henc. apply sub_bytes_splice_same; lia.
Qed.

(** ** E-AC-3 *)

Lemma eac3_size_facts :
  aout_spdif_size_ok ->
  eac3_size = AOUT_SPDIF_SIZE * 4 /\ Z.land eac3_size 3 = 0
  /\ eac3_size mod 2 = 0.
Proof.
  intros [H8 Hmax]. unfold SPDIF_HEADER_SIZE in *.
  assert (E : eac3_size = AOUT_SPDIF_SIZE * 4)
    by (unfold eac3_size; apply to_size_t_small; lia).
  rewrite E. split; [reflexivity|]. split.
  - change 3 with (Z.ones 2). rewrite Z.land_ones by lia.
    change (2 ^ 2) with 4. apply Z.mod_mul. lia.
  - replace (AOUT_SPDIF_SIZE * 4) with (AOUT_SPDIF_SIZE * 2 * 2) by lia.
    apply Z.mod_mul. lia.
Qed.

Lemma even_room a b n :
  a mod 2 = 0 -> b mod 2 = 0 -> 0 <= n -> n <= a - b ->
  n + n mod 2 <= a - b.
Proof.
  intros Ha Hb Hn H.
  pose proof (Z.div_mod a 2 ltac:(lia)).
  pose proof (Z.div_mod b 2 ltac:(lia)).
  pose proof (Z.div_mod n 2 ltac:(lia)).
  pose proof (Z.mod_pos_bound n 2 ltac:(lia)). lia.
Qed.

Lemma even_add a n : a mod 2 = 0 -> (a + (n + n mod 2)) mod 2 = 0.
Proof.
  intros Ha.
  pose proof (Z.div_mod a 2 ltac:(lia)).
  pose proof (Z.div_mod n 2 ltac:(lia)).
  pose proof (Z.mod_pos_bound n 2 ltac:(lia)).
  assert (E : n mod 2 = 0 \/ n mod 2 = 1) by lia.
  destruct E as [E|E]; rewrite E.
  - replace (a + (n + 0)) with ((a / 2 + n / 2) * 2) by lia.
    apply Z.mod_mul. lia.
  - replace (a + (n + 1)) with ((a / 2 + n / 2 + 1) * 2) by lia.
    apply Z.mod_mul. lia.
Qed.

(** The packet and offset a frame is appended to leave room for it. *)
Lemma eac3_room h p_in_buf a52 s :
  aout_spdif_size_ok -> eac3_inv s -> eac3_fits h p_in_buf a52 s ->
  let p := eac3_frame p_in_buf a52 in
  room (eac3_out h p s) (eac3_off s) (i_buffer p + i_buffer p mod 2)
  /\ i_buffer (eac3_out h p s) = eac3_size
  /\ eac3_off s mod 2 = 0 /\ SPDIF_HEADER_SIZE <= eac3_off s.
Proof.
  intros Hok Hinv (Hparse & Hsz & Hlen & Halloc & Hfit).
  destruct (eac3_size_facts Hok) as (Es & H4 & Hev).
  destruct Hok as [H8 Hmax]. unfold SPDIF_HEADER_SIZE in *.
  cbn zeta. cbn [eac3_frame i_buffer set_i_buffer set_i_nb_samples].
  pose proof (Z.mod_pos_bound (a52.i_size a52) 2 ltac:(lia)) as Hm.
  unfold eac3_inv, eac3_out, eac3_off, room in *.
  unfold SPDIF_HEADER_SIZE in *.
  destruct (p_out_buf s) as [out|].
  - destruct Hinv as (Hl & Hi & Ho & He).
    pose proof (even_room eac3_size (i_out_offset s) (a52.i_size a52)
                  Hev He ltac:(lia) Hfit).
    rewrite Hl, Hi. repeat split; try lia.
  - rewrite length_init_block by lia. cbn [i_buffer init_block].
    pose proof (even_room eac3_size 8 (a52.i_size a52)
                  Hev eq_refl ltac:(lia) Hfit).
    repeat split; try lia.
Qed.

(** Appending keeps the invariant. *)
Lemma eac3_inv_appended p_filter h p_in_buf a52 s c :
  aout_spdif_size_ok -> eac3_inv s -> eac3_fits h p_in_buf a52 s ->
  let s' := eac3_appended p_filter h (eac3_frame p_in_buf a52) s c in
  eac3_inv s'
  /\ eac3_off s' = eac3_off s + (a52.i_size a52 + a52.i_size a52 mod 2)
  /\ p_out_buf s' <> None /\ spec s' = c.
Proof.
  intros Hok Hinv Hfits.
  destruct (eac3_room h p_in_buf a52 s Hok Hinv Hfits)
    as ((Hl & Ho & Hn & Hf & Hmax) & Hi & He & H8).
  destruct Hfits as (Hparse & Hsz & Hlen & Halloc & Hfit).
  cbn zeta. unfold eac3_appended, eac3_inv.
  cbn [p_out_buf i_out_offset spec eac3_off p_buffer i_buffer set_p_buffer
       set_i_length].
  cbn [eac3_frame i_buffer p_buffer set_i_buffer set_i_nb_samples] in *.
  rewrite length_splice by (rewrite ?length_encode; lia).
  repeat split; try lia; try easy.
  now apply even_add.
Qed.

(** The strategy up to the point where the frame is appended. *)
Lemma eac3_append p_filter h p_in_buf a52 s :
  aout_spdif_size_ok -> eac3_inv s -> eac3_fits h p_in_buf a52 s ->
  fmt_in p_filter = VLC_CODEC_EAC3 ->
  let p := eac3_frame p_in_buf a52 in
  write_buffer_eac3 p_filter h p_in_buf s
  = (if a52.b_eac3 a52 then
       more <-
         (if eac3_accumulates a52 then
            p_sys <- get ;
            (if a52.i_substreamid a52 =? 0
             then set_spec (to_unsigned
                              (spec p_sys + a52.i_blocks_per_sync_frame a52))
             else ret tt) ;;
            p_sys <- get ;
            if negb (spec p_sys =? 6) then ret true
            else set_spec 0 ;; ret false
          else ret false) ;
       if more : bool then ret (SPDIF_MORE_DATA, p)
       else
         write_finalize p_filter IEC61937_EAC3 1 ;;
         ret (SPDIF_SUCCESS, p)
     else ret (SPDIF_MORE_DATA, p))
      (eac3_appended p_filter h p s (spec s)).
Proof.
  intros Hok Hinv Hfits Hfmt.
  destruct (eac3_room h p_in_buf a52 s Hok Hinv Hfits)
    as (Hroom & Hi & He & H8).
  pose proof Hroom as (Hl & Ho & Hn & Hf & Hmax).
  destruct (eac3_size_facts Hok) as (Es & H4 & Hev).
  destruct Hfits as (Hparse & Hsz & Hlen & Halloc & Hfit).
  cbn zeta. unfold write_buffer_eac3. rewrite Hparse.
  rewrite (proj2 (Z.ltb_ge _ _)) by lia.
  fold (eac3_frame p_in_buf a52). fold eac3_size.
  set (p := eac3_frame p_in_buf a52) in *.
  assert (Hib : i_buffer p = a52.i_size a52) by reflexivity.
  assert (Hinit :
    (p_sys <- get ;
     match p_out_buf p_sys with
     | None => write_init h p eac3_size AOUT_SPDIF_SIZE
     | Some _ => ret VLC_SUCCESS
     end) s
    = Done VLC_SUCCESS (Sys (Some (eac3_out h p s)) (eac3_off s) (spec s))).
  { unfold bind, get, eac3_out, eac3_off. destruct s as [[out|] off c].
    - reflexivity.
    - cbn [p_out_buf i_out_offset spec].
      rewrite write_init_spec; [reflexivity|now apply Halloc| |assumption].
      destruct Hok. lia. }
  unfold bind at 1. unfold get at 1.
  unfold bind at 1.
  unfold bind, get in Hinit. rewrite Hinit.
  unfold bind at 1. unfold get at 1.
  unfold bind at 1. unfold assert_out_buf at 1.
  cbn [p_out_buf i_out_offset spec].
  rewrite to_size_t_small by lia.
  rewrite (proj2 (Z.ltb_ge _ _)) by (unfold eac3_size in *; lia).
  unfold bind at 1.
  rewrite write_buffer_spec;
    [|assumption
     |subst p; cbn [eac3_frame i_buffer p_buffer set_i_buffer set_i_nb_samples];
      lia
     |intros E; rewrite Hfmt in E; discriminate].
  reflexivity.
Qed.

Lemma strategy_eac3 p_filter h p_in_buf :
  fmt_in p_filter = VLC_CODEC_EAC3 ->
  strategy p_filter h p_in_buf = write_buffer_eac3 p_filter h p_in_buf.
Proof. intros H. unfold strategy. now rewrite H. Qed.

(** A frame that is appended and not yet emitted. *)
Lemma eac3_DoWork_more p_filter h p_in_buf a52 s :
  aout_spdif_size_ok -> eac3_inv s -> eac3_fits h p_in_buf a52 s ->
  fmt_in p_filter = VLC_CODEC_EAC3 ->
  a52.b_eac3 a52 = false
  \/ (a52.b_eac3 a52 = true /\ eac3_accumulates a52 = true
      /\ eac3_count (spec s) a52 <> 6) ->
  DoWork p_filter h p_in_buf s
  = Done (Work SPDIF_MORE_DATA None [eac3_frame p_in_buf a52])
         (eac3_appended p_filter h (eac3_frame p_in_buf a52) s
            (if a52.b_eac3 a52 then eac3_count (spec s) a52 else spec s)).
Proof.
  intros Hok Hinv Hfits Hfmt Hcase.
  apply DoWork_more_data. rewrite strategy_eac3 by assumption.
  rewrite (eac3_append p_filter h p_in_buf a52 s) by assumption. cbv zeta.
  destruct Hcase as [Hb|(Hb & Hacc & Hc)]; rewrite Hb; [reflexivity|].
  rewrite Hacc. unfold eac3_count in *.
  unfold bind, get, set_spec, ret, eac3_appended.
  cbn [p_out_buf i_out_offset spec].
  destruct (a52.i_substreamid a52 =? 0);
    cbn [p_out_buf i_out_offset spec];
    now rewrite (proj2 (Z.eqb_neq _ 6) Hc).
Qed.

(** A frame that completes the packet. *)
Lemma eac3_DoWork_success p_filter h p_in_buf a52 s :
  aout_spdif_size_ok -> eac3_inv s -> eac3_fits h p_in_buf a52 s ->
  fmt_in p_filter = VLC_CODEC_EAC3 ->
  0 < a52.i_size a52 ->
  a52.b_eac3 a52 = true ->
  eac3_accumulates a52 = false
  \/ (eac3_accumulates a52 = true /\ eac3_count (spec s) a52 = 6) ->
  exists pkt,
    DoWork p_filter h p_in_buf s
    = Done (Work SPDIF_SUCCESS (Some pkt) [eac3_frame p_in_buf a52])
           (Sys None eac3_size
                (if eac3_accumulates a52 then 0 else spec s))
    /\ i_buffer pkt = eac3_size
    /\ Z.of_nat (length (p_buffer pkt)) = eac3_size
    /\ sub_bytes 0 SPDIF_HEADER_SIZE (p_buffer pkt)
       = burst_header p_filter IEC61937_EAC3
           (to_uint16 (eac3_off s + (a52.i_size a52 + a52.i_size a52 mod 2)
                       - SPDIF_HEADER_SIZE)).
Proof.
  intros Hok Hinv Hfits Hfmt Hpos Hb Hcase.
  destruct (eac3_room h p_in_buf a52 s Hok Hinv Hfits)
    as (Hroom & Hi & He & H8).
  destruct (eac3_inv_appended p_filter h p_in_buf a52 s 0 Hok Hinv Hfits)
    as (Hinv' & Hoff' & _ & _).
  cbv zeta in *.
  set (p := eac3_frame p_in_buf a52) in *.
  assert (Hib : i_buffer p = a52.i_size a52) by reflexivity.
  rewrite Hib in *.
  set (n := a52.i_size a52) in *.
  pose proof (Z.mod_pos_bound n 2 ltac:(lia)) as Hm.
  destruct Hroom as (Hl & Ho & Hn & Hf & Hmax).
  set (out := eac3_out h p s) in *. set (off := eac3_off s) in *.
  set (out1 := set_i_length
                 (set_p_buffer out
                    (splice (p_buffer out) off
                       (encode p_filter (p_buffer p) n
                               (input_big_endian p_filter p))))
                 (i_length out + i_length p)).
  assert (Happ : forall c, eac3_appended p_filter h p s c
                           = Sys (Some out1) (off + (n + n mod 2)) c).
  { intros c. unfold eac3_appended. now rewrite Hib. }
  rewrite Happ in Hinv'. unfold eac3_inv in Hinv'.
  cbn [p_out_buf i_out_offset] in Hinv'.
  destruct Hinv' as (Hl1 & Hi1 & Ho1 & He1).
  unfold SPDIF_HEADER_SIZE in *.
  assert (Hroom1 : room out1 (off + (n + n mod 2)) 0)
    by (unfold room; lia).
  assert (Hfin : forall c,
    write_finalize p_filter IEC61937_EAC3 1
      (Sys (Some out1) (off + (n + n mod 2)) c)
    = Done tt (Sys (Some (set_p_buffer out1
                            (finalize_image p_filter IEC61937_EAC3 1
                               (off + (n + n mod 2)) out1)))
                   eac3_size c)).
  { intros c. rewrite write_finalize_spec;
      [|assumption|unfold SPDIF_HEADER_SIZE; lia
       |intros _; unfold SPDIF_HEADER_SIZE; split; [lia|now left]].
    do 2 f_equal. lia. }
  eexists. split.
  { apply DoWork_success.
    - rewrite strategy_eac3 by assumption.
      rewrite (eac3_append p_filter h p_in_buf a52 s) by assumption. cbv zeta. fold p.
      rewrite Hb, Happ.
      destruct Hcase as [Hacc|[Hacc Hc]]; rewrite Hacc.
      + unfold bind at 1. unfold ret at 1. cbv iota.
        unfold bind at 1. rewrite Hfin. reflexivity.
      + unfold eac3_count in Hc.
        unfold bind at 1. unfold bind at 1. unfold get at 1.
        cbn [spec].
        destruct (a52.i_substreamid a52 =? 0).
        * unfold bind at 1. unfold set_spec at 1.
          cbn [p_out_buf i_out_offset spec].
          unfold bind at 1. unfold get at 1. cbn [spec].
          rewrite Hc. cbn [Z.eqb Pos.eqb negb].
          unfold bind at 1. unfold set_spec at 1.
          cbn [p_out_buf i_out_offset spec]. unfold ret at 1.
          unfold bind at 1. rewrite Hfin. reflexivity.
        * unfold bind at 1. unfold ret at 1.
          unfold bind at 1. unfold get at 1. cbn [spec].
          rewrite Hc. cbn [Z.eqb Pos.eqb negb].
          unfold bind at 1. unfold set_spec at 1.
          cbn [p_out_buf i_out_offset spec]. unfold ret at 1.
          unfold bind at 1. rewrite Hfin. reflexivity.
    - exact Hi1. }
  cbn [i_buffer p_buffer set_p_buffer].
  split; [exact Hi1|]. split.
  { rewrite length_finalize_image
      by (try assumption; unfold SPDIF_HEADER_SIZE; lia).
    lia. }
  change 8 with SPDIF_HEADER_SIZE at 1.
  rewrite finalize_image_header
    by (try assumption; unfold SPDIF_HEADER_SIZE; try lia; discriminate).
  change (to_uint16 IEC61937_EAC3) with IEC61937_EAC3.
  change (to_uint8 1) with 1. rewrite Z.mul_1_r.
  rewrite to_size_t_small by (unfold SPDIF_HEADER_SIZE; lia).
  reflexivity.
Qed.

(** A frame too long for the room left ends the call in error, and the
    session is emptied. *)
Lemma eac3_DoWork_overflow p_filter h p_in_buf a52 s :
  aout_spdif_size_ok -> eac3_inv s ->
  fmt_in p_filter = VLC_CODEC_EAC3 ->
  vlc_a52_header_Parse (p_buffer p_in_buf) (i_buffer p_in_buf) = Some a52 ->
  a52.i_size a52 <= i_buffer p_in_buf ->
  (p_out_buf s = None -> alloc_fails h = false) ->
  eac3_size - eac3_off s < a52.i_size a52 ->
  DoWork p_filter h p_in_buf s
  = Done (Work SPDIF_ERROR None
            [eac3_out h (eac3_frame p_in_buf a52) s; eac3_frame p_in_buf a52])
         (Sys None (eac3_off s) 0).
Proof.
  intros Hok Hinv Hfmt Hparse Hsz Halloc Hover.
  destruct (eac3_size_facts Hok) as (Es & H4 & Hev).
  pose proof Hok as [H8 Hmax]. unfold SPDIF_HEADER_SIZE in *.
  set (p := eac3_frame p_in_buf a52).
  replace [eac3_out h p s; p]
    with (in_progress (Sys (Some (eac3_out h p s)) (eac3_off s) (spec s))
          ++ [p]) by reflexivity.
  apply (DoWork_error _ _ _ _ _
           (Sys (Some (eac3_out h p s)) (eac3_off s) (spec s))).
  rewrite strategy_eac3 by assumption.
  unfold write_buffer_eac3. rewrite Hparse.
  rewrite (proj2 (Z.ltb_ge _ _)) by lia.
  fold (eac3_frame p_in_buf a52). fold p. fold eac3_size.
  unfold eac3_inv, eac3_out, eac3_off in *.
  unfold bind, get, assert_out_buf. destruct s as [[out|] off c];
    cbn [p_out_buf i_out_offset spec] in *.
  - destruct Hinv as (Hl & Hi & Ho & He).
    unfold ret at 1. cbv beta iota. cbn [p_out_buf i_out_offset spec].
    unfold SPDIF_HEADER_SIZE in *.
    rewrite to_size_t_small by lia.
    cbn [i_buffer p eac3_frame set_i_buffer set_i_nb_samples].
    now rewrite (proj2 (Z.ltb_lt _ _)) by lia.
  - rewrite write_init_spec;
      [|now apply Halloc|unfold SPDIF_HEADER_SIZE; lia|assumption].
    cbn [p_out_buf i_out_offset spec i_buffer init_block].
    unfold SPDIF_HEADER_SIZE in *.
    rewrite to_size_t_small by lia.
    cbn [i_buffer p eac3_frame set_i_buffer set_i_nb_samples].
    now rewrite (proj2 (Z.ltb_lt _ _)) by lia.
Qed.

(** C4, as the code has it. An appended E-AC-3 frame outside the
    accumulation rule is finalized and returned at once, as a packet of the
    S/PDIF frame size that starts with the E-AC-3 preamble. A frame whose
    header is plain AC-3 is appended and kept: the call returns
    need-more-input and the packet stays in progress. *)
Theorem eac3_emits_unless_accumulating p_filter h p_in_buf a52 s :
  aout_spdif_size_ok -> eac3_inv s -> eac3_fits h p_in_buf a52 s ->
  fmt_in p_filter = VLC_CODEC_EAC3 ->
  0 < a52.i_size a52 ->
  (a52.b_eac3 a52 = true -> eac3_accumulates a52 = false ->
   exists pkt,
     DoWork p_filter h p_in_buf s
     = Done (Work SPDIF_SUCCESS (Some pkt) [eac3_frame p_in_buf a52])
            (Sys None eac3_size (spec s))
     /\ i_buffer pkt = eac3_size
     /\ Z.of_nat (length (p_buffer pkt)) = eac3_size
     /\ sub_bytes 0 SPDIF_HEADER_SIZE (p_buffer pkt)
        = burst_header p_filter IEC61937_EAC3
            (to_uint16 (eac3_off s + (a52.i_size a52 + a52.i_size a52 mod 2)
                        - SPDIF_HEADER_SIZE)))
  /\ (a52.b_eac3 a52 = false ->
      exists s',
        DoWork p_filter h p_in_buf s
        = Done (Work SPDIF_MORE_DATA None [eac3_frame p_in_buf a52]) s'
        /\ p_out_buf s' <> None /\ spec s' = spec s
        /\ eac3_off s'
           = eac3_off s + (a52.i_size a52 + a52.i_size a52 mod 2)).
Proof.
  intros Hok Hinv Hfits Hfmt Hpos. split.
  - intros Hb Hacc.
    destruct (eac3_DoWork_success p_filter h p_in_buf a52 s Hok Hinv Hfits
                Hfmt Hpos Hb (or_introl Hacc)) as (pkt & E & H).
    rewrite Hacc in E. now exists pkt.
  - intros Hb. eexists. split.
    { apply eac3_DoWork_more; try assumption. now left. }
    rewrite Hb.
    destruct (eac3_inv_appended p_filter h p_in_buf a52 s (spec s)
                Hok Hinv Hfits) as (_ & Hoff & Hsome & Hspec).
    cbv zeta in *. auto.
Qed.

(** ** Sequences of calls *)

Lemma feed_cons p_filter h p_in_buf calls s w s1 ws s2 :
  DoWork p_filter h p_in_buf s = Done w s1 ->
  feed p_filter calls s1 = Done ws s2 ->
  feed p_filter ((h, p_in_buf) :: calls) s = Done (w :: ws) s2.
Proof.
  intros H1 H2. cbn [feed]. unfold bind. now rewrite H1, H2.
Qed.

Lemma feed_app p_filter calls1 calls2 s ws1 s1 ws2 s2 :
  feed p_filter calls1 s = Done ws1 s1 ->
  feed p_filter calls2 s1 = Done ws2 s2 ->
  feed p_filter (calls1 ++ calls2) s = Done (ws1 ++ ws2) s2.
Proof.
  revert s ws1. induction calls1 as [|[h p] calls1 IH]; intros s ws1 H1 H2.
  - cbn in H1. inversion H1; subst. exact H2.
  - cbn [feed app] in *. unfold bind in *.
    destruct (DoWork p_filter h p s) as [w sa| |]; try discriminate.
    destruct (feed p_filter calls1 sa) as [ws sb| |] eqn:E; try discriminate.
    inversion H1; subst.
    now rewrite (IH _ _ E H2).
Qed.

Lemma eac3_total_nonneg hs :
  Forall (fun a => 0 <= a52.i_size a) hs -> 0 <= eac3_total hs.
Proof.
  induction 1 as [|a hs Ha _ IH]; cbn [eac3_total foldr]; [lia|].
  pose proof (Z.mod_pos_bound (a52.i_size a) 2 ltac:(lia)).
  fold (eac3_total hs). lia.
Qed.


Lemma eac3_acc_frames_sizes calls hs :
  Forall2 eac3_acc_frame calls hs -> Forall (fun a => 0 <= a52.i_size a) hs.
Proof.
  induction 1 as [|c a calls hs (_ & Hs & _) _ IH]; constructor; [lia|easy].
Qed.

(** As long as the counter does not come to 6, frames under the
    accumulation rule that fit the packet are appended and nothing is
    returned. *)
Lemma eac3_feed_more p_filter calls : forall hs s,
  aout_spdif_size_ok -> fmt_in p_filter = VLC_CODEC_EAC3 -> eac3_inv s ->
  Forall2 eac3_acc_frame calls hs ->
  eac3_off s + eac3_total hs <= eac3_size ->
  (forall k, (0 < k <= length hs)%nat ->
             fold_left eac3_count (take k hs) (spec s) <> 6) ->
  exists ws s',
    feed p_filter calls s = Done ws s'
    /\ Forall quiet ws /\ length ws = length calls
    /\ eac3_inv s'
    /\ eac3_off s' = eac3_off s + eac3_total hs
    /\ spec s' = fold_left eac3_count hs (spec s)
    /\ (calls = [] -> s' = s)
    /\ (calls <> [] -> p_out_buf s' <> None).
Proof.
  induction calls as [|[h p] calls IH]; intros hs s Hok Hfmt Hinv Hall Hfit Hk.
  - inversion Hall; subst. exists [], s. cbn.
    repeat split; auto; try lia; easy.
  - inversion Hall as [|c a calls' hs' Hc Hrest]; subst.
    pose proof (eac3_acc_frames_sizes _ _ Hrest) as Hsizes.
    pose proof (eac3_total_nonneg _ Hsizes) as Hnn.
    destruct Hc as (Hparse & Hsz & Hlen & Halloc & Hb & Hacc).
    cbn [fst snd] in *.
    cbn [eac3_total foldr] in Hfit. fold (eac3_total hs') in Hfit.
    pose proof (Z.mod_pos_bound (a52.i_size a) 2 ltac:(lia)) as Hm.
    assert (Hfits : eac3_fits h p a s).
    { unfold eac3_fits. repeat split; try assumption; try lia; auto. }
    assert (Hc1 : eac3_count (spec s) a <> 6).
    { apply (Hk 1%nat). cbn [length]. lia. }
    pose proof (eac3_DoWork_more p_filter h p a s Hok Hinv Hfits Hfmt
                  (or_intror (conj Hb (conj Hacc Hc1)))) as Hstep.
    rewrite Hb in Hstep.
    destruct (eac3_inv_appended p_filter h p a s (eac3_count (spec s) a)
                Hok Hinv Hfits) as (Hinv1 & Hoff1 & Hsome1 & Hspec1).
    cbv zeta in *.
    set (s1 := eac3_appended p_filter h (eac3_frame p a) s
                 (eac3_count (spec s) a)) in *.
    destruct (IH hs' s1 Hok Hfmt Hinv1 Hrest) as
      (ws & s' & Hfeed & Hq & Hlenws & Hinv' & Hoff' & Hspec' & Hnil & Hcons).
    { lia. }
    { intros k Hkr. rewrite Hspec1.
      apply (Hk (S k)). cbn [length]. lia. }
    exists (Work SPDIF_MORE_DATA None [eac3_frame p a] :: ws), s'.
    split; [now apply feed_cons with (s1 := s1)|].
    split; [constructor; [now split|assumption]|].
    split; [cbn [length]; lia|].
    split; [assumption|].
    split; [cbn [eac3_total foldr]; fold (eac3_total hs'); lia|].
    split; [cbn [fold_left]; now rewrite Hspec', Hspec1|].
    split; [discriminate|].
    intros _. destruct calls as [|c calls].
    + now rewrite (Hnil eq_refl).
    + now apply Hcons.
Qed.


Lemma eac3_blocks0_cons a hs :
  eac3_blocks0 (a :: hs)
  = (if a52.i_substreamid a =? 0 then a52.i_blocks_per_sync_frame a else 0)
    + eac3_blocks0 hs.
Proof. reflexivity. Qed.

Lemma eac3_blocks0_take hs : forall k,
  Forall (fun a => 0 <= a52.i_blocks_per_sync_frame a) hs ->
  0 <= eac3_blocks0 (take k hs) <= eac3_blocks0 hs.
Proof.
  induction hs as [|a hs IH]; intros k Hnn.
  - destruct k; cbn; lia.
  - inversion Hnn as [|? ? Ha Hrest]; subst.
    destruct k as [|k]; cbn [take].
    + rewrite eac3_blocks0_cons. specialize (IH 0%nat Hrest).
      cbn [take] in IH. change (eac3_blocks0 []) with 0 in *.
      destruct (a52.i_substreamid a =? 0); lia.
    + rewrite !eac3_blocks0_cons. specialize (IH k Hrest).
      destruct (a52.i_substreamid a =? 0); lia.
Qed.

(** Without wrap-around the counter is the sum of the blocks added. *)
Lemma eac3_count_sum hs : forall c,
  0 <= c ->
  Forall (fun a => 0 <= a52.i_blocks_per_sync_frame a) hs ->
  c + eac3_blocks0 hs < 2 ^ 32 ->
  fold_left eac3_count hs c = c + eac3_blocks0 hs.
Proof.
  induction hs as [|a hs IH]; intros c Hc Hnn Hmax.
  - cbn. lia.
  - inversion Hnn as [|? ? Ha Hrest]; subst.
    rewrite eac3_blocks0_cons in *. cbn [fold_left].
    pose proof (eac3_blocks0_take hs 0 Hrest) as Hb0. cbn [take] in Hb0.
    change (eac3_blocks0 []) with 0 in Hb0.
    unfold eac3_count at 2.
    destruct (a52.i_substreamid a =? 0).
    + rewrite to_unsigned_small by lia. rewrite IH; try assumption; lia.
    + rewrite IH; try assumption; lia.
Qed.

(** C10, as the code has it. Once the counter is past 6, frames under the
    accumulation rule that still fit the packet in progress all return
    need-more-input and no packet; the counter grows by the blocks of the
    sub-stream-0 frames and stays past 6. The first such frame that no
    longer fits ends its call in error: the packet is dropped and the
    counter is 0 again. *)
Theorem eac3_past_six p_filter calls hs s :
  aout_spdif_size_ok -> fmt_in p_filter = VLC_CODEC_EAC3 -> eac3_inv s ->
  6 < spec s ->
  Forall2 eac3_acc_frame calls hs ->
  Forall (fun a => 0 <= a52.i_blocks_per_sync_frame a) hs ->
  spec s + eac3_blocks0 hs < 2 ^ 32 ->
  eac3_off s + eac3_total hs <= eac3_size ->
  exists ws s',
    feed p_filter calls s = Done ws s'
    /\ Forall quiet ws /\ length ws = length calls
    /\ spec s' = spec s + eac3_blocks0 hs /\ 6 < spec s'
    /\ forall call a52,
         eac3_acc_frame call a52 ->
         eac3_size - eac3_off s' < a52.i_size a52 ->
         exists rel,
           DoWork p_filter (fst call) (snd call) s'
           = Done (Work SPDIF_ERROR None rel) (Sys None (eac3_off s') 0).
Proof.
  intros Hok Hfmt Hinv Hc Hall Hnn Hmax Hfit.
  destruct (eac3_feed_more p_filter calls hs s Hok Hfmt Hinv Hall Hfit) as
    (ws & s' & Hfeed & Hq & Hlen & Hinv' & Hoff' & Hspec' & _ & _).
  { intros k Hk.
    pose proof (eac3_blocks0_take hs k Hnn) as Hb.
    rewrite eac3_count_sum; try lia.
    apply Forall_take. exact Hnn. }
  pose proof (eac3_blocks0_take hs 0 Hnn) as Hb0. cbn [take] in Hb0.
  change (eac3_blocks0 []) with 0 in Hb0.
  rewrite eac3_count_sum in Hspec' by (try assumption; lia).
  exists ws, s'. repeat split; try assumption; try lia.
  intros [h p] a52 (Hparse & Hsz & Hl & Halloc & _ & _) Hover.
  cbn [fst snd] in *. eexists.
  apply eac3_DoWork_overflow with (a52 := a52); try assumption; try lia.
  now intros _.
Qed.

(** ** TrueHD / MLP *)

Lemma strategy_truehd p_filter h p_in_buf :
  is_truehd p_filter ->
  strategy p_filter h p_in_buf = write_buffer_truehd p_filter h p_in_buf.
Proof. intros [H|H]; unfold strategy; now rewrite H. Qed.

Lemma truehd_padding_value p_in_buf r :
  0 <= TRUEHD_FRAME_OFFSET - i_buffer p_in_buf - r < 2 ^ 31 ->
  truehd_padding p_in_buf r = TRUEHD_FRAME_OFFSET - i_buffer p_in_buf - r.
Proof. intros H. unfold truehd_padding. apply to_int_to_size_t. lia. Qed.

Lemma write_mat_code p_filter code out off c :
  Nat.even (length code) = true ->
  room out off (Z.of_nat (length code)) ->
  write_data p_filter code (Z.of_nat (length code)) true (Sys (Some out) off c)
  = Done tt (Sys (Some (set_p_buffer out
                          (splice (p_buffer out) off (mat_code p_filter code))))
                 (off + Z.of_nat (length code)) c).
Proof.
  intros Hev Hroom.
  assert (Hm : Z.of_nat (length code) mod 2 = 0).
  { apply Nat.even_spec in Hev. destruct Hev as [m Hmm]. rewrite Hmm.
    rewrite Nat2Z.inj_mul, Z.mul_comm. apply Z.mod_mul. lia. }
  rewrite write_data_spec; rewrite ?Hm, ?Z.add_0_r; try assumption; try lia.
  rewrite encode_even by assumption. rewrite Nat2Z.id, take_ge by lia.
  unfold mat_code. now destruct (b_output_big_endian p_filter).
Qed.

(** Storing a frame and its padding in a slot: the offset moves by both,
    the frame is counted, and the bytes before the slot stay. *)
Lemma truehd_store_slot_spec p_filter p_in_buf pad out off c :
  is_truehd p_filter ->
  0 <= i_buffer p_in_buf <= Z.of_nat (length (p_buffer p_in_buf)) ->
  i_buffer p_in_buf mod 2 = 0 ->
  0 <= pad < 2 ^ 31 ->
  room out off (i_buffer p_in_buf + pad) ->
  0 <= c < 2 ^ 32 - 1 ->
  exists out',
    truehd_store_slot p_filter p_in_buf pad (Sys (Some out) off c)
    = Done (SPDIF_MORE_DATA, p_in_buf)
           (Sys (Some out') (off + (i_buffer p_in_buf + pad)) (c + 1))
    /\ i_buffer out' = i_buffer out
    /\ length (p_buffer out') = length (p_buffer out)
    /\ forall o len, 0 <= o -> 0 <= len -> o + len <= off ->
         sub_bytes o len (p_buffer out') = sub_bytes o len (p_buffer out).
Proof.
  intros Hfmt Hsz Hev Hpad (Hl & Ho & Hn & Hf & Hmax) Hc.
  set (n := i_buffer p_in_buf) in *.
  set (enc := encode p_filter (p_buffer p_in_buf) n
                     (input_big_endian p_filter p_in_buf)).
  assert (Henc : Z.of_nat (length enc) = n)
    by (subst enc; rewrite length_encode by lia; lia).
  set (out1 := set_i_length
                 (set_p_buffer out (splice (p_buffer out) off enc))
                 (i_length out + i_length p_in_buf)).
  assert (Hl1 : length (p_buffer out1) = length (p_buffer out))
    by (subst out1; cbn [p_buffer set_p_buffer set_i_length];
        apply length_splice; lia).
  exists (set_p_buffer out1
            (splice (p_buffer out1) (off + n) (replicate (Z.to_nat pad) 0))).
  split.
  { unfold truehd_store_slot, truehd_no_room.
    unfold bind at 1. unfold get at 1.
    unfold bind at 1. unfold assert_out_buf at 1.
    cbn [p_out_buf i_out_offset spec].
    rewrite (proj2 (Z.ltb_ge pad 0)) by lia. fold n.
    rewrite (to_size_t_small pad) by lia.
    rewrite !to_size_t_small by lia.
    rewrite (proj2 (Z.ltb_ge _ _)) by lia. cbn [orb].
    unfold bind at 1.
    rewrite write_buffer_spec;
      [|unfold room; fold n; rewrite Hev; lia|assumption
       |intros E; destruct Hfmt as [H|H]; rewrite H in E; discriminate].
    fold n. fold enc. fold out1. rewrite Hev, Z.add_0_r.
    unfold bind at 1.
    rewrite write_padding_spec
      by (unfold room; rewrite Hl1; subst out1;
          cbn [i_buffer set_p_buffer set_i_length]; lia).
    unfold bind, get, set_spec, ret. cbn [p_out_buf i_out_offset spec].
    rewrite to_unsigned_small by lia.
    do 2 f_equal. lia. }
  cbn [i_buffer p_buffer set_p_buffer].
  split; [reflexivity|].
  split.
  { rewrite length_splice; rewrite ?length_replicate; lia. }
  intros o len Hoo Hlen Hend.
  rewrite sub_bytes_splice_disjoint;
    rewrite ?length_replicate; try lia.
  subst out1. cbn [p_buffer set_p_buffer set_i_length].
  apply sub_bytes_splice_disjoint; lia.
Qed.

Lemma write_start_code p_filter out off c :
  room out off 20 ->
  write_data p_filter p_mat_start_code 20 true (Sys (Some out) off c)
  = Done tt (Sys (Some (set_p_buffer out
                          (splice (p_buffer out) off
                                  (mat_code p_filter p_mat_start_code))))
                 (off + 20) c).
Proof. exact (write_mat_code p_filter p_mat_start_code out off c eq_refl). Qed.

Lemma write_middle_code p_filter out off c :
  room out off 12 ->
  write_data p_filter p_mat_middle_code 12 true (Sys (Some out) off c)
  = Done tt (Sys (Some (set_p_buffer out
                          (splice (p_buffer out) off
                                  (mat_code p_filter p_mat_middle_code))))
                 (off + 12) c).
Proof. exact (write_mat_code p_filter p_mat_middle_code out off c eq_refl). Qed.

Lemma write_end_code p_filter out off c :
  room out off 16 ->
  write_data p_filter p_mat_end_code 16 true (Sys (Some out) off c)
  = Done tt (Sys (Some (set_p_buffer out
                          (splice (p_buffer out) off
                                  (mat_code p_filter p_mat_end_code))))
                 (off + 16) c).
Proof. exact (write_mat_code p_filter p_mat_end_code out off c eq_refl). Qed.

Lemma length_mat_code p_filter code :
  Nat.even (length code) = true ->
  length (mat_code p_filter code) = length code.
Proof.
  intros H. unfold mat_code.
  destruct (b_output_big_endian p_filter); [reflexivity|].
  now apply length_swab.
Qed.

(** [write_buffer_truehd] with a packet in progress: the chain of tests on
    the frame count, then the common end. *)
Lemma truehd_in_progress p_filter h p_in_buf out off c :
  write_buffer_truehd p_filter h p_in_buf (Sys (Some out) off c)
  = (branch <-
       (if c =? 0 then
          write_data p_filter p_mat_start_code 20 true ;;
          ret (inl (truehd_padding p_in_buf (20 + SPDIF_HEADER_SIZE)))
        else if c =? 11 then
          ret (inl (truehd_padding p_in_buf 4))
        else if c =? 12 then
          write_data p_filter p_mat_middle_code 12 true ;;
          ret (inl (truehd_padding p_in_buf (12 - 4)))
        else if c =? 23 then
          r <- truehd_store_last p_filter p_in_buf ;
          ret (inr r)
        else ret (inl (truehd_padding p_in_buf 0))) ;
     match branch with
     | inr r => ret (r, p_in_buf)
     | inl i_padding => truehd_store_slot p_filter p_in_buf i_padding
     end) (Sys (Some out) off c).
Proof. reflexivity. Qed.

(** The first frame of a MAT frame: a packet is begun, the start code
    written after the room of the preamble, and the slot filled. *)
Lemma truehd_DoWork_first p_filter h p_in_buf s :
  is_truehd p_filter -> p_out_buf s = None -> spec s = 0 ->
  alloc_fails h = false -> truehd_nominal 0 p_in_buf ->
  exists s',
    DoWork p_filter h p_in_buf s
    = Done (Work SPDIF_MORE_DATA None [p_in_buf]) s'
    /\ truehd_inv p_filter 1 s'.
Proof.
  intros Hfmt Hnone Hspec Halloc (Hsz & Hev & Hfit).
  destruct s as [o off c]. cbn [p_out_buf spec] in *. subst o c.
  unfold truehd_reserve, TRUEHD_FRAME_OFFSET, SPDIF_HEADER_SIZE in Hfit.
  cbn [Z.eqb] in Hfit.
  set (n := i_buffer p_in_buf) in *.
  set (out0 := init_block h p_in_buf 61440 (61440 / 16)).
  assert (Hl0 : Z.of_nat (length (p_buffer out0)) = 61440)
    by (subst out0; apply length_init_block; lia).
  set (out1 := set_p_buffer out0
                 (splice (p_buffer out0) 8
                         (mat_code p_filter p_mat_start_code))).
  assert (Hlc : length (mat_code p_filter p_mat_start_code) = 20%nat)
    by (now rewrite length_mat_code).
  assert (Hl1 : Z.of_nat (length (p_buffer out1)) = 61440).
  { subst out1. cbn [p_buffer set_p_buffer].
    rewrite length_splice; rewrite ?Hlc; lia. }
  destruct (truehd_store_slot_spec p_filter p_in_buf (2560 - n - 28)
              out1 28 0 Hfmt Hsz Hev ltac:(lia))
    as (out2 & Hslot & Hi2 & Hl2 & Hkeep).
  { unfold room. rewrite Hl1. fold n. subst out1 out0.
    cbn [i_buffer set_p_buffer init_block]. lia. }
  { lia. }
  fold n in Hslot.
  exists (Sys (Some out2) (28 + (n + (2560 - n - 28))) (0 + 1)).
  split.
  { apply DoWork_more_data. rewrite strategy_truehd by assumption.
    unfold write_buffer_truehd.
    unfold bind at 1. unfold get at 1. cbn [p_out_buf].
    unfold bind at 1.
    rewrite write_init_spec by (try assumption; reflexivity).
    fold out0. unfold SPDIF_HEADER_SIZE.
    unfold bind at 1. unfold get at 1. cbn [spec Z.eqb].
    unfold bind at 1. unfold bind at 1.
    rewrite write_start_code
      by (unfold room; rewrite Hl0; subst out0;
          cbn [i_buffer init_block]; lia).
    fold out1. unfold ret at 1.
    rewrite truehd_padding_value
      by (unfold TRUEHD_FRAME_OFFSET; fold n; lia).
    unfold TRUEHD_FRAME_OFFSET. fold n.
    replace (2560 - n - (20 + 8)) with (2560 - n - 28) by lia.
    exact Hslot. }
  exists out2. cbn [p_out_buf i_out_offset spec].
  unfold truehd_offset, TRUEHD_FRAME_OFFSET. cbn [Z.eqb].
  repeat split; try lia.
  - rewrite Hi2. subst out1 out0. reflexivity.
  - cbn [Pos.eqb]. lia.
  - rewrite Hkeep by lia. subst out1. cbn [p_buffer set_p_buffer].
    change 20 with (Z.of_nat 20). rewrite <- Hlc.
    apply sub_bytes_splice_same; rewrite ?Hlc; lia.
Qed.

(** Frames 1 to 22: one more slot is filled; the middle code is written
    ahead of frame 12, four bytes before the end of slot 11. *)
Lemma truehd_DoWork_step p_filter h p_in_buf k s :
  is_truehd p_filter -> 1 <= k <= 22 ->
  truehd_inv p_filter k s -> truehd_nominal k p_in_buf ->
  exists s',
    DoWork p_filter h p_in_buf s
    = Done (Work SPDIF_MORE_DATA None [p_in_buf]) s'
    /\ truehd_inv p_filter (k + 1) s'.
Proof.
  intros Hfmt Hk (out & Hout & Hl & Hi & Hoff & Hspec & Hstart & Hmid)
         (Hsz & Hev & Hfit).
  destruct s as [o off c]. cbn [p_out_buf i_out_offset spec] in *.
  subst o off c.
  unfold TRUEHD_FRAME_OFFSET in *.
  set (n := i_buffer p_in_buf) in *.
  assert (Hcase : k = 11 \/ k = 12 \/ (k <> 11 /\ k <> 12)) by lia.
  destruct Hcase as [->|[->|[H11 H12]]].
  - (* frame 11 *)
    unfold truehd_reserve in Hfit. cbn [Z.eqb Pos.eqb] in Hfit.
    unfold truehd_offset, TRUEHD_FRAME_OFFSET in *. cbn [Z.eqb Pos.eqb] in *.
    destruct (truehd_store_slot_spec p_filter p_in_buf (2560 - n - 4)
                out (2560 * 11 - 0) 11 Hfmt Hsz Hev ltac:(lia))
      as (out2 & Hslot & Hi2 & Hl2 & Hkeep).
    { unfold room. fold n. lia. }
    { lia. }
    fold n in Hslot. eexists. split.
    { apply DoWork_more_data. rewrite strategy_truehd by assumption.
      rewrite truehd_in_progress. cbn [Z.eqb Pos.eqb].
      unfold bind at 1. unfold ret at 1.
      rewrite truehd_padding_value
        by (unfold TRUEHD_FRAME_OFFSET; fold n; lia).
      unfold TRUEHD_FRAME_OFFSET. fold n. exact Hslot. }
    exists out2. cbn [p_out_buf i_out_offset spec].
    change (11 + 1) with 12.
    unfold truehd_offset, TRUEHD_FRAME_OFFSET. cbn [Z.eqb Pos.eqb].
    repeat split; try lia.
    rewrite Hkeep by lia. exact Hstart.
  - (* frame 12 *)
    unfold truehd_reserve in Hfit. cbn [Z.eqb Pos.eqb] in Hfit.
    unfold truehd_offset, TRUEHD_FRAME_OFFSET in *. cbn [Z.eqb Pos.eqb] in *.
    set (out1 := set_p_buffer out
                   (splice (p_buffer out) (2560 * 12 - 4)
                           (mat_code p_filter p_mat_middle_code))).
    assert (Hlc : length (mat_code p_filter p_mat_middle_code) = 12%nat)
      by (now rewrite length_mat_code).
    assert (Hl1 : Z.of_nat (length (p_buffer out1)) = 61440).
    { subst out1. cbn [p_buffer set_p_buffer].
      rewrite length_splice; rewrite ?Hlc; lia. }
    destruct (truehd_store_slot_spec p_filter p_in_buf (2560 - n - 8)
                out1 (2560 * 12 - 4 + 12) 12 Hfmt Hsz Hev ltac:(lia))
      as (out2 & Hslot & Hi2 & Hl2 & Hkeep).
    { unfold room. rewrite Hl1. fold n. subst out1.
      cbn [i_buffer set_p_buffer]. lia. }
    { lia. }
    fold n in Hslot. eexists. split.
    { apply DoWork_more_data. rewrite strategy_truehd by assumption.
      rewrite truehd_in_progress. cbn [Z.eqb Pos.eqb].
      unfold bind at 1. unfold bind at 1.
      rewrite write_middle_code by (unfold room; lia).
      fold out1. unfold ret at 1.
      rewrite truehd_padding_value
        by (unfold TRUEHD_FRAME_OFFSET; fold n; lia).
      unfold TRUEHD_FRAME_OFFSET. fold n.
      replace (2560 - n - (12 - 4)) with (2560 - n - 8) by lia.
      exact Hslot. }
    exists out2. cbn [p_out_buf i_out_offset spec].
    change (12 + 1) with 13.
    unfold truehd_offset, TRUEHD_FRAME_OFFSET. cbn [Z.eqb Pos.eqb].
    repeat split; try lia.
    + rewrite Hi2. subst out1. exact Hi.
    + rewrite Hkeep by lia. subst out1. cbn [p_buffer set_p_buffer].
      rewrite sub_bytes_splice_disjoint; rewrite ?Hlc; try lia.
      exact Hstart.
    + intros _. rewrite Hkeep by lia. subst out1.
      cbn [p_buffer set_p_buffer].
      change 12 with (Z.of_nat 12) at 2. rewrite <- Hlc.
      apply sub_bytes_splice_same; rewrite ?Hlc; lia.
  - (* a flat slot *)
    assert (Hres : truehd_reserve k = 0).
    { unfold truehd_reserve.
      rewrite (proj2 (Z.eqb_neq k 0)), (proj2 (Z.eqb_neq k 11)),
        (proj2 (Z.eqb_neq k 12)), (proj2 (Z.eqb_neq k 23)) by lia.
      reflexivity. }
    rewrite Hres in Hfit.
    assert (Hoffk : truehd_offset k = 2560 * k).
    { unfold truehd_offset, TRUEHD_FRAME_OFFSET.
      rewrite (proj2 (Z.eqb_neq k 12)) by lia. lia. }
    assert (Hoffk1 : truehd_offset (k + 1) = 2560 * k + 2560).
    { unfold truehd_offset, TRUEHD_FRAME_OFFSET.
      rewrite (proj2 (Z.eqb_neq (k + 1) 12)) by lia. lia. }
    rewrite Hoffk in *.
    destruct (truehd_store_slot_spec p_filter p_in_buf (2560 - n)
                out (2560 * k) k Hfmt Hsz Hev ltac:(lia))
      as (out2 & Hslot & Hi2 & Hl2 & Hkeep).
    { unfold room. fold n. lia. }
    { lia. }
    fold n in Hslot. eexists. split.
    { apply DoWork_more_data. rewrite strategy_truehd by assumption.
      rewrite truehd_in_progress.
      rewrite (proj2 (Z.eqb_neq k 0)), (proj2 (Z.eqb_neq k 11)),
        (proj2 (Z.eqb_neq k 12)), (proj2 (Z.eqb_neq k 23)) by lia.
      unfold bind at 1. unfold ret at 1.
      rewrite truehd_padding_value
        by (unfold TRUEHD_FRAME_OFFSET; fold n; lia).
      unfold TRUEHD_FRAME_OFFSET. fold n.
      replace (2560 - n - 0) with (2560 - n) by lia.
      exact Hslot. }
    exists out2. cbn [p_out_buf i_out_offset spec].
    rewrite Hoffk1. unfold TRUEHD_FRAME_OFFSET.
    repeat split; try lia.
    + rewrite Hkeep by lia. exact Hstart.
    + intros Hgt. rewrite Hkeep by lia. apply Hmid. lia.
Qed.

(** Frame 23: the frame, its padding and the end code complete the packet,
    which is finalized and returned; the frame count is 0 again. *)
Lemma truehd_DoWork_last p_filter h p_in_buf s :
  is_truehd p_filter ->
  truehd_inv p_filter 23 s -> truehd_nominal 23 p_in_buf ->
  exists pkt s',
    DoWork p_filter h p_in_buf s
    = Done (Work SPDIF_SUCCESS (Some pkt) [p_in_buf]) s'
    /\ p_out_buf s' = None /\ spec s' = 0
    /\ mat_frame p_filter pkt.
Proof.
  intros Hfmt (out & Hout & Hl & Hi & Hoff & Hspec & Hstart & Hmid)
         (Hsz & Hev & Hfit).
  destruct s as [o off c]. cbn [p_out_buf i_out_offset spec] in *.
  subst o off c.
  unfold truehd_reserve in Hfit. cbn [Z.eqb Pos.eqb] in Hfit.
  unfold truehd_offset, TRUEHD_FRAME_OFFSET in *. cbn [Z.eqb Pos.eqb] in *.
  specialize (Hmid ltac:(lia)).
  set (n := i_buffer p_in_buf) in *.
  set (enc := encode p_filter (p_buffer p_in_buf) n
                     (input_big_endian p_filter p_in_buf)).
  assert (Henc : Z.of_nat (length enc) = n)
    by (subst enc; rewrite length_encode by lia; lia).
  set (out1 := set_i_length
                 (set_p_buffer out (splice (p_buffer out) (2560 * 23 - 0) enc))
                 (i_length out + i_length p_in_buf)).
  assert (Hl1 : Z.of_nat (length (p_buffer out1)) = 61440).
  { subst out1. cbn [p_buffer set_p_buffer set_i_length].
    rewrite length_splice; lia. }
  set (out2 := set_p_buffer out1
                 (splice (p_buffer out1) (2560 * 23 - 0 + n)
                         (replicate (Z.to_nat (2560 - n - 24)) 0))).
  assert (Hl2 : Z.of_nat (length (p_buffer out2)) = 61440).
  { subst out2. cbn [p_buffer set_p_buffer].
    rewrite length_splice; rewrite ?length_replicate; lia. }
  assert (Hlc : length (mat_code p_filter p_mat_end_code) = 16%nat)
    by (now rewrite length_mat_code).
  set (out3 := set_p_buffer out2
                 (splice (p_buffer out2) 61416
                         (mat_code p_filter p_mat_end_code))).
  assert (Hl3 : Z.of_nat (length (p_buffer out3)) = 61440).
  { subst out3. cbn [p_buffer set_p_buffer].
    rewrite length_splice; rewrite ?Hlc; lia. }
  assert (Hi3 : i_buffer out3 = 61440) by (subst out3 out2 out1; exact Hi).
  assert (Hroom3 : room out3 61432 0) by (unfold room; lia).
  exists (set_p_buffer out3
            (finalize_image p_filter IEC61937_TRUEHD 1 61432 out3)),
         (Sys None 61440 0).
  split.
  { apply DoWork_success; [|exact Hi3].
    rewrite strategy_truehd by assumption.
    rewrite truehd_in_progress. cbn [Z.eqb Pos.eqb].
    unfold bind at 1. unfold bind at 1.
    unfold truehd_store_last, truehd_no_room.
    rewrite truehd_padding_value
      by (unfold TRUEHD_FRAME_OFFSET; fold n; lia).
    unfold TRUEHD_FRAME_OFFSET. fold n.
    unfold bind at 1. unfold get at 1.
    unfold bind at 1. unfold assert_out_buf at 1.
    cbn [p_out_buf i_out_offset spec].
    rewrite (proj2 (Z.ltb_ge (2560 - n - 24) 0)) by lia.
    rewrite (to_size_t_small (2560 - n - 24)) by lia.
    rewrite !to_size_t_small by lia.
    rewrite (proj2 (Z.ltb_ge _ _)) by lia. cbn [orb].
    unfold bind at 1.
    rewrite write_buffer_spec;
      [|unfold room; fold n; rewrite Hev; lia|assumption
       |intros E; destruct Hfmt as [H|H]; rewrite H in E; discriminate].
    fold n. fold enc. fold out1. rewrite Hev, Z.add_0_r.
    unfold bind at 1.
    rewrite write_padding_spec
      by (unfold room; rewrite Hl1; subst out1;
          cbn [i_buffer set_p_buffer set_i_length]; lia).
    fold out2.
    replace (2560 * 23 - 0 + n + (2560 - n - 24)) with 61416 by lia.
    unfold bind at 1.
    rewrite write_end_code
      by (unfold room; rewrite Hl2; subst out2 out1;
          cbn [i_buffer set_p_buffer set_i_length]; lia).
    fold out3. change (61416 + 16) with 61432.
    unfold bind at 1.
    rewrite write_finalize_spec;
      [|assumption|unfold SPDIF_HEADER_SIZE; lia
       |intros _; unfold SPDIF_HEADER_SIZE; split; [lia|now left]].
    rewrite Hi3. reflexivity. }
  split; [reflexivity|]. split; [reflexivity|].
  unfold mat_frame, TRUEHD_FRAME_OFFSET, SPDIF_HEADER_SIZE.
  cbn [i_buffer p_buffer set_p_buffer].
  assert (Hkeep3 : forall o len, 0 <= o -> 0 <= len -> o + len <= 2560 * 23 ->
            sub_bytes o len (p_buffer out3) = sub_bytes o len (p_buffer out)).
  { intros o len Ho Hlen Hend. subst out3. cbn [p_buffer set_p_buffer].
    rewrite sub_bytes_splice_disjoint; rewrite ?Hlc; try lia.
    subst out2. cbn [p_buffer set_p_buffer].
    rewrite sub_bytes_splice_disjoint; rewrite ?length_replicate; try lia.
    subst out1. cbn [p_buffer set_p_buffer set_i_length].
    apply sub_bytes_splice_disjoint; lia. }
  split; [exact Hi3|]. split.
  { rewrite length_finalize_image
      by (try assumption; unfold SPDIF_HEADER_SIZE; lia).
    exact Hl3. }
  split.
  { change 8 with SPDIF_HEADER_SIZE at 1.
    rewrite finalize_image_header
      by (try assumption; unfold SPDIF_HEADER_SIZE; try lia; discriminate).
    reflexivity. }
  split.
  { rewrite finalize_image_payload
      by first [ assumption
               | unfold SPDIF_HEADER_SIZE; lia
               | change (to_uint16 IEC61937_TRUEHD =? 0) with false;
                 unfold SPDIF_HEADER_SIZE; lia ].
    rewrite Hkeep3 by lia. exact Hstart. }
  split.
  { rewrite finalize_image_payload
      by first [ assumption
               | unfold SPDIF_HEADER_SIZE; lia
               | change (to_uint16 IEC61937_TRUEHD =? 0) with false;
                 unfold SPDIF_HEADER_SIZE; lia ].
    rewrite Hkeep3 by lia. exact Hmid. }
  split.
  { rewrite finalize_image_payload
      by first [ assumption
               | unfold SPDIF_HEADER_SIZE; lia
               | change (to_uint16 IEC61937_TRUEHD =? 0) with false;
                 unfold SPDIF_HEADER_SIZE; lia ].
    subst out3. cbn [p_buffer set_p_buffer].
    change (2560 * 24 - 24) with 61416.
    change 16 with (Z.of_nat 16). rewrite <- Hlc.
    apply sub_bytes_splice_same; rewrite ?Hlc; lia. }
  change (2560 * 24 - 8) with 61432.
  pose proof (finalize_image_padding p_filter IEC61937_TRUEHD 1 61432 out3
                Hroom3 ltac:(unfold SPDIF_HEADER_SIZE; lia)) as Hpad.
  rewrite Hi3 in Hpad. exact Hpad.
Qed.

Lemma truehd_frames_app calls1 : forall k calls2,
  truehd_frames k (calls1 ++ calls2)
  <-> truehd_frames k calls1
      /\ truehd_frames (k + Z.of_nat (length calls1)) calls2.
Proof.
  induction calls1 as [|c calls1 IH]; intros k calls2; cbn [app truehd_frames].
  - cbn [length Z.of_nat]. rewrite Z.add_0_r. tauto.
  - rewrite IH. cbn [length].
    replace (k + 1 + Z.of_nat (length calls1))
      with (k + Z.of_nat (S (length calls1))) by lia.
    tauto.
Qed.

(** Frames 1 to 22 in a row. *)
Lemma truehd_feed_steps p_filter calls : forall k s,
  is_truehd p_filter -> 1 <= k -> k + Z.of_nat (length calls) <= 23 ->
  truehd_inv p_filter k s -> truehd_frames k calls ->
  exists ws s',
    feed p_filter calls s = Done ws s'
    /\ Forall quiet ws /\ length ws = length calls
    /\ truehd_inv p_filter (k + Z.of_nat (length calls)) s'.
Proof.
  induction calls as [|[h p] calls IH]; intros k s Hfmt Hk Hend Hinv Hfr.
  - exists [], s. cbn [length Z.of_nat]. rewrite Z.add_0_r.
    repeat split; auto.
  - cbn [length] in Hend. destruct Hfr as [Hnom Hfr]. cbn [snd] in Hnom.
    destruct (truehd_DoWork_step p_filter h p k s Hfmt ltac:(lia) Hinv Hnom)
      as (s1 & Hwork & Hinv1).
    destruct (IH (k + 1) s1 Hfmt ltac:(lia) ltac:(lia) Hinv1 Hfr)
      as (ws & s' & Hfeed & Hq & Hlen & Hinv').
    exists (Work SPDIF_MORE_DATA None [p] :: ws), s'.
    split; [now apply feed_cons with (s1 := s1)|].
    split; [constructor; [now split|assumption]|].
    split; [cbn [length]; lia|].
    cbn [length].
    replace (k + Z.of_nat (S (length calls)))
      with (k + 1 + Z.of_nat (length calls)) by lia.
    exact Hinv'.
Qed.

(** Twenty-four frames of nominal size, from a fresh session: twenty-three
    calls that return nothing, then the call that returns the MAT frame. *)
Lemma truehd_superframe p_filter h p_in_buf calls s :
  is_truehd p_filter -> p_out_buf s = None -> spec s = 0 ->
  alloc_fails h = false -> length calls = 23%nat ->
  truehd_frames 0 ((h, p_in_buf) :: calls) ->
  exists ws w pkt s',
    feed p_filter ((h, p_in_buf) :: calls) s = Done (ws ++ [w]) s'
    /\ length ws = 23%nat /\ Forall quiet ws
    /\ i_ret w = SPDIF_SUCCESS /\ p_out w = Some pkt
    /\ p_out_buf s' = None /\ spec s' = 0
    /\ mat_frame p_filter pkt.
Proof.
  intros Hfmt Hnone Hspec Halloc Hlen [Hnom0 Hfr]. cbn [snd] in Hnom0.
  destruct calls as [|c calls] using rev_ind; [discriminate|].
  clear IHcalls. rewrite length_app in Hlen. cbn [length] in Hlen.
  change (0 + 1) with 1 in Hfr.
  apply truehd_frames_app in Hfr. destruct Hfr as [Hmid Hlast].
  replace (1 + Z.of_nat (length calls)) with 23 in Hlast by lia.
  destruct c as [h23 p23]. destruct Hlast as [Hnom23 _]. cbn [snd] in Hnom23.
  destruct (truehd_DoWork_first p_filter h p_in_buf s Hfmt Hnone Hspec
              Halloc Hnom0) as (s1 & Hw0 & Hinv1).
  destruct (truehd_feed_steps p_filter calls 1 s1 Hfmt ltac:(lia) ltac:(lia)
              Hinv1 Hmid) as (ws & s22 & Hfeed & Hq & Hlenws & Hinv23).
  replace (1 + Z.of_nat (length calls)) with 23 in Hinv23 by lia.
  destruct (truehd_DoWork_last p_filter h23 p23 s22 Hfmt Hinv23 Hnom23)
    as (pkt & s' & Hw23 & Hnone' & Hspec' & Hmat).
  exists (Work SPDIF_MORE_DATA None [p_in_buf] :: ws),
         (Work SPDIF_SUCCESS (Some pkt) [p23]), pkt, s'.
  split.
  { change ((Work SPDIF_MORE_DATA None [p_in_buf] :: ws)
            ++ [Work SPDIF_SUCCESS (Some pkt) [p23]])
      with (Work SPDIF_MORE_DATA None [p_in_buf]
            :: (ws ++ [Work SPDIF_SUCCESS (Some pkt) [p23]])).
    eapply feed_cons; [exact Hw0|].
    eapply feed_app; [exact Hfeed|].
    eapply feed_cons; [exact Hw23|reflexivity]. }
  split; [cbn [length]; lia|].
  split; [constructor; [now split|assumption]|].
  split; [reflexivity|]. split; [reflexivity|].
  split; [assumption|]. split; assumption.
Qed.


(** C1, as the code has it. TrueHD: the packet completed by twenty-four
    frames of nominal size is 61440 bytes long; its first 8 bytes are the
    burst preamble, the 20-byte MAT start code begins at byte offset 8, the
    12-byte middle code begins at byte offset 2560 x 12 - 4 and the 16-byte
    end code begins at byte offset 2560 x 24 - 24; each code lies in the
    output byte order. *)
Theorem truehd_mat_codes p_filter h p_in_buf calls s :
  is_truehd p_filter -> p_out_buf s = None -> spec s = 0 ->
  alloc_fails h = false -> length calls = 23%nat ->
  truehd_frames 0 ((h, p_in_buf) :: calls) ->
  exists ws w pkt s',
    feed p_filter ((h, p_in_buf) :: calls) s = Done (ws ++ [w]) s'
    /\ length ws = 23%nat /\ p_out w = Some pkt
    /\ Z.of_nat (length (p_buffer pkt)) = 61440
    /\ sub_bytes 0 8 (p_buffer pkt)
       = burst_header p_filter IEC61937_TRUEHD (61440 - 16)
    /\ sub_bytes 8 20 (p_buffer pkt) = mat_code p_filter p_mat_start_code
    /\ sub_bytes (2560 * 12 - 4) 12 (p_buffer pkt)
       = mat_code p_filter p_mat_middle_code
    /\ sub_bytes (2560 * 24 - 24) 16 (p_buffer pkt)
       = mat_code p_filter p_mat_end_code.
Proof.
  intros Hfmt Hnone Hspec Halloc Hlen Hfr.
  destruct (truehd_superframe p_filter h p_in_buf calls s Hfmt Hnone Hspec
              Halloc Hlen Hfr)
    as (ws & w & pkt & s' & Hfeed & Hl & Hq & Hr & Hp & Hn & Hs & Hmat).
  destruct Hmat as (Hi & Hlp & Hhdr & Hstart & Hmid & Hend & _).
  exists ws, w, pkt, s'. repeat split; assumption.
Qed.

(** ** More on the writer primitives *)

(** X1. Zero padding with room for it: [i_size] zero bytes are stored from
    the write offset on, the offset advances by [i_size], and no other byte
    of the packet changes. *)
Theorem write_padding_zeroes out off c n :
  room out off n ->
  exists buf,
    write_padding n (Sys (Some out) off c)
    = Done tt (Sys (Some (set_p_buffer out buf)) (off + n) c)
    /\ length buf = length (p_buffer out)
    /\ sub_bytes off n buf = replicate (Z.to_nat n) 0
    /\ sub_bytes 0 off buf = sub_bytes 0 off (p_buffer out)
    /\ sub_bytes (off + n) (i_buffer out - (off + n)) buf
       = sub_bytes (off + n) (i_buffer out - (off + n)) (p_buffer out).
Proof.
  intros Hroom. pose proof Hroom as (Hl & Ho & Hn & Hf & Hmax).
  eexists. split; [now apply write_padding_spec|].
  set (pad := replicate (Z.to_nat n) 0).
  assert (Hp : Z.of_nat (length pad) = n)
    by (subst pad; rewrite length_replicate; lia).
  split; [apply length_splice; lia|].
  split; [rewrite <- Hp at 1; apply sub_bytes_splice_same; lia|].
  split; apply sub_bytes_splice_disjoint; lia.
Qed.

(** The assertions of the two writing primitives. *)
Lemma writer_assertions p_filter p_buf be out off c n :
  Z.of_nat (length (p_buffer out)) = i_buffer out ->
  0 <= off <= i_buffer out -> i_buffer out < 2 ^ 64 ->
  (write_padding n (Sys None off c) = AssertFailed
   /\ write_data p_filter p_buf n be (Sys None off c) = AssertFailed)
  /\ (i_buffer out - off < n ->
      write_padding n (Sys (Some out) off c) = AssertFailed
      /\ write_data p_filter p_buf n be (Sys (Some out) off c) = AssertFailed)
  /\ (0 <= n <= Z.of_nat (length p_buf) -> n mod 2 = 1 ->
      n = i_buffer out - off ->
      write_data p_filter p_buf n be (Sys (Some out) off c) = AssertFailed).
Proof.
  intros Hl Ho Hmax. split; [split; reflexivity|]. split.
  - intros Hn.
    unfold write_padding, write_data, bind, assert_out_buf, get, assert.
    cbn [p_out_buf i_out_offset].
    rewrite to_size_t_small by lia.
    now rewrite (proj2 (Z.leb_gt n _)) by lia.
  - intros Hsz Hodd Hn.
    pose proof (Z.mod_le n 2 ltac:(lia) ltac:(lia)) as Hle.
    unfold write_data, bind, assert_out_buf, get, assert, access, load, store,
      set_out_buf, set_out_offset.
    cbn [p_out_buf i_out_offset spec].
    rewrite land_clear_bit0, land_bit0, Hodd.
    rewrite to_size_t_small by lia.
    rewrite (proj2 (Z.leb_le n _)) by lia.
    rewrite (proj2 (Z.leb_le 0 (n - 1))) by lia.
    rewrite (proj2 (Z.leb_le (n - 1) _)) by lia.
    cbn [andb].
    assert (Hlen : forall b : bool,
              Z.of_nat (length (if b then swab (take (Z.to_nat (n - 1)) p_buf)
                                else take (Z.to_nat (n - 1)) p_buf)) = n - 1).
    { assert (Ht : length (take (Z.to_nat (n - 1)) p_buf) = Z.to_nat (n - 1))
        by (rewrite length_take; lia).
      intros [|]; [rewrite length_swab|]; rewrite ?Ht; try lia.
      apply Nat.even_spec. exists (Z.to_nat (n / 2)).
      pose proof (Z.div_mod n 2 ltac:(lia)).
      pose proof (Z.div_pos n 2 ltac:(lia) ltac:(lia)). lia. }
    rewrite (proj2 (Z.leb_le 0 off)) by lia.
    rewrite Hlen.
    rewrite (proj2 (Z.leb_le (off + (n - 1)) _)) by lia.
    cbn [andb p_out_buf i_out_offset spec Z.eqb].
    rewrite (to_size_t_small (off + (n - 1))) by lia.
    rewrite to_size_t_small by lia.
    now rewrite (proj2 (Z.leb_gt 2 _)) by lia.
Qed.

(** X2. The writer asserts the room before it writes. With no packet in
    progress every primitive fails its assertion. With a packet, a padding
    or a copy longer than the room left fails its assertion, and so does a
    copy of an odd count that fills the room exactly, for the lack of the
    one byte its last 16-bit word needs. *)
Theorem writer_asserts_room p_filter p_buf be out off c n :
  Z.of_nat (length (p_buffer out)) = i_buffer out ->
  0 <= off <= i_buffer out -> i_buffer out < 2 ^ 64 ->
  (write_padding n (Sys None off c) = AssertFailed
   /\ write_data p_filter p_buf n be (Sys None off c) = AssertFailed)
  /\ (i_buffer out - off < n ->
      write_padding n (Sys (Some out) off c) = AssertFailed
      /\ write_data p_filter p_buf n be (Sys (Some out) off c) = AssertFailed)
  /\ (0 <= n <= Z.of_nat (length p_buf) -> n mod 2 = 1 ->
      n = i_buffer out - off ->
      write_data p_filter p_buf n be (Sys (Some out) off c) = AssertFailed).
Proof. apply writer_assertions. Qed.

(** X3. Append-bytes with an even count and room for it: the bytes are
    copied, exchanged in pairs when source and destination byte orders
    differ; the offset advances by the count and no other byte of the packet
    changes. *)
Theorem write_data_even_count p_filter p_buf i_size be out off c :
  room out off i_size ->
  0 <= i_size <= Z.of_nat (length p_buf) ->
  i_size mod 2 = 0 ->
  exists buf,
    write_data p_filter p_buf i_size be (Sys (Some out) off c)
    = Done tt (Sys (Some (set_p_buffer out buf)) (off + i_size) c)
    /\ length buf = length (p_buffer out)
    /\ sub_bytes off i_size buf
       = (if xorb be (b_output_big_endian p_filter)
          then swab (take (Z.to_nat i_size) p_buf)
          else take (Z.to_nat i_size) p_buf)
    /\ sub_bytes 0 off buf = sub_bytes 0 off (p_buffer out)
    /\ sub_bytes (off + i_size) (i_buffer out - (off + i_size)) buf
       = sub_bytes (off + i_size) (i_buffer out - (off + i_size))
                   (p_buffer out).
Proof.
  intros Hroom Hsz Hev. pose proof Hroom as (Hl & Ho & Hn & Hf & Hmax).
  pose proof (length_encode p_filter p_buf i_size be Hsz) as Hlen.
  rewrite Hev, Z.add_0_r in Hlen.
  eexists. split.
  { rewrite write_data_spec; rewrite ?Hev, ?Z.add_0_r; [reflexivity| |];
      assumption. }
  rewrite <- (encode_even p_filter p_buf i_size be Hev).
  split; [apply length_splice; lia|].
  split; [rewrite <- Hlen at 1; apply sub_bytes_splice_same; lia|].
  split; apply sub_bytes_splice_disjoint; lia.
Qed.

Lemma swab_app (l1 l2 : list Z) :
  Nat.even (length l1) = true -> swab (l1 ++ l2) = swab l1 ++ swab l2.
Proof.
  revert l1. fix IH 1. intros [|a [|b r]]; cbn [length Nat.even app swab];
    try easy.
  intros H. now rewrite IH.
Qed.

Lemma swab_swab (l : list Z) :
  Nat.even (length l) = true -> swab (swab l) = l.
Proof.
  revert l. fix IH 1. intros [|a [|b r]]; cbn [length Nat.even swab];
    try easy.
  intros H. now rewrite IH.
Qed.

Lemma even_length_source (p_buf : list Z) n :
  0 <= n <= Z.of_nat (length p_buf) ->
  Nat.even (length (take (Z.to_nat (n - n mod 2)) p_buf)) = true.
Proof.
  intros H. pose proof (Z.mod_pos_bound n 2 ltac:(lia)).
  rewrite length_take, Nat.min_l by lia.
  apply Nat.even_spec. exists (Z.to_nat (n / 2)).
  pose proof (Z.div_mod n 2 ltac:(lia)).
  pose proof (Z.div_pos n 2 ltac:(lia) ltac:(lia)). lia.
Qed.

(** X4. The two output formats differ by the order of the bytes in each
    16-bit word, whatever is appended: the bytes Append-bytes leaves for
    little-endian output are those it leaves for big-endian output with
    every pair exchanged, the word of an odd last byte included. *)
Theorem write_data_little_is_swapped_big fl fb p_buf i_size be out off c :
  fmt_out fl = VLC_CODEC_SPDIFL -> fmt_out fb = VLC_CODEC_SPDIFB ->
  room out off (i_size + i_size mod 2) ->
  0 <= i_size <= Z.of_nat (length p_buf) ->
  exists bufl bufb,
    write_data fl p_buf i_size be (Sys (Some out) off c)
    = Done tt (Sys (Some (set_p_buffer out bufl))
                   (off + (i_size + i_size mod 2)) c)
    /\ write_data fb p_buf i_size be (Sys (Some out) off c)
       = Done tt (Sys (Some (set_p_buffer out bufb))
                      (off + (i_size + i_size mod 2)) c)
    /\ sub_bytes off (i_size + i_size mod 2) bufl
       = swab (sub_bytes off (i_size + i_size mod 2) bufb).
Proof.
  intros Hfl Hfb Hroom Hsz. pose proof Hroom as (Hl & Ho & Hn & Hf & Hmax).
  pose proof (length_encode fl p_buf i_size be Hsz) as Hll.
  pose proof (length_encode fb p_buf i_size be Hsz) as Hlb.
  eexists. eexists.
  split; [now apply write_data_spec|]. split; [now apply write_data_spec|].
  rewrite <- Hll at 1. rewrite <- Hlb at 1.
  rewrite !sub_bytes_splice_same by lia.
  unfold encode, b_output_big_endian, write_16. rewrite Hfl, Hfb.
  pose proof (even_length_source p_buf i_size Hsz) as Hev.
  set (src := take (Z.to_nat (i_size - i_size mod 2)) p_buf) in *.
  assert (Hw : forall v, SetWLE v = swab (SetWBE v)) by reflexivity.
  destruct be; cbn [xorb].
  - rewrite swab_app by assumption.
    destruct (i_size mod 2 =? 0); [reflexivity|]. now rewrite Hw.
  - rewrite swab_app by (now rewrite length_swab).
    rewrite swab_swab by assumption.
    destruct (i_size mod 2 =? 0); [reflexivity|]. now rewrite Hw.
Qed.

(** ** The packet in progress stays a packet *)

Lemma keeps_ret {A} Inv (a : A) : keeps Inv (ret a).
Proof. intros s H. exact H. Qed.

Lemma keeps_bind {A B} Inv (m : M A) (k : A -> M B) :
  keeps Inv m -> (forall a, keeps Inv (k a)) -> keeps Inv (bind m k).
Proof.
  intros Hm Hk s H. unfold bind. specialize (Hm s H).
  destruct (m s) as [a s1| |]; [now apply Hk|exact I|exact Hm].
Qed.

Lemma keeps_get Inv : keeps Inv get.
Proof. intros s H. exact H. Qed.

Lemma keeps_assert Inv b : keeps Inv (assert b).
Proof. intros s H. unfold assert. now destruct b. Qed.

Lemma keeps_assert_out_buf Inv : keeps Inv assert_out_buf.
Proof. intros s H. unfold assert_out_buf. now destruct (p_out_buf s). Qed.

Lemma keeps_set_spec p_filter c : keeps (session_ok p_filter) (set_spec c).
Proof. intros s H. exact H. Qed.

Lemma packet_ok_set_p_buffer p_filter out buf :
  packet_ok p_filter out -> length buf = length (p_buffer out) ->
  packet_ok p_filter (set_p_buffer out buf).
Proof.
  intros (Hl & Hs & H4 & Hc) Hb. unfold packet_ok.
  cbn [p_buffer i_buffer set_p_buffer]. rewrite Hb. auto.
Qed.

Lemma keeps_write_padding p_filter n :
  0 <= n -> keeps (session_ok p_filter) (write_padding n).
Proof.
  intros Hn [[out|] off c] Hs; [|exact I].
  destruct Hs as [Hp Ho]. cbn [i_out_offset] in Ho.
  pose proof Hp as (Hl & Hsz & H4 & Hc).
  destruct (Z_le_gt_dec n (i_buffer out - off)) as [Hfit|Hover].
  - rewrite write_padding_spec by (unfold room; lia).
    split; [|cbn [i_out_offset i_buffer set_p_buffer]; lia].
    apply packet_ok_set_p_buffer; [assumption|].
    apply length_splice; rewrite ?length_replicate; lia.
  - unfold write_padding, bind, assert_out_buf, get, assert.
    cbn [p_out_buf i_out_offset].
    rewrite to_size_t_small by lia.
    now rewrite (proj2 (Z.leb_gt n _)) by lia.
Qed.

Lemma keeps_write_data p_filter f p_buf n be :
  0 <= n <= Z.of_nat (length p_buf) ->
  keeps (session_ok p_filter) (write_data f p_buf n be).
Proof.
  intros Hn [[out|] off c] Hs; [|exact I].
  destruct Hs as [Hp Ho]. cbn [i_out_offset] in Ho.
  pose proof Hp as (Hl & Hsz & H4 & Hc).
  pose proof (Z.mod_pos_bound n 2 ltac:(lia)) as Hm.
  destruct (Z_le_gt_dec (n + n mod 2) (i_buffer out - off)) as [Hfit|Hover].
  - rewrite write_data_spec by (try assumption; unfold room; lia).
    split; [|cbn [i_out_offset i_buffer set_p_buffer]; lia].
    apply packet_ok_set_p_buffer; [assumption|].
    apply length_splice; rewrite ?length_encode; lia.
  - destruct (writer_assertions f p_buf be out off c n Hl Ho ltac:(lia))
      as (_ & Hshort & Hodd).
    destruct (Z_le_gt_dec n (i_buffer out - off)) as [Heq|Hgt].
    + rewrite Hodd; [exact I|assumption|lia|lia].
    + destruct (Hshort ltac:(lia)) as [_ ->]. exact I.
Qed.

Lemma keeps_write_buffer p_filter p_in_buf :
  0 <= i_buffer p_in_buf <= Z.of_nat (length (p_buffer p_in_buf)) ->
  (fmt_in p_filter = VLC_CODEC_DTS -> p_buffer p_in_buf <> []) ->
  keeps (session_ok p_filter) (write_buffer p_filter p_in_buf).
Proof.
  intros Hsz Hdts. unfold write_buffer.
  intros s Hs. unfold bind at 1. rewrite is_big_endian_spec by assumption.
  revert s Hs. apply keeps_bind; [now apply keeps_write_data|intros _].
  intros [[out|] off c] Hs; [|exact I].
  destruct Hs as [(Hl & Hz & H4 & Hc) Ho]. now split.
Qed.

(** A size [write_init] may be given for the input format. *)
Lemma keeps_write_init p_filter h p_in_buf n ns :
  packet_size_ok p_filter n -> n < 2 ^ 64 ->
  keeps (session_ok p_filter) (write_init h p_in_buf n ns).
Proof.
  intros Hc Hmax [[out|] off c] Hs; [exact I|].
  unfold write_init, bind, get, assert, block_Alloc, set_out_buf,
    set_out_offset, ret. cbn [p_out_buf i_out_offset spec].
  destruct (Z.ltb_spec SPDIF_HEADER_SIZE n) as [H8|H8]; [|exact I].
  destruct (Z.eqb_spec (Z.land n 3) 0) as [H4|H4]; [|exact I].
  cbn [andb]. destruct (alloc_fails h); [exact I|].
  cbn [p_out_buf i_out_offset spec].
  unfold session_ok, packet_ok.
  cbn [p_out_buf i_out_offset p_buffer i_buffer set_i_nb_samples set_i_pts
       set_i_dts].
  rewrite length_map, length_seq. unfold SPDIF_HEADER_SIZE in *.
  repeat split; try assumption; lia.
Qed.

Lemma keeps_write_finalize p_filter dt mul :
  keeps (session_ok p_filter) (write_finalize p_filter dt mul).
Proof.
  intros [[out|] off c] Hs; [|exact I].
  destruct Hs as [Hp Ho]. cbn [i_out_offset] in Ho.
  pose proof Hp as (Hl & Hsz & H4 & Hc). unfold SPDIF_HEADER_SIZE in *.
  assert (Hgood : (to_uint16 dt <> 0 ->
                   8 < off /\ (to_uint8 mul = 1 \/ to_uint8 mul = 8)) ->
    match write_finalize p_filter dt mul (Sys (Some out) off c) with
    | Done _ s' => session_ok p_filter s'
    | AssertFailed => True
    | OutOfBounds => False
    end).
  { intros Hdt.
    rewrite write_finalize_spec
      by (try assumption; unfold room, SPDIF_HEADER_SIZE; lia).
    split; [|cbn [i_out_offset i_buffer set_p_buffer]; lia].
    apply packet_ok_set_p_buffer; [assumption|].
    apply length_finalize_image; unfold room, SPDIF_HEADER_SIZE; lia. }
  destruct (Z.eq_dec (to_uint16 dt) 0) as [E|E];
    [apply Hgood; intros Hc'; now elim Hc'|].
  destruct (Z_lt_le_dec 8 off) as [Hoff|Hoff].
  - destruct (Z.eq_dec (to_uint8 mul) 1) as [E1|E1];
      [apply Hgood; auto|].
    destruct (Z.eq_dec (to_uint8 mul) 8) as [E8|E8];
      [apply Hgood; auto|].
    unfold write_finalize, bind, assert_out_buf, get, assert.
    cbn [p_out_buf i_out_offset]. unfold SPDIF_HEADER_SIZE.
    rewrite (proj2 (Z.eqb_neq _ _) E). cbn [i_out_offset].
    rewrite (proj2 (Z.ltb_lt _ _) Hoff).
    now rewrite (proj2 (Z.eqb_neq _ _) E1), (proj2 (Z.eqb_neq _ _) E8).
  - unfold write_finalize, bind, assert_out_buf, get, assert.
    cbn [p_out_buf i_out_offset]. unfold SPDIF_HEADER_SIZE.
    rewrite (proj2 (Z.eqb_neq _ _) E). cbn [i_out_offset].
    now rewrite (proj2 (Z.ltb_ge 8 off)) by lia.
Qed.

Lemma keeps_access_Some {A} Inv (a : A) : keeps Inv (access (Some a)).
Proof. intros s H. exact H. Qed.

Lemma keeps_set_out_offset_0 p_filter :
  keeps (session_ok p_filter) (set_out_offset 0).
Proof.
  intros [[out|] off c] Hs; [|exact I].
  destruct Hs as [Hp Ho]. pose proof Hp as (Hl & Hsz & _).
  split; [assumption|]. cbn [i_out_offset]. unfold SPDIF_HEADER_SIZE in *. lia.
Qed.

Ltac keeps_tac tac :=
  repeat lazymatch goal with
    | |- keeps _ (ret _) => apply keeps_ret
    | |- keeps _ get => apply keeps_get
    | |- keeps _ (assert _) => apply keeps_assert
    | |- keeps _ assert_out_buf => apply keeps_assert_out_buf
    | |- keeps _ (set_spec _) => apply keeps_set_spec
    | |- keeps _ (write_finalize _ _ _) => apply keeps_write_finalize
    | |- keeps _ (access (Some _)) => apply keeps_access_Some
    | |- keeps _ (set_out_offset 0) => apply keeps_set_out_offset_0
    | |- keeps _ (bind _ _) => apply keeps_bind; [|intros ?]
    | |- keeps _ (match ?x with _ => _ end) => destruct x
    | |- keeps _ _ => progress tac
    end.

Lemma to_size_t_nonneg z : 0 <= to_size_t z.
Proof. unfold to_size_t. apply Z.mod_pos_bound. lia. Qed.

Lemma keeps_write_buffer_ac3 p_filter h p_in_buf :
  fmt_in p_filter = VLC_CODEC_A52 -> input_ok p_filter p_in_buf ->
  keeps (session_ok p_filter) (write_buffer_ac3 p_filter h p_in_buf).
Proof.
  intros Hfmt [Hsz Hin]. rewrite Hfmt in Hin. destruct Hin as [H6 Hparse].
  assert (Htail : forall p : block_t,
    0 <= i_buffer p <= Z.of_nat (length (p_buffer p)) ->
    p_buffer p = p_buffer p_in_buf ->
    keeps (session_ok p_filter)
      (if a52_size <? to_size_t (i_buffer p + SPDIF_HEADER_SIZE)
       then ret (SPDIF_ERROR, p)
       else
         st <- write_init h p a52_size A52_FRAME_NB ;
         match st with
         | VLC_ENOMEM => ret (SPDIF_ERROR, p)
         | VLC_SUCCESS =>
             write_buffer p_filter p ;;
             b5 <- access (load_byte (p_buffer p) 5) ;
             write_finalize p_filter
               (Z.lor IEC61937_AC3 (Z.shiftl (Z.land b5 0x7) 8)) 8 ;;
             ret (SPDIF_SUCCESS, p)
         end)).
  { intros p Hp Hbuf.
    destruct (lookup_lt_is_Some_2 (p_buffer p) 5 ltac:(rewrite Hbuf; lia))
      as [b5 Hb5].
    assert (Hload : load_byte (p_buffer p) 5 = Some b5) by exact Hb5.
    rewrite Hload.
    keeps_tac ltac:(first
      [ apply keeps_write_init;
          [unfold packet_size_ok; now rewrite Hfmt|reflexivity]
      | apply keeps_write_buffer;
          [assumption|intros E; rewrite Hfmt in E; discriminate] ]). }
  unfold write_buffer_ac3. cbv zeta.
  destruct ((i_buffer p_in_buf <? 6) || (a52_size <? i_buffer p_in_buf)
            || negb (i_nb_samples p_in_buf =? A52_FRAME_NB)).
  - destruct (vlc_a52_header_Parse (p_buffer p_in_buf) (i_buffer p_in_buf))
      as [a52|]; [|apply keeps_ret].
    destruct (a52.b_eac3 a52); [apply keeps_ret|]. cbn [orb].
    destruct (Z.ltb_spec (i_buffer p_in_buf) (a52.i_size a52));
      [apply keeps_ret|].
    apply Htail; [|reflexivity].
    cbn [i_buffer p_buffer set_i_buffer set_i_nb_samples]. lia.
  - now apply Htail.
Qed.

Lemma keeps_write_buffer_eac3 p_filter h p_in_buf :
  fmt_in p_filter = VLC_CODEC_EAC3 -> input_ok p_filter p_in_buf ->
  keeps (session_ok p_filter) (write_buffer_eac3 p_filter h p_in_buf).
Proof.
  intros Hfmt [Hsz Hin]. rewrite Hfmt in Hin.
  unfold write_buffer_eac3.
  destruct (vlc_a52_header_Parse (p_buffer p_in_buf) (i_buffer p_in_buf))
    as [a52|]; [|apply keeps_ret].
  destruct (Z.ltb_spec (i_buffer p_in_buf) (a52.i_size a52));
    [apply keeps_ret|].
  cbv zeta. fold eac3_size.
  keeps_tac ltac:(first
    [ apply keeps_write_init;
        [unfold packet_size_ok; now rewrite Hfmt
        |unfold eac3_size, to_size_t; apply Z.mod_pos_bound; lia]
    | apply keeps_write_buffer;
        [cbn [i_buffer p_buffer set_i_buffer set_i_nb_samples]; lia
        |intros E; rewrite Hfmt in E; discriminate] ]).
Qed.

Lemma keeps_write_buffer_truehd p_filter h p_in_buf :
  is_truehd p_filter -> input_ok p_filter p_in_buf ->
  keeps (session_ok p_filter) (write_buffer_truehd p_filter h p_in_buf).
Proof.
  intros Hfmt [Hsz _].
  assert (Hnd : fmt_in p_filter = VLC_CODEC_DTS -> p_buffer p_in_buf <> [])
    by (intros E; destruct Hfmt as [H|H]; rewrite H in E; discriminate).
  assert (Hsize : packet_size_ok p_filter 61440)
    by (unfold packet_size_ok; destruct Hfmt as [-> | ->]; reflexivity).
  unfold write_buffer_truehd, truehd_store_slot, truehd_store_last.
  cbv zeta.
  keeps_tac ltac:(first
    [ apply keeps_write_init; [exact Hsize|reflexivity]
    | apply keeps_write_buffer; [exact Hsz|exact Hnd]
    | apply keeps_write_padding; apply to_size_t_nonneg
    | apply keeps_write_data; cbn; lia ]).
Qed.

Lemma keeps_write_buffer_dts p_filter h p_in_buf :
  fmt_in p_filter = VLC_CODEC_DTS -> input_ok p_filter p_in_buf ->
  keeps (session_ok p_filter) (write_buffer_dts p_filter h p_in_buf).
Proof.
  intros Hfmt [Hsz Hin]. rewrite Hfmt in Hin. destruct Hin as [Hne Hparse].
  rewrite dts_unfold.
  assert (Hp : forall p, dts_frame p_in_buf = Some p ->
            0 <= i_buffer p <= Z.of_nat (length (p_buffer p))
            /\ p_buffer p <> []).
  { intros p. unfold dts_frame.
    destruct (Z.eqb_spec (i_nb_samples p_in_buf) 0) as [E0|E0].
    - specialize (Hparse E0).
      destruct (vlc_dts_header_Parse _ _) as [hd|]; [|discriminate].
      intros E. inversion E; subst.
      cbn [i_buffer p_buffer set_i_buffer set_i_nb_samples]. now split.
    - intros E. inversion E; subst. now split. }
  destruct (dts_frame p_in_buf) as [p|]; [|apply keeps_ret].
  destruct (Hp p eq_refl) as [Hpsz Hpne].
  destruct (dts_data_type (i_nb_samples p)) as [dt|] eqn:Hdt;
    [|apply keeps_ret].
  destruct (dts_data_type_facts _ _ Hdt) as (Hu & Hs & H4 & Hev & _ & _).
  cbv zeta. rewrite Hu.
  assert (Hsize : packet_size_ok p_filter (i_nb_samples p * 4)).
  { unfold packet_size_ok. rewrite Hfmt.
    destruct (dts_data_type_Some _ _ Hdt) as [[-> _]|[[-> _]|[-> _]]]; lia. }
  keeps_tac ltac:(first
    [ apply keeps_write_init; [exact Hsize|lia]
    | apply keeps_write_buffer; [exact Hpsz|intros _; exact Hpne] ]).
Qed.

Lemma keeps_strategy p_filter h p_in_buf :
  input_ok p_filter p_in_buf ->
  keeps (session_ok p_filter) (strategy p_filter h p_in_buf).
Proof.
  intros Hin. unfold strategy. destruct (fmt_in p_filter) eqn:Hfmt.
  - now apply keeps_write_buffer_ac3.
  - now apply keeps_write_buffer_eac3.
  - apply keeps_write_buffer_truehd; [now right|assumption].
  - apply keeps_write_buffer_truehd; [now left|assumption].
  - now apply keeps_write_buffer_dts.
Qed.

(** One call keeps the session well formed and stays inside the buffers. *)
Lemma DoWork_session p_filter h p_in_buf s :
  session_ok p_filter s -> input_ok p_filter p_in_buf ->
  match DoWork p_filter h p_in_buf s with
  | Done w s' =>
      session_ok p_filter s'
      /\ forall pkt, p_out w = Some pkt ->
           packet_ok p_filter pkt /\ i_ret w = SPDIF_SUCCESS
           /\ p_out_buf s' = None
  | AssertFailed => True
  | OutOfBounds => False
  end.
Proof.
  intros Hs Hin.
  pose proof (keeps_strategy p_filter h p_in_buf Hin s Hs) as Hk.
  unfold DoWork. fold (strategy p_filter h p_in_buf).
  unfold bind at 1.
  destruct (strategy p_filter h p_in_buf s) as [[r p'] s1| |];
    [|exact I|exact Hk].
  cbn [fst snd]. destruct r.
  - unfold bind, get, assert_out_buf, assert, set_out_buf, ret.
    unfold session_ok in Hk.
    destruct (p_out_buf s1) as [out|]; [|exact I].
    destruct Hk as [Hp Ho].
    destruct (i_buffer out =? i_out_offset s1); [|exact I].
    cbn [p_out i_ret p_out_buf fst snd]. split; [exact I|].
    intros pkt Epkt. inversion Epkt; subst. auto.
  - unfold bind, ret. cbn [p_out fst]. split; [assumption|discriminate].
  - unfold bind, Flush, get, set_out_buf, set_spec, ret. cbn [p_out fst].
    split; [exact I|discriminate].
Qed.

(** Calls whose input blocks the strategy can read. *)
Lemma feed_session p_filter calls : forall s,
  session_ok p_filter s ->
  Forall (fun call => input_ok p_filter (snd call)) calls ->
  match feed p_filter calls s with
  | Done ws s' =>
      session_ok p_filter s'
      /\ Forall (fun w => forall pkt, p_out w = Some pkt ->
                            packet_ok p_filter pkt) ws
  | AssertFailed => True
  | OutOfBounds => False
  end.
Proof.
  induction calls as [|[h p] calls IH]; intros s Hs Hall.
  - split; [assumption|constructor].
  - inversion Hall as [|? ? Hin Hrest]; subst. cbn [snd] in Hin.
    pose proof (DoWork_session p_filter h p s Hs Hin) as Hw.
    cbn [feed]. unfold bind at 1.
    destruct (DoWork p_filter h p s) as [w s1| |]; [|exact I|exact Hw].
    destruct Hw as [Hs1 Hpkt].
    specialize (IH s1 Hs1 Hrest).
    unfold bind at 1.
    destruct (feed p_filter calls s1) as [ws s2| |]; [|exact I|exact IH].
    destruct IH as [Hs2 Hws]. unfold ret.
    split; [assumption|]. constructor; [|assumption].
    intros pkt Ep. now apply Hpkt.
Qed.

(** X5. One call on a session whose packet in progress, if any, is a packet
    of the input format with the write offset inside it, and on an input
    block that is [input_ok]: [i_buffer] bytes lie behind [p_buffer]; the
    bytes the code reads without a check lie there too, [p_buffer[5]] of an
    AC-3 block and [p_buffer[0]] of a DTS block; the A/52 parser reports no
    negative size; and the frame size the DTS parser reports for an
    untagged block lies within the buffer. Such a call stops at a failed
    assertion or returns, and never reads or writes outside a buffer; if it
    returns, the session is such a session again, and a packet it returns
    has exactly as many bytes as its size says, a size of the input format
    that is above 8 and a multiple of 4, comes with status success and
    leaves no packet in progress. *)
Theorem DoWork_keeps_session p_filter h p_in_buf s :
  session_ok p_filter s -> input_ok p_filter p_in_buf ->
  DoWork p_filter h p_in_buf s <> OutOfBounds
  /\ forall w s',
       DoWork p_filter h p_in_buf s = Done w s' ->
       session_ok p_filter s'
       /\ forall pkt, p_out w = Some pkt ->
            packet_ok p_filter pkt /\ i_ret w = SPDIF_SUCCESS
            /\ p_out_buf s' = None.
Proof.
  intros Hs Hin.
  pose proof (DoWork_session p_filter h p_in_buf s Hs Hin) as Hw.
  destruct (DoWork p_filter h p_in_buf s) as [w s1| |].
  - split; [discriminate|]. intros w' s' E. inversion E; subst. exact Hw.
  - split; [discriminate|]. intros w' s' E. discriminate.
  - elim Hw.
Qed.

(** X6. A whole session, from [Open] on: whatever the frames, as long as
    every input block is [input_ok] ([i_buffer] bytes behind [p_buffer],
    [p_buffer[5]] of an AC-3 block and [p_buffer[0]] of a DTS block there,
    no negative size from the A/52 parser, the parsed size of an untagged
    DTS block within its buffer), the calls stop at a failed assertion or
    return, none reads or writes outside a buffer, and every packet handed
    to the caller has exactly as many bytes as its size says, a size of the
    input format (6144 for AC-3, the S/PDIF frame size times 4 for E-AC-3,
    61440 for TrueHD and MLP, 2048, 4096 or 8192 for DTS) that is above 8
    and a multiple of 4. *)
Theorem session_packets_ok p_filter calls i_out_offset0 :
  Forall (fun call => input_ok p_filter (snd call)) calls ->
  feed p_filter calls (Open i_out_offset0) <> OutOfBounds
  /\ forall ws s',
       feed p_filter calls (Open i_out_offset0) = Done ws s' ->
       Forall (fun w => forall pkt, p_out w = Some pkt ->
                          packet_ok p_filter pkt) ws.
Proof.
  intros Hall.
  pose proof (feed_session p_filter calls (Open i_out_offset0) I Hall) as Hf.
  destruct (feed p_filter calls (Open i_out_offset0)) as [ws s1| |].
  - split; [discriminate|]. intros ws' s' E. inversion E; subst.
    now destruct Hf.
  - split; [discriminate|]. intros ws' s' E. discriminate.
  - elim Hf.
Qed.

(** ** Allocation failure *)

Lemma strategy_enomem p_filter h p_in_buf off c :
  aout_spdif_size_ok -> alloc_fails h = true ->
  exists p_in',
    strategy p_filter h p_in_buf (Sys None off c)
    = Done (SPDIF_ERROR, p_in') (Sys None off c)
    /\ p_buffer p_in' = p_buffer p_in_buf.
Proof.
  intros Hok Ha.
  destruct (eac3_size_facts Hok) as (Es & H4 & _).
  pose proof Hok as [H8 _]. rewrite <- Es in H8.
  unfold strategy. destruct (fmt_in p_filter).
  - unfold write_buffer_ac3. cbv zeta.
    assert (Htail : forall p : block_t,
      p_buffer p = p_buffer p_in_buf ->
      exists p_in',
        (if a52_size <? to_size_t (i_buffer p + SPDIF_HEADER_SIZE)
         then ret (SPDIF_ERROR, p)
         else
           st <- write_init h p a52_size A52_FRAME_NB ;
           match st with
           | VLC_ENOMEM => ret (SPDIF_ERROR, p)
           | VLC_SUCCESS =>
               write_buffer p_filter p ;;
               b5 <- access (load_byte (p_buffer p) 5) ;
               write_finalize p_filter
                 (Z.lor IEC61937_AC3 (Z.shiftl (Z.land b5 0x7) 8)) 8 ;;
               ret (SPDIF_SUCCESS, p)
           end) (Sys None off c)
        = Done (SPDIF_ERROR, p_in') (Sys None off c)
        /\ p_buffer p_in' = p_buffer p_in_buf).
    { intros p Hp. exists p. split; [|assumption].
      destruct (a52_size <? to_size_t (i_buffer p + SPDIF_HEADER_SIZE));
        [reflexivity|].
      unfold bind at 1.
      now rewrite write_init_enomem by (assumption || reflexivity). }
    destruct ((i_buffer p_in_buf <? 6) || (a52_size <? i_buffer p_in_buf)
              || negb (i_nb_samples p_in_buf =? A52_FRAME_NB)).
    + destruct (vlc_a52_header_Parse (p_buffer p_in_buf) (i_buffer p_in_buf))
        as [a52|]; [|now exists p_in_buf].
      destruct (a52.b_eac3 a52 || (i_buffer p_in_buf <? a52.i_size a52));
        [now exists p_in_buf|].
      now apply Htail.
    + now apply Htail.
  - unfold write_buffer_eac3.
    destruct (vlc_a52_header_Parse (p_buffer p_in_buf) (i_buffer p_in_buf))
      as [a52|]; [|now exists p_in_buf].
    destruct (i_buffer p_in_buf <? a52.i_size a52); [now exists p_in_buf|].
    cbv zeta. fold eac3_size. unfold bind at 1, get. cbn [p_out_buf].
    unfold bind at 1.
    rewrite write_init_enomem by assumption.
    eexists. split; reflexivity.
  - unfold write_buffer_truehd. unfold bind at 1, get. cbn [p_out_buf].
    unfold bind at 1.
    rewrite write_init_enomem by (assumption || reflexivity).
    now exists p_in_buf.
  - unfold write_buffer_truehd. unfold bind at 1, get. cbn [p_out_buf].
    unfold bind at 1.
    rewrite write_init_enomem by (assumption || reflexivity).
    now exists p_in_buf.
  - rewrite dts_unfold. unfold dts_frame.
    assert (Htail : forall p : block_t,
      p_buffer p = p_buffer p_in_buf ->
      exists p_in',
        match dts_data_type (i_nb_samples p) with
        | None => ret (SPDIF_ERROR, p)
        | Some i_data_type =>
            let i_out_size := to_unsigned (i_nb_samples p * 4) in
            let i_data_type :=
              if i_buffer p =? i_out_size then Some 0
              else if i_out_size <? to_size_t (i_buffer p + SPDIF_HEADER_SIZE)
                   then None
                   else Some i_data_type in
            match i_data_type with
            | None => ret (SPDIF_ERROR, p)
            | Some i_data_type =>
                st <- write_init h p i_out_size (i_nb_samples p) ;
                match st with
                | VLC_ENOMEM => ret (SPDIF_ERROR, p)
                | VLC_SUCCESS =>
                    (if i_data_type =? 0 then set_out_offset 0 else ret tt) ;;
                    write_buffer p_filter p ;;
                    write_finalize p_filter i_data_type 8 ;;
                    ret (SPDIF_SUCCESS, p)
                end
            end
        end (Sys None off c)
        = Done (SPDIF_ERROR, p_in') (Sys None off c)
        /\ p_buffer p_in' = p_buffer p_in_buf).
    { intros p Hp. exists p. split; [|assumption].
      destruct (dts_data_type (i_nb_samples p)) as [dt|] eqn:Hdt;
        [|reflexivity].
      destruct (dts_data_type_facts _ _ Hdt) as (Hu & Hs & Hl & _).
      cbv zeta. rewrite Hu.
      assert (Hi : write_init h p (i_nb_samples p * 4) (i_nb_samples p)
                     (Sys None off c)
                   = Done VLC_ENOMEM (Sys None off c))
        by (apply write_init_enomem;
            [assumption|unfold SPDIF_HEADER_SIZE; lia|assumption]).
      destruct (i_buffer p =? i_nb_samples p * 4);
        [unfold bind at 1; now rewrite Hi|].
      destruct (i_nb_samples p * 4
                <? to_size_t (i_buffer p + SPDIF_HEADER_SIZE));
        [reflexivity|].
      unfold bind at 1. now rewrite Hi. }
    destruct (i_nb_samples p_in_buf =? 0); [|now apply Htail].
    destruct (vlc_dts_header_Parse (p_buffer p_in_buf) (i_buffer p_in_buf));
      [now apply Htail|now exists p_in_buf].
Qed.

(** X7. When the allocation of a new packet fails, whatever the input
    format and the frame, the call ends in error: no packet is returned,
    nothing is in progress afterwards, the counter is zero and only the
    input block is released. *)
Theorem allocation_failure p_filter h p_in_buf s :
  aout_spdif_size_ok -> p_out_buf s = None -> alloc_fails h = true ->
  exists p_in',
    DoWork p_filter h p_in_buf s
    = Done (Work SPDIF_ERROR None [p_in']) (Sys None (i_out_offset s) 0)
    /\ p_buffer p_in' = p_buffer p_in_buf.
Proof.
  intros Hok Hnone Ha. destruct s as [o off c]. cbn [p_out_buf] in Hnone.
  subst o.
  destruct (strategy_enomem p_filter h p_in_buf off c Hok Ha)
    as (p_in' & Hs & Hb).
  exists p_in'. split; [|assumption].
  now rewrite (DoWork_error _ _ _ _ _ _ Hs).
Qed.

(** ** Formats that never accumulate *)

Ltac post_with tac :=
  first
    [ apply post_ret; tac
    | apply post_bind; intros ?
    | match goal with
      | |- context [if ?c then _ else _] =>
          lazymatch c with
          | context [if _ then _ else _] => fail
          | context [match _ with _ => _ end] => fail
          | _ => destruct c
          end
      | |- context [match ?x with _ => _ end] =>
          lazymatch x with
          | context [if _ then _ else _] => fail
          | context [match _ with _ => _ end] => fail
          | _ => destruct x
          end
      end ].

Lemma strategy_no_more_data p_filter h p_in_buf :
  fmt_in p_filter = VLC_CODEC_A52 \/ fmt_in p_filter = VLC_CODEC_DTS ->
  post (fun r => fst r <> SPDIF_MORE_DATA) (strategy p_filter h p_in_buf).
Proof.
  intros Hfmt. unfold strategy. destruct Hfmt as [-> | ->].
  - unfold write_buffer_ac3. cbv zeta.
    repeat post_with ltac:(cbn [fst]; discriminate).
  - unfold write_buffer_dts. cbv zeta.
    repeat post_with ltac:(cbn [fst]; discriminate).
Qed.

(** X8. The AC-3 and the DTS strategy work frame by frame: a call that
    returns never asks for more input and never leaves a packet in
    progress, whatever the frame and the session it started from; it
    returns a packet exactly when its status is success. *)
Theorem ac3_dts_frame_by_frame p_filter h p_in_buf s w s' :
  fmt_in p_filter = VLC_CODEC_A52 \/ fmt_in p_filter = VLC_CODEC_DTS ->
  DoWork p_filter h p_in_buf s = Done w s' ->
  i_ret w <> SPDIF_MORE_DATA /\ p_out_buf s' = None
  /\ (i_ret w = SPDIF_SUCCESS <-> p_out w <> None).
Proof.
  intros Hfmt E.
  pose proof (strategy_no_more_data p_filter h p_in_buf Hfmt s) as Hp.
  unfold DoWork in E. fold (strategy p_filter h p_in_buf) in E.
  unfold bind at 1 in E.
  destruct (strategy p_filter h p_in_buf s) as [[r p'] s1| |];
    try discriminate.
  specialize (Hp _ _ eq_refl). cbn [fst snd] in *.
  destruct r; [| now elim Hp |].
  - unfold bind, get, assert_out_buf, assert, set_out_buf, ret in E.
    destruct (p_out_buf s1) as [out|]; [|discriminate].
    destruct (i_buffer out =? i_out_offset s1); [|discriminate].
    inversion E; subst. cbn [i_ret p_out p_out_buf fst].
    split; [discriminate|]. split; [reflexivity|].
    split; [discriminate|reflexivity].
  - unfold bind, Flush, get, set_out_buf, set_spec, ret in E.
    inversion E; subst. cbn [i_ret p_out p_out_buf fst].
    split; [discriminate|]. split; [reflexivity|].
    split; [discriminate|intros H; now elim H].
Qed.

(** ** The AC-3 packet *)

Lemma ac3_data_type_value b5 :
  to_uint16 (Z.lor IEC61937_AC3 (Z.shiftl (Z.land b5 0x7) 8))
  = Z.lor IEC61937_AC3 (Z.shiftl (Z.land b5 0x7) 8).
Proof.
  change 0x7 with (Z.ones 3). rewrite Z.land_ones by lia.
  pose proof (Z.mod_pos_bound b5 (2 ^ 3) ltac:(lia)) as Hm.
  change (2 ^ 3) with 8 in *.
  assert (Hc : b5 mod 8 = 0 \/ b5 mod 8 = 1 \/ b5 mod 8 = 2 \/ b5 mod 8 = 3
               \/ b5 mod 8 = 4 \/ b5 mod 8 = 5 \/ b5 mod 8 = 6
               \/ b5 mod 8 = 7) by lia.
  destruct Hc as [-> |[-> |[-> |[-> |[-> |[-> |[-> | ->]]]]]]]; reflexivity.
Qed.

(** The packet the AC-3 strategy makes of a tagged frame. *)
Lemma ac3_DoWork_image p_filter h p_in_buf off c b5 :
  fmt_in p_filter = VLC_CODEC_A52 ->
  alloc_fails h = false ->
  6 <= i_buffer p_in_buf <= A52_FRAME_NB * 4 - SPDIF_HEADER_SIZE ->
  i_buffer p_in_buf <= Z.of_nat (length (p_buffer p_in_buf)) ->
  i_nb_samples p_in_buf = A52_FRAME_NB ->
  p_buffer p_in_buf !! 5%nat = Some b5 ->
  let n := i_buffer p_in_buf in
  let out0 := init_block h p_in_buf 6144 1536 in
  let out1 := set_i_length
                (set_p_buffer out0
                   (splice (p_buffer out0) 8
                      (encode p_filter (p_buffer p_in_buf) n true)))
                (i_length out0 + i_length p_in_buf) in
  let dt := Z.lor IEC61937_AC3 (Z.shiftl (Z.land b5 0x7) 8) in
  DoWork p_filter h p_in_buf (Sys None off c)
  = Done (Work SPDIF_SUCCESS
            (Some (set_p_buffer out1
                     (finalize_image p_filter dt 8 (8 + (n + n mod 2)) out1)))
            [p_in_buf])
         (Sys None 6144 c)
  /\ room out1 (8 + (n + n mod 2)) 0.
Proof.
  intros Hfmt Halloc Hsz Hlen Hsmp Hb5 n out0 out1 dt.
  unfold A52_FRAME_NB, SPDIF_HEADER_SIZE in *.
  fold n in Hsz, Hlen.
  pose proof (Z.mod_pos_bound n 2 ltac:(lia)) as Hm.
  assert (Heven : n + n mod 2 <= 6136).
  { pose proof (Z.div_mod n 2 ltac:(lia)). lia. }
  assert (Hbe : input_big_endian p_filter p_in_buf = true)
    by (unfold input_big_endian; now rewrite Hfmt).
  assert (Hroom0 : room out0 8 (n + n mod 2)).
  { unfold room. subst out0. rewrite length_init_block by lia.
    cbn [i_buffer init_block]. lia. }
  assert (Hroom1 : room out1 (8 + (n + n mod 2)) 0).
  { unfold room, out1. cbn [p_buffer i_buffer set_p_buffer set_i_length].
    rewrite length_splice
      by (rewrite ?length_encode; subst out0;
          rewrite ?length_init_block; lia).
    subst out0. rewrite length_init_block by lia.
    cbn [i_buffer init_block]. lia. }
  split; [|exact Hroom1].
  apply DoWork_success; [|reflexivity].
  unfold strategy. rewrite Hfmt. unfold write_buffer_ac3.
  rewrite a52_size_value. fold n. rewrite Hsmp.
  unfold A52_FRAME_NB, SPDIF_HEADER_SIZE.
  rewrite (proj2 (Z.ltb_ge n 6)) by lia.
  rewrite (proj2 (Z.ltb_ge 6144 n)) by lia.
  cbn [Z.eqb Pos.eqb negb orb]. fold n.
  rewrite to_size_t_small by lia.
  rewrite (proj2 (Z.ltb_ge 6144 (n + 8))) by lia.
  unfold bind at 1.
  rewrite write_init_spec by (try assumption; reflexivity).
  fold out0. unfold SPDIF_HEADER_SIZE.
  unfold bind at 1.
  rewrite write_buffer_spec;
    [|assumption|lia|intros E; rewrite Hfmt in E; discriminate].
  fold n. rewrite Hbe. fold out1.
  unfold bind at 1. unfold access at 1.
  assert (Hload : load_byte (p_buffer p_in_buf) 5 = Some b5) by exact Hb5.
  rewrite Hload.
  unfold bind at 1. fold dt.
  rewrite write_finalize_spec;
    [|assumption|subst out1 out0; unfold SPDIF_HEADER_SIZE;
                 cbn [i_buffer set_i_length set_p_buffer init_block]; lia|].
  - unfold ret. do 2 f_equal.
    subst out1 out0. cbn [i_buffer set_i_length set_p_buffer init_block].
    lia.
  - intros _. unfold SPDIF_HEADER_SIZE. split; [lia|now right].
Qed.

(** X9. The whole AC-3 packet of a tagged frame of [n] bytes whose sixth
    byte is [b5]: the preamble carries data type 0x01 with the low three
    bits of [b5] (bsmod) in bits 8 to 10 and the payload length in bits,
    counted on [n] rounded up to even; the payload follows from byte 8 on,
    in the output byte order, an odd last byte completed with a zero byte;
    every byte after it is zero; and the packet has 1536 samples and the
    time stamps and the duration of the frame. *)
Theorem ac3_packet_layout p_filter h p_in_buf s b5 :
  fmt_in p_filter = VLC_CODEC_A52 ->
  p_out_buf s = None ->
  alloc_fails h = false ->
  6 <= i_buffer p_in_buf <= A52_FRAME_NB * 4 - SPDIF_HEADER_SIZE ->
  i_buffer p_in_buf <= Z.of_nat (length (p_buffer p_in_buf)) ->
  i_nb_samples p_in_buf = A52_FRAME_NB ->
  p_buffer p_in_buf !! 5%nat = Some b5 ->
  exists pkt,
    DoWork p_filter h p_in_buf s
    = Done (Work SPDIF_SUCCESS (Some pkt) [p_in_buf])
           (Sys None (A52_FRAME_NB * 4) (spec s))
    /\ sub_bytes 0 SPDIF_HEADER_SIZE (p_buffer pkt)
       = burst_header p_filter
           (Z.lor IEC61937_AC3 (Z.shiftl (Z.land b5 0x7) 8))
           ((i_buffer p_in_buf + i_buffer p_in_buf mod 2) * 8)
    /\ sub_bytes SPDIF_HEADER_SIZE
                 (i_buffer p_in_buf + i_buffer p_in_buf mod 2) (p_buffer pkt)
       = encode p_filter (p_buffer p_in_buf) (i_buffer p_in_buf) true
    /\ sub_bytes
         (SPDIF_HEADER_SIZE + (i_buffer p_in_buf + i_buffer p_in_buf mod 2))
         (A52_FRAME_NB * 4 - SPDIF_HEADER_SIZE
          - (i_buffer p_in_buf + i_buffer p_in_buf mod 2))
         (p_buffer pkt)
       = replicate
           (Z.to_nat (A52_FRAME_NB * 4 - SPDIF_HEADER_SIZE
                      - (i_buffer p_in_buf + i_buffer p_in_buf mod 2))) 0
    /\ i_nb_samples pkt = A52_FRAME_NB
    /\ i_pts pkt = i_pts p_in_buf /\ i_dts pkt = i_dts p_in_buf
    /\ i_length pkt = i_length p_in_buf.
Proof.
  intros Hfmt Hnone Halloc Hsz Hlen Hsmp Hb5.
  destruct s as [o off c]. cbn [p_out_buf] in Hnone. subst o.
  destruct (ac3_DoWork_image p_filter h p_in_buf off c b5 Hfmt Halloc Hsz
              Hlen Hsmp Hb5) as [Hrun Hroom1].
  cbv zeta in Hrun, Hroom1.
  unfold A52_FRAME_NB, SPDIF_HEADER_SIZE in *.
  set (n := i_buffer p_in_buf) in *.
  set (out0 := init_block h p_in_buf 6144 1536) in *.
  set (enc := encode p_filter (p_buffer p_in_buf) n true) in *.
  set (out1 := set_i_length
                 (set_p_buffer out0 (splice (p_buffer out0) 8 enc))
                 (i_length out0 + i_length p_in_buf)) in *.
  set (dt := Z.lor IEC61937_AC3 (Z.shiftl (Z.land b5 0x7) 8)) in *.
  pose proof (Z.mod_pos_bound n 2 ltac:(lia)) as Hm.
  assert (Heven : n + n mod 2 <= 6136).
  { pose proof (Z.div_mod n 2 ltac:(lia)). lia. }
  assert (Henc : Z.of_nat (length enc) = n + n mod 2)
    by (subst enc; apply length_encode; lia).
  assert (Hl0 : Z.of_nat (length (p_buffer out0)) = 6144)
    by (subst out0; apply length_init_block; lia).
  assert (Hi1 : i_buffer out1 = 6144) by reflexivity.
  eexists. split; [exact Hrun|].
  cbn [p_buffer set_p_buffer i_nb_samples i_pts i_dts i_length
       set_i_length spec].
  split.
  { rewrite (finalize_image_header p_filter dt 8 (8 + (n + n mod 2)) out1)
      by (try assumption; try apply ac3_data_type_nonzero;
          unfold SPDIF_HEADER_SIZE; lia).
    subst dt. rewrite ac3_data_type_value. unfold SPDIF_HEADER_SIZE.
    replace (8 + (n + n mod 2) - 8) with (n + n mod 2) by lia.
    change (to_uint8 8) with 8.
    rewrite to_size_t_small by lia. rewrite to_uint16_small by lia.
    reflexivity. }
  split.
  { rewrite finalize_image_payload
      by (try assumption; unfold SPDIF_HEADER_SIZE;
          try destruct (to_uint16 dt =? 0); lia).
    subst out1. cbn [p_buffer set_p_buffer set_i_length].
    rewrite <- Henc. apply sub_bytes_splice_same; lia. }
  split.
  { replace (1536 * 4 - 8 - (n + n mod 2))
      with (i_buffer out1 - (8 + (n + n mod 2))) by (rewrite Hi1; lia).
    apply finalize_image_padding;
      [assumption|unfold SPDIF_HEADER_SIZE; lia]. }
  subst out1 out0. cbn. repeat split; reflexivity.
Qed.

(** X10. An AC-3 frame that is not tagged as one (fewer than 6 bytes, more
    than 6144, or a sample count other than 1536) is parsed again: when the
    parser rejects it, finds an E-AC-3 header or a frame size beyond the
    buffer, the call ends in error and whatever was in progress is
    released; when it finds an AC-3 frame of 6 to 6144 bytes and 1536
    samples within the buffer, the call does what it does for the frame
    tagged with those values. *)
Theorem ac3_untagged_frame p_filter h p_in_buf s :
  fmt_in p_filter = VLC_CODEC_A52 ->
  i_buffer p_in_buf < 6 \/ A52_FRAME_NB * 4 < i_buffer p_in_buf
  \/ i_nb_samples p_in_buf <> A52_FRAME_NB ->
  (vlc_a52_header_Parse (p_buffer p_in_buf) (i_buffer p_in_buf) = None ->
   DoWork p_filter h p_in_buf s
   = Done (Work SPDIF_ERROR None (in_progress s ++ [p_in_buf]))
          (Sys None (i_out_offset s) 0))
  /\ forall a52,
       vlc_a52_header_Parse (p_buffer p_in_buf) (i_buffer p_in_buf)
       = Some a52 ->
       (a52.b_eac3 a52 = true \/ i_buffer p_in_buf < a52.i_size a52 ->
        DoWork p_filter h p_in_buf s
        = Done (Work SPDIF_ERROR None (in_progress s ++ [p_in_buf]))
               (Sys None (i_out_offset s) 0))
       /\ (a52.b_eac3 a52 = false -> a52.i_size a52 <= i_buffer p_in_buf ->
           6 <= a52.i_size a52 <= A52_FRAME_NB * 4 ->
           a52.i_samples a52 = A52_FRAME_NB ->
           DoWork p_filter h p_in_buf s
           = DoWork p_filter h
               (set_i_nb_samples (set_i_buffer p_in_buf (a52.i_size a52))
                                 (a52.i_samples a52)) s).
Proof.
  intros Hfmt Hun.
  assert (Htest : (i_buffer p_in_buf <? 6) || (a52_size <? i_buffer p_in_buf)
                  || negb (i_nb_samples p_in_buf =? A52_FRAME_NB) = true).
  { rewrite a52_size_value. unfold A52_FRAME_NB in *.
    destruct (Z.ltb_spec (i_buffer p_in_buf) 6); [reflexivity|].
    destruct (Z.ltb_spec 6144 (i_buffer p_in_buf)); [reflexivity|].
    destruct (Z.eqb_spec (i_nb_samples p_in_buf) 1536); [lia|reflexivity]. }
  assert (Herr : forall o : option block_t,
    o = None ->
    match o with
    | None => ret (SPDIF_ERROR, p_in_buf)
    | Some p =>
        if a52_size <? to_size_t (i_buffer p + SPDIF_HEADER_SIZE)
        then ret (SPDIF_ERROR, p)
        else
          st <- write_init h p a52_size A52_FRAME_NB ;
          match st with
          | VLC_ENOMEM => ret (SPDIF_ERROR, p)
          | VLC_SUCCESS =>
              write_buffer p_filter p ;;
              b5 <- access (load_byte (p_buffer p) 5) ;
              write_finalize p_filter
                (Z.lor IEC61937_AC3 (Z.shiftl (Z.land b5 0x7) 8)) 8 ;;
              ret (SPDIF_SUCCESS, p)
          end
    end s = Done (SPDIF_ERROR, p_in_buf) s) by (now intros o ->).
  split.
  - intros Hparse. apply DoWork_error.
    unfold strategy. rewrite Hfmt. unfold write_buffer_ac3. cbv zeta.
    apply Herr. now rewrite Htest, Hparse.
  - intros a52 Hparse. split.
    + intros Hbad. apply DoWork_error.
      unfold strategy. rewrite Hfmt. unfold write_buffer_ac3. cbv zeta.
      apply Herr. rewrite Htest, Hparse.
      destruct Hbad as [-> |Hlt]; [reflexivity|].
      rewrite (proj2 (Z.ltb_lt _ _) Hlt). now rewrite orb_true_r.
    + intros Hb Hle H6 Hsmp.
      unfold DoWork. rewrite Hfmt. f_equal.
      unfold write_buffer_ac3. cbv zeta.
      rewrite Htest, Hparse, Hb.
      rewrite (proj2 (Z.ltb_ge _ _) Hle). cbn [orb].
      cbn [i_buffer i_nb_samples set_i_buffer set_i_nb_samples].
      rewrite a52_size_value. unfold A52_FRAME_NB in *.
      rewrite (proj2 (Z.ltb_ge (a52.i_size a52) 6)) by lia.
      rewrite (proj2 (Z.ltb_ge 6144 (a52.i_size a52))) by lia.
      rewrite Hsmp. reflexivity.
Qed.

(** ** E-AC-3 frames the parser rejects *)

(** X11. An E-AC-3 call whose frame the parser rejects, or whose parsed
    frame size is beyond the buffer, ends in error at once: the packet in
    progress, with the frames accumulated so far, is released, the block
    counter is cleared and no packet is returned. *)
Theorem eac3_rejected_frame p_filter h p_in_buf s :
  fmt_in p_filter = VLC_CODEC_EAC3 ->
  match vlc_a52_header_Parse (p_buffer p_in_buf) (i_buffer p_in_buf) with
  | None => True
  | Some a52 => i_buffer p_in_buf < a52.i_size a52
  end ->
  DoWork p_filter h p_in_buf s
  = Done (Work SPDIF_ERROR None (in_progress s ++ [p_in_buf]))
         (Sys None (i_out_offset s) 0).
Proof.
  intros Hfmt Hbad. apply DoWork_error.
  rewrite strategy_eac3 by assumption. unfold write_buffer_eac3.
  destruct (vlc_a52_header_Parse (p_buffer p_in_buf) (i_buffer p_in_buf))
    as [a52|]; [|reflexivity].
  now rewrite (proj2 (Z.ltb_lt _ _) Hbad).
Qed.

(** ** Reading past the source *)

(** Asked for more bytes than the source holds. *)
Lemma write_data_over_read p_filter p_buf i_size be out off c :
  room out off (i_size + i_size mod 2) ->
  Z.of_nat (length p_buf) < i_size ->
  write_data p_filter p_buf i_size be (Sys (Some out) off c) = OutOfBounds.
Proof.
  intros (Hlen & Hoff & Hn & Hfit & Hmax) Hover.
  pose proof (Z.mod_pos_bound i_size 2 ltac:(lia)) as Hm.
  pose proof (Z.div_mod i_size 2 ltac:(lia)) as Hdm.
  set (src := take (Z.to_nat (i_size - i_size mod 2)) p_buf).
  set (body := if xorb be (b_output_big_endian p_filter)
               then swab src else src).
  unfold write_data, bind, assert_out_buf, get, assert, access, load, store,
    set_out_buf, set_out_offset, ret. simpl.
  rewrite land_clear_bit0, land_bit0.
  rewrite (to_size_t_small (i_buffer out - off)) by lia.
  rewrite (proj2 (Z.leb_le i_size _)) by lia.
  rewrite (proj2 (Z.leb_le 0 (i_size - i_size mod 2))) by lia.
  destruct (Z.leb_spec (i_size - i_size mod 2) (Z.of_nat (length p_buf)))
    as [Hin|Hout]; [|reflexivity].
  assert (Hodd : i_size mod 2 = 1) by lia.
  assert (Hlast : i_size - 1 = Z.of_nat (length p_buf)) by lia.
  assert (Hsrc : length src = Z.to_nat (i_size - 1)).
  { subst src. rewrite Hodd, length_take. lia. }
  assert (Hbody : length body = Z.to_nat (i_size - 1)).
  { subst body. destruct (xorb be (b_output_big_endian p_filter));
      [|exact Hsrc].
    rewrite length_swab; [exact Hsrc|].
    rewrite Hsrc. apply Nat.even_spec. exists (Z.to_nat (i_size / 2)).
    pose proof (Z.div_pos i_size 2 ltac:(lia) ltac:(lia)). lia. }
  simpl. fold src. fold body.
  rewrite (proj2 (Z.leb_le 0 off)) by lia. simpl.
  rewrite (proj2 (Z.leb_le (off + Z.of_nat (length body)) _)) by lia.
  rewrite Hodd. cbn [Z.eqb].
  rewrite (to_size_t_small (off + _)) by lia.
  cbn [i_out_offset spec p_out_buf].
  rewrite (to_size_t_small (i_buffer out - _)) by lia.
  rewrite (proj2 (Z.leb_le 2 _)) by lia.
  unfold load_byte. rewrite (proj2 (Z.leb_le 0 (i_size - 1))) by lia.
  rewrite (lookup_ge_None_2 p_buf (Z.to_nat (i_size - 1))) by lia.
  reflexivity.
Qed.

(** X12. The writer checks the room in the packet, not the size of the
    source: asked for more bytes than the source holds, with room for them
    in the packet, [write_data] passes its assertions and reads past the
    end of the source. *)
Theorem write_data_reads_past_source p_filter p_buf i_size be out off c :
  room out off (i_size + i_size mod 2) ->
  Z.of_nat (length p_buf) < i_size ->
  write_data p_filter p_buf i_size be (Sys (Some out) off c) = OutOfBounds.
Proof. apply write_data_over_read. Qed.

(** ** DTS frames at the edges *)

Lemma dts_tagged p_in_buf dt :
  dts_data_type (i_nb_samples p_in_buf) = Some dt ->
  dts_frame p_in_buf = Some p_in_buf.
Proof.
  intros Hdt. unfold dts_frame.
  destruct (dts_data_type_Some _ _ Hdt) as [[-> _]|[[-> _]|[-> _]]];
    reflexivity.
Qed.

(** X13. The DTS strategy takes the frame size of a parsed header as it
    is: unlike the AC-3 and E-AC-3 strategies it does not compare it with
    the size of the buffer. A parsed size beyond the buffer that fits the
    packet makes the call read past the end of the input block. *)
Theorem dts_parsed_size_unchecked p_filter h p_in_buf s header dt :
  fmt_in p_filter = VLC_CODEC_DTS ->
  i_nb_samples p_in_buf = 0 ->
  vlc_dts_header_Parse (p_buffer p_in_buf) (i_buffer p_in_buf) = Some header ->
  dts_data_type (dts_header.i_frame_length header) = Some dt ->
  Z.of_nat (length (p_buffer p_in_buf)) < dts_header.i_frame_size header ->
  dts_header.i_frame_size header = dts_header.i_frame_length header * 4
  \/ dts_header.i_frame_size header + SPDIF_HEADER_SIZE
     <= dts_header.i_frame_length header * 4 ->
  p_out_buf s = None -> alloc_fails h = false ->
  DoWork p_filter h p_in_buf s = OutOfBounds.
Proof.
  intros Hfmt Hsmp Hparse Hdt Hover Hfit Hnone Halloc.
  destruct s as [o off c]. cbn [p_out_buf] in Hnone. subst o.
  destruct (dts_data_type_facts _ _ Hdt) as (Hu & Hs & H4 & Hev & Hdt16 & Hdt0).
  unfold SPDIF_HEADER_SIZE in *.
  set (n := dts_header.i_frame_size header) in *.
  set (smp := dts_header.i_frame_length header) in *.
  set (p := set_i_buffer (set_i_nb_samples p_in_buf smp) n).
  set (out0 := init_block h p (smp * 4) smp).
  assert (Hl0 : Z.of_nat (length (p_buffer out0)) = smp * 4)
    by (subst out0; apply length_init_block; lia).
  pose proof (Z.mod_pos_bound n 2 ltac:(lia)) as Hm.
  assert (Hwb : forall off0,
    room out0 off0 (n + n mod 2) ->
    write_buffer p_filter p (Sys (Some out0) off0 c) = OutOfBounds).
  { intros off0 Hroom. unfold write_buffer. unfold bind at 1.
    destruct (p_buffer p) as [|b0 r] eqn:Hbuf.
    - unfold is_big_endian. rewrite Hfmt. unfold bind at 1.
      unfold access, load_byte. now rewrite Hbuf.
    - rewrite is_big_endian_spec by (intros _; rewrite Hbuf; discriminate).
      unfold bind at 1. change (i_buffer p) with n.
      rewrite write_data_over_read;
        [reflexivity|assumption|rewrite <- Hbuf; exact Hover]. }
  unfold DoWork. rewrite Hfmt. unfold bind at 1.
  rewrite dts_unfold. unfold dts_frame. rewrite Hsmp, Hparse.
  cbn [Z.eqb]. fold smp n p.
  change (i_nb_samples p) with smp. change (i_buffer p) with n.
  rewrite Hdt. cbv zeta. rewrite Hu.
  destruct Hfit as [Hfull|Hroom].
  - rewrite (proj2 (Z.eqb_eq _ _) Hfull).
    unfold bind at 1.
    rewrite write_init_spec by (try assumption; unfold SPDIF_HEADER_SIZE; lia).
    fold out0. cbn [Z.eqb]. unfold bind at 1. unfold set_out_offset at 1.
    cbn [p_out_buf spec]. unfold bind at 1.
    rewrite Hwb; [reflexivity|].
    unfold room. rewrite Hl0. subst out0. cbn [i_buffer init_block].
    rewrite Hfull. rewrite Hev. lia.
  - assert (Hne : n <> smp * 4) by lia.
    rewrite (proj2 (Z.eqb_neq _ _) Hne).
    unfold SPDIF_HEADER_SIZE.
    rewrite to_size_t_small by lia.
    rewrite (proj2 (Z.ltb_ge _ _)) by lia.
    unfold bind at 1.
    rewrite write_init_spec by (try assumption; unfold SPDIF_HEADER_SIZE; lia).
    fold out0. rewrite (proj2 (Z.eqb_neq dt 0) Hdt0).
    unfold bind at 1. unfold ret at 1. unfold bind at 1.
    rewrite Hwb; [reflexivity|].
    unfold room. rewrite Hl0. subst out0. cbn [i_buffer init_block].
    unfold SPDIF_HEADER_SIZE.
    pose proof (Z.div_mod n 2 ltac:(lia)).
    pose proof (Z.div_mod (smp * 4) 2 ltac:(lia)). lia.
Qed.

(** X14. A tagged DTS block of 512, 1024 or 2048 samples with an empty
    payload never gives a packet. A packet is allocated and nothing is
    stored in it. If at least one byte lies behind [p_buffer], the call
    stops at the assertion of [write_finalize] that something follows the
    preamble. If no byte lies behind [p_buffer], the call reads
    [p_buffer[0]] outside the buffer before that, in [is_big_endian], which
    has no check on the size. *)
Theorem dts_empty_frame p_filter h p_in_buf s dt :
  fmt_in p_filter = VLC_CODEC_DTS ->
  dts_data_type (i_nb_samples p_in_buf) = Some dt ->
  i_buffer p_in_buf = 0 ->
  p_out_buf s = None -> alloc_fails h = false ->
  DoWork p_filter h p_in_buf s
  = match p_buffer p_in_buf with
    | [] => OutOfBounds
    | _ :: _ => AssertFailed
    end.
Proof.
  intros Hfmt Hdt Hempty Hnone Halloc.
  destruct s as [o off c]. cbn [p_out_buf] in Hnone. subst o.
  destruct (dts_data_type_facts _ _ Hdt) as (Hu & Hs & H4 & Hev & Hdt16 & Hdt0).
  set (smp := i_nb_samples p_in_buf) in *.
  set (out0 := init_block h p_in_buf (smp * 4) smp).
  assert (Hl0 : Z.of_nat (length (p_buffer out0)) = smp * 4)
    by (subst out0; apply length_init_block; lia).
  unfold DoWork. rewrite Hfmt. unfold bind at 1.
  rewrite dts_unfold. rewrite (dts_tagged _ _ Hdt). fold smp.
  rewrite Hdt. cbv zeta. rewrite Hu, Hempty.
  rewrite (proj2 (Z.eqb_neq 0 (smp * 4))) by lia.
  unfold SPDIF_HEADER_SIZE. rewrite to_size_t_small by lia.
  rewrite (proj2 (Z.ltb_ge _ _)) by lia.
  unfold bind at 1.
  rewrite write_init_spec by (try assumption; unfold SPDIF_HEADER_SIZE; lia).
  fold out0. rewrite (proj2 (Z.eqb_neq dt 0) Hdt0).
  unfold bind at 1. unfold ret at 1. unfold bind at 1.
  destruct (p_buffer p_in_buf) as [|b0 r] eqn:Hbuf.
  { unfold write_buffer. unfold bind at 1.
    unfold is_big_endian. rewrite Hfmt. unfold bind at 1.
    unfold access, load_byte. now rewrite Hbuf. }
  rewrite write_buffer_spec;
    [|unfold room; rewrite Hl0, Hempty; subst out0;
      cbn [i_buffer init_block]; unfold SPDIF_HEADER_SIZE;
      change (0 mod 2) with 0; lia
     |rewrite Hempty; lia
     |intros _; rewrite Hbuf; discriminate].
  rewrite Hempty. change (0 + 0 mod 2) with 0.
  unfold SPDIF_HEADER_SIZE. rewrite Z.add_0_r.
  unfold bind at 1. unfold write_finalize. rewrite Hdt16.
  rewrite (proj2 (Z.eqb_neq dt 0) Hdt0).
  unfold bind, assert_out_buf, get, assert. cbn [p_out_buf i_out_offset].
  unfold SPDIF_HEADER_SIZE. reflexivity.
Qed.

(** ** A TrueHD frame too long for its slot *)

Lemma truehd_padding_negative p_in_buf r :
  0 <= r <= 28 -> TRUEHD_FRAME_OFFSET - r < i_buffer p_in_buf < 2 ^ 31 ->
  truehd_padding p_in_buf r < 0.
Proof.
  intros Hr Hn. unfold truehd_padding, TRUEHD_FRAME_OFFSET in *.
  rewrite to_int_to_size_t; lia.
Qed.

Lemma truehd_in_progress_too_long p_filter h p_in_buf out off c :
  room out off (if c =? 0 then 20 else if c =? 12 then 12 else 0) ->
  TRUEHD_FRAME_OFFSET - truehd_reserve c < i_buffer p_in_buf < 2 ^ 31 ->
  exists out' off',
    write_buffer_truehd p_filter h p_in_buf (Sys (Some out) off c)
    = Done (SPDIF_ERROR, p_in_buf) (Sys (Some out') off' c).
Proof.
  intros Hroom Hlong. rewrite truehd_in_progress.
  unfold truehd_reserve, SPDIF_HEADER_SIZE in *.
  assert (Hslot : forall r out1 off1,
    0 <= r <= 28 -> TRUEHD_FRAME_OFFSET - r < i_buffer p_in_buf ->
    truehd_store_slot p_filter p_in_buf (truehd_padding p_in_buf r)
      (Sys (Some out1) off1 c)
    = Done (SPDIF_ERROR, p_in_buf) (Sys (Some out1) off1 c)).
  { intros r out1 off1 Hr Hn.
    pose proof (truehd_padding_negative p_in_buf r Hr ltac:(lia)) as Hneg.
    unfold truehd_store_slot, truehd_no_room.
    unfold bind at 1. unfold get at 1.
    unfold bind at 1. unfold assert_out_buf at 1. cbn [p_out_buf].
    now rewrite (proj2 (Z.ltb_lt _ 0) Hneg). }
  destruct (Z.eqb_spec c 0) as [E0|E0].
  { unfold bind at 1. unfold bind at 1.
    rewrite write_start_code by assumption. unfold ret at 1.
    eexists. eexists. apply Hslot; lia. }
  destruct (Z.eqb_spec c 11) as [E11|E11].
  { unfold bind at 1. unfold ret at 1.
    eexists. eexists. apply Hslot; lia. }
  destruct (Z.eqb_spec c 12) as [E12|E12].
  { unfold bind at 1. unfold bind at 1.
    rewrite write_middle_code by assumption. unfold ret at 1.
    eexists. eexists. apply Hslot; lia. }
  destruct (Z.eqb_spec c 23) as [E23|E23].
  { pose proof (truehd_padding_negative p_in_buf 24 ltac:(lia) ltac:(lia))
      as Hneg.
    unfold bind at 1. unfold bind at 1.
    unfold truehd_store_last, truehd_no_room.
    unfold bind at 1. unfold get at 1.
    unfold bind at 1. unfold assert_out_buf at 1. cbn [p_out_buf].
    rewrite (proj2 (Z.ltb_lt _ 0) Hneg). cbn [orb].
    eexists. eexists. reflexivity. }
  unfold bind at 1. unfold ret at 1.
  eexists. eexists. apply Hslot; lia.
Qed.

(** X15. A TrueHD frame longer than its slot leaves room for (2560 bytes
    less the start code and preamble in slot 0, the shift of the middle
    code in slots 11 and 12, the end code and tail in slot 23) ends the
    call in error, whichever slot it is for: the packet in progress is
    released with the frames stored so far, no packet is returned and the
    frame count is 0 again. *)
Theorem truehd_frame_too_long p_filter h p_in_buf s :
  is_truehd p_filter ->
  match p_out_buf s with
  | None => alloc_fails h = false
  | Some out =>
      room out (i_out_offset s)
           (if spec s =? 0 then 20 else if spec s =? 12 then 12 else 0)
  end ->
  TRUEHD_FRAME_OFFSET - truehd_reserve (spec s) < i_buffer p_in_buf < 2 ^ 31 ->
  exists out off,
    DoWork p_filter h p_in_buf s
    = Done (Work SPDIF_ERROR None [out; p_in_buf]) (Sys None off 0).
Proof.
  intros Hfmt Hstate Hlong. destruct s as [[out|] off c];
    cbn [p_out_buf i_out_offset spec] in *.
  - destruct (truehd_in_progress_too_long p_filter h p_in_buf out off c
                Hstate Hlong) as (out' & off' & Hs).
    exists out', off'.
    rewrite <- strategy_truehd in Hs by assumption.
    now rewrite (DoWork_error _ _ _ _ _ _ Hs).
  - set (out0 := init_block h p_in_buf 61440 (61440 / 16)).
    assert (Hl0 : Z.of_nat (length (p_buffer out0)) = 61440)
      by (subst out0; apply length_init_block; lia).
    destruct (truehd_in_progress_too_long p_filter h p_in_buf out0 8 c)
      as (out' & off' & Hs); [|assumption|].
    { unfold room. rewrite Hl0. subst out0. cbn [i_buffer init_block].
      destruct (c =? 0); [lia|]. destruct (c =? 12); lia. }
    exists out', off'.
    apply (DoWork_error p_filter h p_in_buf _ p_in_buf
             (Sys (Some out') off' c)).
    rewrite strategy_truehd by assumption.
    rewrite <- Hs. unfold write_buffer_truehd.
    unfold bind at 1. unfold get at 1. cbn [p_out_buf].
    unfold bind at 1.
    rewrite write_init_spec by (try assumption; reflexivity).
    fold out0. unfold SPDIF_HEADER_SIZE.
    unfold bind at 3. unfold get at 2. cbn [p_out_buf].
    unfold bind at 3. unfold ret at 1. reflexivity.
Qed.

(** ** 16-bit words *)

(** X16. [write_16] stores the low 16 bits of its value in two bytes, the
    most significant first for big-endian output and last for
    little-endian output. *)
Theorem write_16_two_bytes p_filter i_val :
  exists hi lo,
    0 <= hi < 256 /\ 0 <= lo < 256
    /\ hi * 256 + lo = to_uint16 i_val
    /\ write_16 p_filter i_val
       = if b_output_big_endian p_filter then [hi; lo] else [lo; hi].
Proof.
  exists (Z.land (Z.shiftr i_val 8) 255), (Z.land i_val 255).
  change 255 with (Z.ones 8). rewrite !Z.land_ones by lia.
  rewrite Z.shiftr_div_pow2 by lia. change (2 ^ 8) with 256.
  split; [apply Z.mod_pos_bound; lia|].
  split; [apply Z.mod_pos_bound; lia|].
  split.
  - unfold to_uint16. change (2 ^ 16) with (256 * 256).
    rewrite Z.rem_mul_r by lia. lia.
  - unfold write_16, b_output_big_endian, SetWBE, SetWLE.
    change 255 with (Z.ones 8). rewrite !Z.land_ones by lia.
    rewrite Z.shiftr_div_pow2 by lia. change (2 ^ 8) with 256.
    now destruct (fmt_out p_filter).
Qed.

(** ** An AC-3 frame in an E-AC-3 session *)

(** X17. In an E-AC-3 session a plain AC-3 frame is stored and waits: the
    call returns need-more-input. The next E-AC-3 frame that is not under
    the accumulation rule completes the packet, and the length in its
    preamble counts both frames, each rounded up to even. *)
Theorem eac3_ac3_frame_goes_with_next p_filter h1 p1 a1 h2 p2 a2 s :
  aout_spdif_size_ok ->
  fmt_in p_filter = VLC_CODEC_EAC3 ->
  p_out_buf s = None -> alloc_fails h1 = false ->
  vlc_a52_header_Parse (p_buffer p1) (i_buffer p1) = Some a1 ->
  a52.b_eac3 a1 = false ->
  0 <= a52.i_size a1 <= i_buffer p1 ->
  i_buffer p1 <= Z.of_nat (length (p_buffer p1)) ->
  vlc_a52_header_Parse (p_buffer p2) (i_buffer p2) = Some a2 ->
  a52.b_eac3 a2 = true -> eac3_accumulates a2 = false ->
  0 < a52.i_size a2 <= i_buffer p2 ->
  i_buffer p2 <= Z.of_nat (length (p_buffer p2)) ->
  a52.i_size a1 + a52.i_size a1 mod 2 + a52.i_size a2
  <= eac3_size - SPDIF_HEADER_SIZE ->
  exists pkt,
    feed p_filter [(h1, p1); (h2, p2)] s
    = Done [Work SPDIF_MORE_DATA None [eac3_frame p1 a1];
            Work SPDIF_SUCCESS (Some pkt) [eac3_frame p2 a2]]
           (Sys None eac3_size (spec s))
    /\ i_buffer pkt = eac3_size
    /\ sub_bytes 0 SPDIF_HEADER_SIZE (p_buffer pkt)
       = burst_header p_filter IEC61937_EAC3
           (to_uint16 (a52.i_size a1 + a52.i_size a1 mod 2
                       + (a52.i_size a2 + a52.i_size a2 mod 2))).
Proof.
  intros Hok Hfmt Hnone Ha1 Hp1 Hb1 Hs1 Hl1 Hp2 Hb2 Hacc2 Hs2 Hl2 Hfit.
  pose proof (Z.mod_pos_bound (a52.i_size a1) 2 ltac:(lia)) as Hm1.
  assert (Hinv : eac3_inv s) by (unfold eac3_inv; now rewrite Hnone).
  assert (Hoff : eac3_off s = SPDIF_HEADER_SIZE)
    by (unfold eac3_off; now rewrite Hnone).
  assert (Hfits1 : eac3_fits h1 p1 a1 s).
  { unfold eac3_fits. rewrite Hoff.
    repeat split; try assumption; try (intros _; assumption); lia. }
  pose proof (eac3_DoWork_more p_filter h1 p1 a1 s Hok Hinv Hfits1 Hfmt
                (or_introl Hb1)) as Hw1.
  rewrite Hb1 in Hw1.
  destruct (eac3_inv_appended p_filter h1 p1 a1 s (spec s) Hok Hinv Hfits1)
    as (Hinv1 & Hoff1 & Hsome1 & Hspec1).
  cbv zeta in *.
  set (s1 := eac3_appended p_filter h1 (eac3_frame p1 a1) s (spec s)) in *.
  assert (Hfits2 : eac3_fits h2 p2 a2 s1).
  { unfold eac3_fits. rewrite Hoff1, Hoff.
    repeat split; try assumption; try lia.
    intros E. now elim Hsome1. }
  destruct (eac3_DoWork_success p_filter h2 p2 a2 s1 Hok Hinv1 Hfits2 Hfmt
              ltac:(lia) Hb2 (or_introl Hacc2))
    as (pkt & Hw2 & Hi & _ & Hhdr).
  rewrite Hacc2, Hspec1 in Hw2.
  exists pkt. split.
  { eapply feed_cons; [exact Hw1|].
    eapply feed_cons; [exact Hw2|reflexivity]. }
  split; [assumption|].
  rewrite Hhdr, Hoff1, Hoff. do 2 f_equal. lia.
Qed.

(** ** TrueHD frames of odd size *)

Lemma truehd_store_slot_any p_filter p_in_buf pad out off c :
  is_truehd p_filter ->
  0 <= i_buffer p_in_buf <= Z.of_nat (length (p_buffer p_in_buf)) ->
  0 <= pad < 2 ^ 31 ->
  room out off (i_buffer p_in_buf + i_buffer p_in_buf mod 2 + pad) ->
  0 <= c < 2 ^ 32 - 1 ->
  exists out',
    truehd_store_slot p_filter p_in_buf pad (Sys (Some out) off c)
    = Done (SPDIF_MORE_DATA, p_in_buf)
           (Sys (Some out')
                (off + (i_buffer p_in_buf + i_buffer p_in_buf mod 2 + pad))
                (c + 1))
    /\ i_buffer out' = i_buffer out
    /\ length (p_buffer out') = length (p_buffer out).
Proof.
  intros Hfmt Hsz Hpad (Hl & Ho & Hn & Hf & Hmax) Hc.
  set (n := i_buffer p_in_buf) in *.
  pose proof (Z.mod_pos_bound n 2 ltac:(lia)) as Hm.
  set (enc := encode p_filter (p_buffer p_in_buf) n
                     (input_big_endian p_filter p_in_buf)).
  assert (Henc : Z.of_nat (length enc) = n + n mod 2)
    by (subst enc; now rewrite length_encode by lia).
  set (out1 := set_i_length
                 (set_p_buffer out (splice (p_buffer out) off enc))
                 (i_length out + i_length p_in_buf)).
  assert (Hl1 : length (p_buffer out1) = length (p_buffer out))
    by (subst out1; cbn [p_buffer set_p_buffer set_i_length];
        apply length_splice; lia).
  exists (set_p_buffer out1
            (splice (p_buffer out1) (off + (n + n mod 2))
                    (replicate (Z.to_nat pad) 0))).
  split.
  { unfold truehd_store_slot, truehd_no_room.
    unfold bind at 1. unfold get at 1.
    unfold bind at 1. unfold assert_out_buf at 1.
    cbn [p_out_buf i_out_offset spec].
    rewrite (proj2 (Z.ltb_ge pad 0)) by lia. fold n.
    rewrite (to_size_t_small pad) by lia.
    rewrite !to_size_t_small by lia.
    rewrite (proj2 (Z.ltb_ge _ _)) by lia. cbn [orb].
    unfold bind at 1.
    rewrite write_buffer_spec;
      [|unfold room; fold n; lia|assumption
       |intros E; destruct Hfmt as [H|H]; rewrite H in E; discriminate].
    fold n. fold enc. fold out1.
    unfold bind at 1.
    rewrite write_padding_spec
      by (unfold room; rewrite Hl1; subst out1;
          cbn [i_buffer set_p_buffer set_i_length]; lia).
    unfold bind, get, set_spec, ret. cbn [p_out_buf i_out_offset spec].
    rewrite to_unsigned_small by lia.
    do 2 f_equal. lia. }
  cbn [i_buffer p_buffer set_p_buffer].
  split; [reflexivity|].
  rewrite length_splice; rewrite ?length_replicate; lia.
Qed.

(** X18. The TrueHD strategy pads every slot for the frame size as given,
    but the writer stores an odd frame on one byte more: after a frame of
    odd size in a plain slot (1 to 22, other than 11 and 12) the write
    offset is one byte past the start of the next slot, so every later
    frame of the MAT frame, and every code after it, lies one byte late. *)
Theorem truehd_odd_frame_shifts p_filter h p_in_buf k s :
  is_truehd p_filter ->
  1 <= k <= 22 -> k <> 11 -> k <> 12 ->
  truehd_inv p_filter k s ->
  0 <= i_buffer p_in_buf <= Z.of_nat (length (p_buffer p_in_buf)) ->
  i_buffer p_in_buf <= TRUEHD_FRAME_OFFSET ->
  exists s',
    DoWork p_filter h p_in_buf s
    = Done (Work SPDIF_MORE_DATA None [p_in_buf]) s'
    /\ spec s' = k + 1
    /\ i_out_offset s' = truehd_offset (k + 1) + i_buffer p_in_buf mod 2.
Proof.
  intros Hfmt Hk H11 H12 (out & Hout & Hl & Hi & Hoff & Hspec & _) Hsz Hfit.
  destruct s as [o off c]. cbn [p_out_buf i_out_offset spec] in *.
  subst o off c.
  unfold TRUEHD_FRAME_OFFSET in *.
  set (n := i_buffer p_in_buf) in *.
  pose proof (Z.mod_pos_bound n 2 ltac:(lia)) as Hm.
  assert (Hoffk : truehd_offset k = 2560 * k).
  { unfold truehd_offset, TRUEHD_FRAME_OFFSET.
    rewrite (proj2 (Z.eqb_neq k 12)) by lia. lia. }
  assert (Hoffk1 : truehd_offset (k + 1) = 2560 * k + 2560).
  { unfold truehd_offset, TRUEHD_FRAME_OFFSET.
    rewrite (proj2 (Z.eqb_neq (k + 1) 12)) by lia. lia. }
  destruct (truehd_store_slot_any p_filter p_in_buf (2560 - n)
              out (2560 * k) k Hfmt Hsz ltac:(lia))
    as (out2 & Hslot & _).
  { unfold room. fold n. lia. }
  { lia. }
  fold n in Hslot. eexists. split.
  { apply DoWork_more_data. rewrite strategy_truehd by assumption.
    rewrite truehd_in_progress. rewrite Hoffk.
    rewrite (proj2 (Z.eqb_neq k 0)), (proj2 (Z.eqb_neq k 11)),
      (proj2 (Z.eqb_neq k 12)), (proj2 (Z.eqb_neq k 23)) by lia.
    unfold bind at 1. unfold ret at 1.
    rewrite truehd_padding_value
      by (unfold TRUEHD_FRAME_OFFSET; fold n; lia).
    unfold TRUEHD_FRAME_OFFSET. fold n.
    replace (2560 - n - 0) with (2560 - n) by lia.
    exact Hslot. }
  cbn [spec i_out_offset]. split; [reflexivity|].
  rewrite Hoffk1. lia.
Qed.

End Properties.

(** * The properties on concrete runs *)

Section Runs.
#[local] Existing Instance demo_externals.

Ltac by_evaluation := vm_compute; repeat split; easy.

Lemma demo_aout_ok : aout_spdif_size_ok.
Proof. by_evaluation. Qed.

(** TrueHD, big-endian output: the three codes where the code puts them. *)
Lemma truehd_mat_codes_witness :
  exists ws w pkt s',
    feed demo_truehd ((demo_heap, truehd_first_frame) :: truehd_next_frames)
         (Open 0)
    = Done (ws ++ [w]) s'
    /\ length ws = 23%nat /\ p_out w = Some pkt
    /\ Z.of_nat (length (p_buffer pkt)) = 61440
    /\ sub_bytes 0 8 (p_buffer pkt)
       = burst_header demo_truehd IEC61937_TRUEHD (61440 - 16)
    /\ sub_bytes 8 20 (p_buffer pkt) = mat_code demo_truehd p_mat_start_code
    /\ sub_bytes (2560 * 12 - 4) 12 (p_buffer pkt)
       = mat_code demo_truehd p_mat_middle_code
    /\ sub_bytes (2560 * 24 - 24) 16 (p_buffer pkt)
       = mat_code demo_truehd p_mat_end_code.
Proof.
  apply truehd_mat_codes.
  - now left.
  - reflexivity.
  - reflexivity.
  - reflexivity.
  - reflexivity.
  - by_evaluation.
Defined.

(** C1 as stated fails: in the packet of that run the first 20 bytes are
    not the start code (the packet starts with the burst preamble), the 12
    bytes that end at offset 2560 x 12 - 4 are not the middle code, and the
    16 bytes that end at offset 2560 x 24 - 24 are not the end code. *)
Lemma truehd_mat_codes_as_stated_fail :
  Z.of_nat (length truehd_demo_packet) = 61440
  /\ sub_bytes 0 20 truehd_demo_packet <> p_mat_start_code
  /\ sub_bytes (2560 * 12 - 4 - 12) 12 truehd_demo_packet
     <> p_mat_middle_code
  /\ sub_bytes (2560 * 24 - 24 - 16) 16 truehd_demo_packet
     <> p_mat_end_code.
Proof. by_evaluation. Qed.



(** An E-AC-3 frame of six blocks is returned at once. *)
Lemma eac3_emits_unless_accumulating_witness :
  exists pkt,
    DoWork demo_eac3 demo_heap eac3_frame_6_blocks (Open 0)
    = Done (Work SPDIF_SUCCESS (Some pkt)
              [eac3_frame eac3_frame_6_blocks (eac3_header_8 6)])
           (Sys None eac3_size 0)
    /\ i_buffer pkt = eac3_size.
Proof.
  destruct (eac3_emits_unless_accumulating demo_eac3 demo_heap
              eac3_frame_6_blocks (eac3_header_8 6) (Open 0))
    as [H _].
  - exact demo_aout_ok.
  - exact I.
  - by_evaluation.
  - reflexivity.
  - reflexivity.
  - destruct (H eq_refl eq_refl) as (pkt & Hw & Hi & _).
    exists pkt. split; assumption.
Defined.

(** C4 as stated fails for a plain AC-3 header: the frame is appended and
    the call returns need-more-input, with the packet left in progress. *)
Lemma eac3_plain_ac3_not_emitted :
  summary (fun w => [w]) (DoWork demo_eac3 demo_heap (ac3_frame 1536) (Open 0))
  = Some ([(SPDIF_MORE_DATA, None)], 0, Some 24576).
Proof. vm_compute. reflexivity. Qed.

(** A DTS frame of 512 samples and 2048 bytes: the packet is the payload,
    here with its bytes exchanged in pairs for the little-endian output. *)
Lemma dts_strategy_witness :
  exists pkt s',
    DoWork demo_dts demo_heap dts_full_frame (Open 0)
    = Done (Work SPDIF_SUCCESS (Some pkt) [dts_full_frame]) s'
    /\ p_out_buf s' = None
    /\ i_buffer pkt = i_nb_samples dts_full_frame * 4
    /\ p_buffer pkt
       = if xorb (input_big_endian demo_dts dts_full_frame)
                 (b_output_big_endian demo_dts)
         then swab (take (Z.to_nat (i_buffer dts_full_frame))
                         (p_buffer dts_full_frame))
         else take (Z.to_nat (i_buffer dts_full_frame))
                   (p_buffer dts_full_frame).
Proof.
  destruct (dts_strategy demo_dts demo_heap dts_full_frame dts_full_frame
              (Open 0)) as [_ H].
  - reflexivity.
  - reflexivity.
  - reflexivity.
  - by_evaluation.
  - by_evaluation.
  - destruct (H IEC61937_DTS1 (or_introl (conj eq_refl eq_refl)))
      as [Hfull _].
    exact (Hfull eq_refl eq_refl).
Defined.

Lemma ac3_one_packet_per_frame_witness :
  exists pkt s',
    DoWork demo_ac3 demo_heap (ac3_frame 1536) (Open 0)
    = Done (Work SPDIF_SUCCESS (Some pkt) [ac3_frame 1536]) s'
    /\ p_out_buf s' = None
    /\ i_buffer pkt = A52_FRAME_NB * 4
    /\ Z.of_nat (length (p_buffer pkt)) = A52_FRAME_NB * 4
    /\ sub_bytes 0 4 (p_buffer pkt) = sync_words demo_ac3.
Proof.
  apply ac3_one_packet_per_frame.
  - reflexivity.
  - reflexivity.
  - reflexivity.
  - by_evaluation.
  - by_evaluation.
  - reflexivity.
Defined.

(** C6 as stated fails at the top of the range: an AC-3 frame of 6140 bytes
    with 1536 samples is within the maximum frame size 6144, and the call
    ends in error with no packet. *)
Lemma ac3_frame_without_room_for_header :
  summary (fun w => [w]) (DoWork demo_ac3 demo_heap (ac3_frame 6140) (Open 0))
  = Some ([(SPDIF_ERROR, None)], 0, None).
Proof. vm_compute. reflexivity. Qed.

(** An E-AC-3 session with a packet in progress and the counter at 7 is
    given eight bytes that are no sync frame: the call ends in error, the
    packet in progress is released before the input block, and the session
    is left empty. *)
Lemma flush_and_error_reset_witness :
  exists s',
    DoWork demo_eac3 demo_heap eac3_no_sync_frame eac3_past_six_state
    = Done (Work SPDIF_ERROR None
              (in_progress eac3_past_six_state ++ [eac3_no_sync_frame])) s'
    /\ length (in_progress eac3_past_six_state) = 1%nat
    /\ p_out_buf s' = None /\ spec s' = 0 /\ Flush s' = Done [] s'.
Proof.
  destruct flush_and_error_reset as (_ & Herror & _).
  destruct (Herror demo_eac3 demo_heap eac3_no_sync_frame eac3_past_six_state
              eac3_no_sync_frame eac3_past_six_state)
    as (s' & Hw & _ & Hnone & Hspec & Hflush).
  - reflexivity.
  - exists s'. repeat split; assumption.
Defined.

(** Three bytes appended at offset 2, byte orders differing. *)
Lemma write_data_odd_count_witness :
  exists buf,
    write_data demo_eac3 [1; 2; 3] 3 true
      (Sys (Some (demo_block [] 8 0)) 2 0)
    = Done tt (Sys (Some (set_p_buffer (demo_block [] 8 0) buf)) (2 + (3 + 1)) 0)
    /\ sub_bytes 2 (3 - 1) buf = [2; 1]
    /\ sub_bytes (2 + (3 - 1)) 2 buf = [0; 3].
Proof.
  destruct (write_data_odd_count demo_eac3 [1; 2; 3] 3 true
              (demo_block [] 8 0) 2 0 3)
    as (buf & Hw & _ & Hbody & Hword & _).
  - by_evaluation.
  - by_evaluation.
  - reflexivity.
  - reflexivity.
  - lia.
  - exists buf. repeat split; assumption.
Defined.

(** A 16-byte packet with 4 bytes of payload: finalized twice with data
    type 0x01 in bits; with no packet there is nothing to finalize. *)
Lemma write_finalize_twice_witness :
  write_finalize demo_ac3 IEC61937_AC3 8 (Sys None 12 0) = AssertFailed
  /\ exists out1 out2,
       write_finalize demo_ac3 IEC61937_AC3 8
         (Sys (Some (demo_block [] 16 4)) 12 0)
       = Done tt (Sys (Some out1) 16 0)
       /\ write_finalize demo_ac3 IEC61937_AC3 8 (Sys (Some out1) 16 0)
          = Done tt (Sys (Some out2) 16 0).
Proof.
  destruct (write_finalize_twice demo_ac3 IEC61937_AC3 8
              (demo_block [] 16 4) 12 0)
    as (Hnone & _ & Htwice).
  - by_evaluation.
  - by_evaluation.
  - split; [exact Hnone|].
    destruct Htwice as (out1 & out2 & H1 & H2 & _).
    + intros _. split; [reflexivity|right; reflexivity].
    + exists out1, out2. split; assumption.
Defined.

(** C9 as stated fails: a packet is begun, filled and finalized twice, and
    the second Finalize goes through. *)
Lemma finalize_twice_is_accepted :
  exists s, finalize_twice = Done tt s /\ i_out_offset s = 16.
Proof. eexists. split; vm_compute; reflexivity. Qed.

(** Past 6: two more frames of two blocks are appended in silence. *)
Lemma eac3_past_six_witness :
  exists ws s',
    feed demo_eac3
         [(demo_heap, eac3_frame_8 0x10); (demo_heap, eac3_frame_8 0x10)]
         eac3_past_six_state
    = Done ws s'
    /\ Forall quiet ws /\ length ws = 2%nat /\ spec s' = 7 + 4.
Proof.
  destruct (eac3_past_six demo_eac3
              [(demo_heap, eac3_frame_8 0x10); (demo_heap, eac3_frame_8 0x10)]
              [eac3_header_8 2; eac3_header_8 2] eac3_past_six_state)
    as (ws & s' & Hfeed & Hq & Hl & Hs & _).
  - exact demo_aout_ok.
  - reflexivity.
  - by_evaluation.
  - by_evaluation.
  - repeat constructor; by_evaluation.
  - repeat constructor; by_evaluation.
  - by_evaluation.
  - by_evaluation.
  - exists ws, s'. repeat split; assumption.
Defined.

(** C10 as stated fails: frames of 4096 bytes with 2, 2 and 3 blocks take
    the counter to 7; two more are appended; the sixth does not fit the
    24576-byte packet any more and its call ends in error, not in
    need-more-input, with the packet dropped and the counter back at 0. *)
Lemma eac3_past_six_ends_in_error :
  summary id
    (feed demo_eac3
          (map (fun b4 => (demo_heap, eac3_frame_4096 b4))
               [0x10; 0x10; 0x20]) (Open 0))
  = Some ([(SPDIF_MORE_DATA, None); (SPDIF_MORE_DATA, None);
           (SPDIF_MORE_DATA, None)], 7, Some 24576)
  /\ summary id
       (feed demo_eac3
             (map (fun b4 => (demo_heap, eac3_frame_4096 b4))
                  [0x10; 0x10; 0x20; 0x10; 0x10; 0x10]) (Open 0))
     = Some ([(SPDIF_MORE_DATA, None); (SPDIF_MORE_DATA, None);
              (SPDIF_MORE_DATA, None); (SPDIF_MORE_DATA, None);
              (SPDIF_MORE_DATA, None); (SPDIF_ERROR, None)], 0, None).
Proof. split; vm_compute; reflexivity. Qed.

(** Four zero bytes over the bytes 3 to 6 of a 16-byte packet. *)
Lemma write_padding_zeroes_witness :
  exists buf,
    write_padding 4 (Sys (Some demo_packet) 2 0)
    = Done tt (Sys (Some (set_p_buffer demo_packet buf)) (2 + 4) 0)
    /\ sub_bytes 2 4 buf = replicate (Z.to_nat 4) 0
    /\ sub_bytes 0 2 buf = sub_bytes 0 2 (p_buffer demo_packet).
Proof.
  destruct (write_padding_zeroes demo_packet 2 0 4)
    as (buf & Hw & _ & Hz & Hb & _).
  - by_evaluation.
  - exists buf. repeat split; assumption.
Defined.

(** Three bytes for the last three bytes of the packet. *)
Lemma writer_asserts_room_witness :
  write_data demo_ac3 [1; 2; 3] 3 true (Sys (Some demo_packet) 13 0)
  = AssertFailed.
Proof.
  destruct (writer_asserts_room demo_ac3 [1; 2; 3] true demo_packet 13 0 3)
    as (_ & _ & H).
  - reflexivity.
  - by_evaluation.
  - reflexivity.
  - apply H; by_evaluation.
Defined.

(** Four little-endian bytes for big-endian output. *)
Lemma write_data_even_count_witness :
  exists buf,
    write_data demo_ac3 [1; 2; 3; 4] 4 false (Sys (Some demo_packet) 2 0)
    = Done tt (Sys (Some (set_p_buffer demo_packet buf)) (2 + 4) 0)
    /\ sub_bytes 2 4 buf = [2; 1; 4; 3].
Proof.
  destruct (write_data_even_count demo_ac3 [1; 2; 3; 4] 4 false
              demo_packet 2 0)
    as (buf & Hw & _ & Hb & _).
  - by_evaluation.
  - by_evaluation.
  - reflexivity.
  - exists buf. split; assumption.
Defined.

(** Three bytes, for the two output formats. *)
Lemma write_data_little_is_swapped_big_witness :
  exists bufl bufb,
    write_data demo_eac3 [1; 2; 3] 3 true (Sys (Some demo_packet) 2 0)
    = Done tt (Sys (Some (set_p_buffer demo_packet bufl)) (2 + (3 + 3 mod 2)) 0)
    /\ write_data demo_ac3 [1; 2; 3] 3 true (Sys (Some demo_packet) 2 0)
       = Done tt (Sys (Some (set_p_buffer demo_packet bufb))
                      (2 + (3 + 3 mod 2)) 0)
    /\ sub_bytes 2 (3 + 3 mod 2) bufl
       = swab (sub_bytes 2 (3 + 3 mod 2) bufb).
Proof.
  apply (write_data_little_is_swapped_big demo_eac3 demo_ac3 [1; 2; 3] 3 true
           demo_packet 2 0).
  - reflexivity.
  - reflexivity.
  - by_evaluation.
  - by_evaluation.
Defined.

(** One AC-3 frame of 16 bytes on a fresh session. *)
Lemma DoWork_keeps_session_witness :
  DoWork demo_ac3 demo_heap (ac3_frame 16) (Open 0) <> OutOfBounds
  /\ forall w s',
       DoWork demo_ac3 demo_heap (ac3_frame 16) (Open 0) = Done w s' ->
       session_ok demo_ac3 s'
       /\ forall pkt, p_out w = Some pkt ->
            packet_ok demo_ac3 pkt /\ i_ret w = SPDIF_SUCCESS
            /\ p_out_buf s' = None.
Proof.
  apply (DoWork_keeps_session demo_ac3 demo_heap (ac3_frame 16) (Open 0)).
  - exact I.
  - split; [by_evaluation|]. split; [vm_compute; lia|by_evaluation].
Defined.

(** Three E-AC-3 frames of two blocks. *)
Lemma session_packets_ok_witness :
  feed demo_eac3
       [(demo_heap, eac3_frame_8 0x10); (demo_heap, eac3_frame_8 0x10);
        (demo_heap, eac3_frame_8 0x10)] (Open 0) <> OutOfBounds
  /\ forall ws s',
       feed demo_eac3
            [(demo_heap, eac3_frame_8 0x10); (demo_heap, eac3_frame_8 0x10);
             (demo_heap, eac3_frame_8 0x10)] (Open 0) = Done ws s' ->
       Forall (fun w => forall pkt, p_out w = Some pkt ->
                          packet_ok demo_eac3 pkt) ws.
Proof.
  apply (session_packets_ok demo_eac3
           [(demo_heap, eac3_frame_8 0x10); (demo_heap, eac3_frame_8 0x10);
            (demo_heap, eac3_frame_8 0x10)] 0).
  repeat constructor; by_evaluation.
Defined.

(** The first TrueHD frame with no memory left. *)
Lemma allocation_failure_witness :
  exists p_in',
    DoWork demo_truehd demo_heap_full truehd_first_frame (Open 0)
    = Done (Work SPDIF_ERROR None [p_in']) (Sys None 0 0)
    /\ p_buffer p_in' = p_buffer truehd_first_frame.
Proof.
  apply (allocation_failure demo_truehd demo_heap_full truehd_first_frame
           (Open 0)).
  - by_evaluation.
  - reflexivity.
  - reflexivity.
Defined.

(** A DTS frame with a sample count no packet exists for. *)
Lemma ac3_dts_frame_by_frame_witness :
  i_ret (Work SPDIF_ERROR None [dts_bad_frame]) <> SPDIF_MORE_DATA
  /\ p_out_buf (Sys None 0 0) = None
  /\ (i_ret (Work SPDIF_ERROR None [dts_bad_frame]) = SPDIF_SUCCESS
      <-> p_out (Work SPDIF_ERROR None [dts_bad_frame]) <> None).
Proof.
  apply (ac3_dts_frame_by_frame demo_dts demo_heap dts_bad_frame (Open 0)
           (Work SPDIF_ERROR None [dts_bad_frame]) (Sys None 0 0)).
  - now right.
  - reflexivity.
Defined.

(** The packet of an AC-3 frame of 16 bytes whose sixth byte is 0x40. *)
Lemma ac3_packet_layout_witness :
  exists pkt,
    DoWork demo_ac3 demo_heap (ac3_frame 16) (Open 0)
    = Done (Work SPDIF_SUCCESS (Some pkt) [ac3_frame 16])
           (Sys None (A52_FRAME_NB * 4) 0)
    /\ sub_bytes 0 SPDIF_HEADER_SIZE (p_buffer pkt)
       = burst_header demo_ac3
           (Z.lor IEC61937_AC3 (Z.shiftl (Z.land 0x40 0x7) 8)) (16 * 8)
    /\ i_nb_samples pkt = A52_FRAME_NB.
Proof.
  destruct (ac3_packet_layout demo_ac3 demo_heap (ac3_frame 16) (Open 0) 0x40)
    as (pkt & Hw & Hh & _ & _ & Hs & _).
  - reflexivity.
  - reflexivity.
  - reflexivity.
  - by_evaluation.
  - by_evaluation.
  - reflexivity.
  - reflexivity.
  - exists pkt. repeat split; assumption.
Defined.

(** An AC-3 frame of 16 bytes that comes with no sample count. *)
Lemma ac3_untagged_frame_witness :
  DoWork demo_ac3 demo_heap ac3_untagged (Open 0)
  = DoWork demo_ac3 demo_heap
      (set_i_nb_samples (set_i_buffer ac3_untagged 16) 1536) (Open 0).
Proof.
  destruct (ac3_untagged_frame demo_ac3 demo_heap ac3_untagged (Open 0))
    as [_ H].
  - reflexivity.
  - right. right. by_evaluation.
  - destruct (H (a52.Header false 16 1536 6 a52.EAC3_STRMTYP_INDEPENDENT 0)
                eq_refl) as [_ Hsame].
    apply Hsame; by_evaluation.
Defined.

(** Eight bytes that are no sync frame. *)
Lemma eac3_rejected_frame_witness :
  DoWork demo_eac3 demo_heap (demo_block [0; 0] 8 0) (Open 0)
  = Done (Work SPDIF_ERROR None
            (in_progress (Open 0) ++ [demo_block [0; 0] 8 0]))
         (Sys None (i_out_offset (Open 0)) 0).
Proof.
  apply (eac3_rejected_frame demo_eac3 demo_heap (demo_block [0; 0] 8 0)
           (Open 0)).
  - reflexivity.
  - exact I.
Defined.

(** Four bytes asked of a source of two. *)
Lemma write_data_reads_past_source_witness :
  write_data demo_ac3 [1; 2] 4 true (Sys (Some demo_packet) 2 0)
  = OutOfBounds.
Proof.
  apply (write_data_reads_past_source demo_ac3 [1; 2] 4 true demo_packet 2 0).
  - by_evaluation.
  - by_evaluation.
Defined.

(** A block of 16 bytes whose header announces a frame of 1024. *)
Lemma dts_parsed_size_unchecked_witness :
  DoWork (ext := demo_dts_externals) demo_dts demo_heap dts_untagged (Open 0)
  = OutOfBounds.
Proof.
  apply (dts_parsed_size_unchecked (ext := demo_dts_externals)
           demo_dts demo_heap dts_untagged (Open 0)
           (dts_header.Header 1024 512) IEC61937_DTS1).
  - reflexivity.
  - reflexivity.
  - reflexivity.
  - reflexivity.
  - by_evaluation.
  - right. by_evaluation.
  - reflexivity.
  - reflexivity.
Defined.

(** A DTS block of 512 samples and no payload, with two bytes behind
    [p_buffer]. *)
Lemma dts_empty_frame_witness :
  DoWork demo_dts demo_heap dts_empty (Open 0) = AssertFailed.
Proof.
  apply (dts_empty_frame demo_dts demo_heap dts_empty (Open 0) IEC61937_DTS1).
  - reflexivity.
  - reflexivity.
  - reflexivity.
  - reflexivity.
  - reflexivity.
Defined.

(** A first TrueHD frame of 2600 bytes. *)
Lemma truehd_frame_too_long_witness :
  exists out off,
    DoWork demo_truehd demo_heap truehd_long_frame (Open 0)
    = Done (Work SPDIF_ERROR None [out; truehd_long_frame]) (Sys None off 0).
Proof.
  apply (truehd_frame_too_long demo_truehd demo_heap truehd_long_frame
           (Open 0)).
  - now left.
  - reflexivity.
  - by_evaluation.
Defined.

(** An AC-3 frame of 16 bytes, then an E-AC-3 frame of six blocks and 8
    bytes: the packet announces 24 bytes. *)
Lemma eac3_ac3_frame_goes_with_next_witness :
  exists pkt,
    feed demo_eac3 [(demo_heap, ac3_frame 16);
                    (demo_heap, eac3_frame_6_blocks)] (Open 0)
    = Done [Work SPDIF_MORE_DATA None
              [eac3_frame (ac3_frame 16)
                 (a52.Header false 16 1536 6 a52.EAC3_STRMTYP_INDEPENDENT 0)];
            Work SPDIF_SUCCESS (Some pkt)
              [eac3_frame eac3_frame_6_blocks (eac3_header_8 6)]]
           (Sys None eac3_size 0)
    /\ i_buffer pkt = eac3_size
    /\ sub_bytes 0 SPDIF_HEADER_SIZE (p_buffer pkt)
       = burst_header demo_eac3 IEC61937_EAC3
           (to_uint16 (16 + 16 mod 2 + (8 + 8 mod 2))).
Proof.
  apply (eac3_ac3_frame_goes_with_next demo_eac3
           demo_heap (ac3_frame 16)
           (a52.Header false 16 1536 6 a52.EAC3_STRMTYP_INDEPENDENT 0)
           demo_heap eac3_frame_6_blocks (eac3_header_8 6) (Open 0)).
  - exact demo_aout_ok.
  - reflexivity.
  - reflexivity.
  - reflexivity.
  - reflexivity.
  - reflexivity.
  - by_evaluation.
  - by_evaluation.
  - reflexivity.
  - reflexivity.
  - reflexivity.
  - by_evaluation.
  - by_evaluation.
  - by_evaluation.
Defined.

(** A frame of 7 bytes in slot 1. *)
Lemma truehd_odd_frame_shifts_witness :
  exists s',
    DoWork demo_truehd demo_heap truehd_odd_frame truehd_one_frame_state
    = Done (Work SPDIF_MORE_DATA None [truehd_odd_frame]) s'
    /\ spec s' = 1 + 1
    /\ i_out_offset s' = truehd_offset (1 + 1) + i_buffer truehd_odd_frame mod 2.
Proof.
  apply (truehd_odd_frame_shifts demo_truehd demo_heap truehd_odd_frame 1
           truehd_one_frame_state).
  - now left.
  - lia.
  - lia.
  - lia.
  - exists truehd_one_frame_packet.
    split; [reflexivity|]. split; [vm_compute; reflexivity|].
    split; [reflexivity|]. split; [reflexivity|]. split; [reflexivity|].
    split; [vm_compute; reflexivity|]. intros H. lia.
  - by_evaluation.
  - by_evaluation.
Defined.


End Runs.
